(** * GeoSpeak corpus manager: retrieval engine

    A shallow embedding of [CorpusManager] (corpus_manager.py): the corpus
    store ([save_corpus], [load_corpus]), the index builder
    ([build_vector_index], [load_vector_index]), the retrieval engine
    ([search_similar_texts]) and the context assembler
    ([get_context_examples], [get_language_name]).

    The embedding model and the FAISS index are external services; they are
    the fields of the class [Services] and every definition is parametric in
    them.  Instance attributes ([indexes], [metadata]) and the files under
    [corpus_dir] form the explicit state threaded through a small
    state-and-exception monad. *)

From stdpp Require Import gmap strings list fin_maps.
From Stdlib Require Import Ascii QArith Sorting.Sorted Sorting.Permutation.

Local Open Scope string_scope.
Local Open Scope Z_scope.
Local Open Scope list_scope.

(** ** Python values and exceptions *)

(** The exceptions the modelled code can raise. *)
Inductive exn :=
| IndexError        (* list index out of range *)
| KeyError          (* missing dict key *)
| JSONDecodeError   (* json.load on a file that is not JSON *)
| AttributeError    (* .get on a JSON document that is not an object *)
| TypeError         (* a value outside the annotated type List[Dict] *)
| RuntimeError      (* faiss.read_index on a file that is not an index *)
| UnpicklingError.  (* pickle.load on a file that is not a pickle *)

Inductive outcome (A : Type) :=
| Ok (a : A)
| Raise (e : exn).
Arguments Ok {A} a.
Arguments Raise {A} e.

(** [bool(s)] for a string. *)
Definition str_truthy (s : string) : bool :=
  match s with
  | EmptyString => false
  | String _ _ => true
  end.

(** [bool(x)] for an optional string ([None] is falsy, so is the empty string). *)
Definition truthy (o : option string) : bool :=
  match o with
  | None => false
  | Some s => str_truthy s
  end.

(** [l[i]] for a Python list and an integer [i]: negative [i] counts from the
    end, anything outside [-len(l) <= i < len(l)] raises IndexError. *)
Definition py_index {A : Type} (l : list A) (i : Z) : outcome A :=
  let n := Z.of_nat (length l) in
  let j := if i <? 0 then i + n else i in
  if (0 <=? j) && (j <? n) then
    match l !! Z.to_nat j with
    | Some x => Ok x
    | None => Raise IndexError
    end
  else Raise IndexError.

(** [l[:k]] for a Python list and an integer [k]: a negative [k] drops the
    last [-k] elements. *)
Definition py_slice_to {A : Type} (k : Z) (l : list A) : list A :=
  if 0 <=? k then take (Z.to_nat k) l
  else take (length l - Z.to_nat (- k))%nat l.

(** A Python dict whose iteration order is observed: keys in insertion
    order, assignment to an existing key keeps its place. *)
Definition odict (V : Type) := list (string * V).

Fixpoint odict_get {V : Type} (k : string) (d : odict V) : option V :=
  match d with
  | [] => None
  | (k', v) :: d' => if decide (k = k') then Some v else odict_get k d'
  end.

Fixpoint odict_set {V : Type} (k : string) (v : V) (d : odict V) : odict V :=
  match d with
  | [] => [(k, v)]
  | (k', v') :: d' =>
      if decide (k = k') then (k, v) :: d' else (k', v') :: odict_set k v d'
  end.

Definition odict_keys {V : Type} (d : odict V) : list string := d.*1.

Definition odict_mem {V : Type} (k : string) (d : odict V) : bool :=
  bool_decide (is_Some (odict_get k d)).

(** [os.path.join(a, b)] on POSIX paths. *)
Definition is_abs (p : string) : bool :=
  match p with
  | String "/"%char _ => true
  | _ => false
  end.

Fixpoint ends_with_slash (p : string) : bool :=
  match p with
  | EmptyString => false
  | String c EmptyString => bool_decide (c = "/"%char)
  | String _ p' => ends_with_slash p'
  end.

Definition os_path_join (a b : string) : string :=
  if is_abs b then b
  else if str_truthy a && negb (ends_with_slash a) then a +:+ "/" +:+ b
  else a +:+ b.

(** ** JSON documents *)

(** What [json.dump] writes and [json.load] reads back.  Object members are
    kept in document order. *)
#[local] Unset Elimination Schemes.
Inductive json :=
| JString (s : string)
| JInt (n : Z)
| JArray (items : list json)
| JObject (members : list (string * json)).
#[local] Set Elimination Schemes.

(** The value [json.load] gives to key [k] of an object: of several members
    with the same key the last one wins. *)
Definition json_get (k : string) (members : list (string * json)) : option json :=
  odict_get k (reverse members).

(** ** Data model *)

(** An entry: language code to phrase text. *)
Abbreviation Entry := (gmap string string).

(** A metadata record, the dict built at lines 561-565. *)
Record MetadataRecord := {
  corpus : string;
  index : nat;
  translations : Entry
}.

(** A search result: the copied metadata record with the two keys added at
    lines 634-635. *)
Record SearchResult := {
  record : MetadataRecord;
  similarity_score : Q;
  corpus_name : string
}.

(** [json.dump] of an entry and of an entry list ([ensure_ascii] and [indent]
    only change the text, not the document). Python writes the members of a
    dict in insertion order; with distinct keys [json.load] does not observe
    the order, and the members are listed here in the map's own order. *)
Definition entry_to_json (e : Entry) : json :=
  JObject (prod_map id JString <$> map_to_list e).

Definition entries_to_json (data : list Entry) : json :=
  JArray (entry_to_json <$> data).

(** Reading a JSON value back at the annotated type [List[Dict]] with string
    texts.  Python itself returns whatever the document holds; a document
    outside that type is reported as [None] here and surfaces as TypeError
    in [load_corpus]. *)
Fixpoint members_to_texts (ms : list (string * json)) : option (list (string * string)) :=
  match ms with
  | [] => Some []
  | (k, JString v) :: ms' =>
      match members_to_texts ms' with
      | Some kvs => Some ((k, v) :: kvs)
      | None => None
      end
  | _ => None
  end.

Definition entry_of_json (j : json) : option Entry :=
  match j with
  | JObject ms =>
      match members_to_texts ms with
      | Some kvs => Some (list_to_map (reverse kvs))
      | None => None
      end
  | _ => None
  end.

Fixpoint entries_of_items (items : list json) : option (list Entry) :=
  match items with
  | [] => Some []
  | j :: items' =>
      match entry_of_json j, entries_of_items items' with
      | Some e, Some es => Some (e :: es)
      | _, _ => None
      end
  end.

Definition entries_of_json (j : json) : option (list Entry) :=
  match j with
  | JArray items => entries_of_items items
  | _ => None
  end.

(** ** External services *)

(** The embedding provider and the FAISS inner-product index, as the code
    uses them.
    - [embed t] is the row [encode([.., t, ..], convert_to_numpy=True)] holds
      for text [t]: one row per text, in input order;
    - [normalize_L2] and [astype_float32] act on one row;
    - [index_search xb q k] is [zip(scores[0], indices[0])] of
      [index.search(q, k)] for a query matrix [q] on an index holding the
      rows [xb]. Scores are finite floats, given by their exact rational
      value. *)
Class Services := {
  Vec : Type;
  embed : string → Vec;
  normalize_L2 : Vec → Vec;
  astype_float32 : Vec → Vec;
  index_search : list Vec → list Vec → Z → list (Q * Z)
}.

Section Model.
Context `{Services}.

(** A [faiss.IndexFlatIP]: its dimension and the rows added so far. *)
Record Index := {
  dim : Z;
  xb : list Vec
}.

Definition ntotal (ix : Index) : nat := length (xb ix).

(** Files under [corpus_dir]. *)
Inductive file :=
| JsonFile (doc : json)
| FaissFile (ix : Index)
| PickleFile (md : list MetadataRecord).

(** Calls made to the external services, oldest first. The log records
    the calls that compute: the embedding of texts, the construction of an
    index, the addition of rows and a search. Reading and writing an index
    file ([faiss.read_index], [faiss.write_index]) and the normalisation of
    rows are not events: an unchanged log says that nothing was embedded,
    built, added or searched, not that FAISS was not called. *)
Inductive event :=
| Encode (texts : list string)
| IndexNew (d : Z)
| IndexAdd (rows : nat)
| IndexSearch (c : string) (k : Z).

(** The manager's attributes ([corpus_dir], [vector_dim], [indexes],
    [metadata]), the files under the corpus directory by path, the clock
    read by [datetime.now().isoformat()], and the log of calls to the
    external services. *)
Record State := {
  corpus_dir : string;
  vector_dim : Z;
  indexes : odict Index;
  metadata : gmap string (list MetadataRecord);
  fs : gmap string file;
  clock : string;
  calls : list event
}.

Definition with_indexes (f : odict Index → odict Index) (s : State) : State :=
  {| corpus_dir := corpus_dir s; vector_dim := vector_dim s;
     indexes := f (indexes s); metadata := metadata s; fs := fs s;
     clock := clock s; calls := calls s |}.

Definition with_metadata
    (f : gmap string (list MetadataRecord) → gmap string (list MetadataRecord))
    (s : State) : State :=
  {| corpus_dir := corpus_dir s; vector_dim := vector_dim s;
     indexes := indexes s; metadata := f (metadata s); fs := fs s;
     clock := clock s; calls := calls s |}.

Definition with_fs (f : gmap string file → gmap string file) (s : State) : State :=
  {| corpus_dir := corpus_dir s; vector_dim := vector_dim s;
     indexes := indexes s; metadata := metadata s; fs := f (fs s);
     clock := clock s; calls := calls s |}.

Definition with_calls (evs : list event) (s : State) : State :=
  {| corpus_dir := corpus_dir s; vector_dim := vector_dim s;
     indexes := indexes s; metadata := metadata s; fs := fs s;
     clock := clock s; calls := calls s ++ evs |}.

Definition with_call (e : event) : State → State := with_calls [e].

(** ** The state-and-exception monad *)

(** A method call maps the state before it to its outcome and the state
    after it; an exception keeps the state changes made before it. *)
Definition M (A : Type) : Type := State → outcome A * State.

#[global] Instance M_ret : MRet M := λ A a s, (Ok a, s).

#[global] Instance M_bind : MBind M := λ A B f m s,
  match m s with
  | (Ok a, s1) => f a s1
  | (Raise e, s1) => (Raise e, s1)
  end.

Definition raise {A : Type} (e : exn) : M A := λ s, (Raise e, s).
Definition gets {A : Type} (f : State → A) : M A := λ s, (Ok (f s), s).
Definition modify (f : State → State) : M unit := λ s, (Ok tt, f s).
Definition lift {A : Type} (o : outcome A) : M A := λ s, (o, s).

(** [os.path.exists] and writing a file, on a POSIX file system. Files are
    kept by path string: a write always succeeds, and two paths are the same
    file exactly when they are the same string. This is what the code does
    for the paths of plain corpus names ([plain_name]: no directory
    separator, no NUL character): those files lie in [corpus_dir] itself,
    which the constructor creates. Under a name with a separator the real
    write needs the parent directory to exist, and different names can reach
    one file; which files a write leaves alone is stated for plain names.
    Limits of the file system itself (permissions, space, the length of a
    name) are not part of the model. *)
Definition path_exists (p : string) : M bool :=
  gets (λ s, bool_decide (is_Some (fs s !! p))).

Definition write_file (p : string) (f : file) : M unit :=
  modify (with_fs <[p := f]>).

(** Calls to the external services; each is logged in [calls]. FAISS
    refuses rows whose width is not the index's dimension; the width of the
    embedding model (384) is the default [vector_dim], and the check is not
    modelled. [index.search] also asserts [k > 0]; [faiss_search] returns
    what [index_search] gives for every [k], and the properties that state
    that a search returns are stated for [0 < k]. *)
Definition encode (texts : list string) : M (list Vec) := λ s,
  (Ok (embed <$> texts), with_call (Encode texts) s).

Definition IndexFlatIP (d : Z) : M Index := λ s,
  (Ok {| dim := d; xb := [] |}, with_call (IndexNew d) s).

Definition index_add (ix : Index) (rows : list Vec) : M Index := λ s,
  (Ok {| dim := dim ix; xb := xb ix ++ rows |}, with_call (IndexAdd (length rows)) s).

Definition faiss_search (c : string) (ix : Index) (q : list Vec) (k : Z)
    : M (list (Q * Z)) := λ s,
  (Ok (index_search (xb ix) q k), with_call (IndexSearch c k) s).

(** ** Corpus store *)

Definition corpus_file (corpus_name : string) : M string :=
  gets (λ s, os_path_join (corpus_dir s) (corpus_name +:+ ".json")).

Definition index_file (corpus_name : string) : M string :=
  gets (λ s, os_path_join (corpus_dir s) (corpus_name +:+ "_index.faiss")).

Definition metadata_file (corpus_name : string) : M string :=
  gets (λ s, os_path_join (corpus_dir s) (corpus_name +:+ "_metadata.pkl")).

(** [save_corpus], lines 524-533. *)
Definition save_corpus (corpus_name : string) (data : list Entry) : M unit :=
  filepath ← corpus_file corpus_name;
  now ← gets clock;
  write_file filepath
    (JsonFile (JObject [("name", JString corpus_name);
                        ("data", entries_to_json data);
                        ("created_at", JString now);
                        ("count", JInt (Z.of_nat (length data)))])).

(** [load_corpus], lines 535-543. The code returns the value of ['data']
    unchecked; here a value outside the annotated type [List[Dict]] raises
    TypeError (see [entries_of_json]). On a corpus file that is absent or of
    that type ([corpus_file_typed]), as every file written by [save_corpus]
    is, the two agree, and the properties that depend on what [load_corpus]
    returns are stated for such files. *)
Definition load_corpus (corpus_name : string) : M (list Entry) :=
  filepath ← corpus_file corpus_name;
  present ← path_exists filepath;
  if negb present then mret []
  else
    f ← gets (λ s, fs s !! filepath);
    match f with
    | Some (JsonFile (JObject corpus_info)) =>
        match json_get "data" corpus_info with
        | None => mret []
        | Some v =>
            match entries_of_json v with
            | Some data => mret data
            | None => raise TypeError
            end
        end
    | Some (JsonFile _) => raise AttributeError
    | _ => raise JSONDecodeError
    end.

(** ** Index builder *)

(** The loop of lines 558-565 over [enumerate(data)], started at position
    [idx]: the texts and the metadata records, appended together. *)
Fixpoint extract_texts (corpus_name source_lang : string) (idx : nat)
    (data : list Entry) : list string * list MetadataRecord :=
  match data with
  | [] => ([], [])
  | entry :: data' =>
      let '(texts, md) := extract_texts corpus_name source_lang (S idx) data' in
      match entry !! source_lang with
      | Some text =>
          (text :: texts,
           {| corpus := corpus_name; index := idx; translations := entry |} :: md)
      | None => (texts, md)
      end
  end.

(** [build_vector_index], lines 545-594. *)
Definition build_vector_index (corpus_name source_lang : string) : M unit :=
  data ← load_corpus corpus_name;
  if bool_decide (data = []) then mret tt
  else
    let '(texts, md) := extract_texts corpus_name source_lang 0 data in
    if bool_decide (texts = []) then mret tt
    else
      embeddings ← encode texts;
      d ← gets vector_dim;
      index0 ← IndexFlatIP d;
      let embeddings := normalize_L2 <$> embeddings in
      index1 ← index_add index0 (astype_float32 <$> embeddings);
      modify (with_indexes (odict_set corpus_name index1));;
      modify (with_metadata <[corpus_name := md]>);;
      index_path ← index_file corpus_name;
      metadata_path ← metadata_file corpus_name;
      write_file index_path (FaissFile index1);;
      write_file metadata_path (PickleFile md).

(** [load_vector_index], lines 596-606. *)
Definition load_vector_index (corpus_name : string) : M bool :=
  index_path ← index_file corpus_name;
  metadata_path ← metadata_file corpus_name;
  e1 ← path_exists index_path;
  e2 ← path_exists metadata_path;
  if e1 && e2 then
    f ← gets (λ s, fs s !! index_path);
    match f with
    | Some (FaissFile ix) => modify (with_indexes (odict_set corpus_name ix))
    | _ => raise RuntimeError
    end;;
    g ← gets (λ s, fs s !! metadata_path);
    match g with
    | Some (PickleFile md) => modify (with_metadata <[corpus_name := md]>)
    | _ => raise UnpicklingError
    end;;
    mret true
  else mret false.

(** ** Retrieval engine *)

(** The result lines 633-635 build from the stored record [r]. *)
Definition annotate (corpus : string) (score : Q) (r : MetadataRecord)
    : SearchResult :=
  {| record := r; similarity_score := score; corpus_name := corpus |}.

(** The inner loop, lines 631-636: [results] grows by one result per hit
    that passes the test of line 632. *)
Fixpoint collect_hits (corpus : string) (hits : list (Q * Z))
    (results : list SearchResult) : M (list SearchResult) :=
  match hits with
  | [] => mret results
  | (score, idx) :: hits' =>
      m ← gets (λ s, metadata s !! corpus);
      match m with
      | None => raise KeyError
      | Some md =>
          if idx <? Z.of_nat (length md) then
            r ← lift (py_index md idx);
            collect_hits corpus hits' (results ++ [annotate corpus score r])
          else collect_hits corpus hits' results
      end
  end.

(** The outer loop, lines 623-636. *)
Fixpoint search_corpora (corpora : list string) (q : list Vec) (k : Z)
    (results : list SearchResult) : M (list SearchResult) :=
  match corpora with
  | [] => mret results
  | corpus :: rest =>
      i ← gets (λ s, odict_get corpus (indexes s));
      match i with
      | None => search_corpora rest q k results
      | Some ix =>
          hits ← faiss_search corpus ix q k;
          results' ← collect_hits corpus hits results;
          search_corpora rest q k results'
      end
  end.

(** [a < b] on scores, the only comparison [list.sort] makes. *)
Definition score_lt (a b : Q) : bool := negb (Qle_bool b a).

(** [results.sort(key=similarity_score, reverse=True)]: Python's sort is
    stable, also with [reverse=True], and a stable sort has one possible
    result (see [stable_sort_unique]); it is computed here by insertion. *)
Fixpoint insert_desc (r : SearchResult) (l : list SearchResult) : list SearchResult :=
  match l with
  | [] => [r]
  | x :: l' =>
      if score_lt (similarity_score r) (similarity_score x)
      then x :: insert_desc r l'
      else r :: x :: l'
  end.

Definition sort_desc (results : list SearchResult) : list SearchResult :=
  foldr insert_desc [] results.

(** Line 621. *)
Definition corpora_to_search (corpus_name : option string) (s : State)
    : list string :=
  if truthy corpus_name then [default "" corpus_name]
  else odict_keys (indexes s).

(** Lines 618-636: the encoded query, the corpora to search and the merged
    candidate list [results] as it stands before the sort. *)
Definition gather_results (query : string) (corpus_name : option string) (k : Z)
    : M (list SearchResult) :=
  query_embedding ← encode [query];
  let query_embedding := normalize_L2 <$> query_embedding in
  corpora ← gets (corpora_to_search corpus_name);
  search_corpora corpora (astype_float32 <$> query_embedding) k [].

(** Lines 610-612: a named corpus that is not registered is loaded from
    disk; [false] stands for the early [return []]. *)
Definition ensure_loaded (corpus_name : option string) : M bool :=
  registered ← gets (λ s, odict_mem (default "" corpus_name) (indexes s));
  if truthy corpus_name && negb registered
  then load_vector_index (default "" corpus_name)
  else mret true.

(** [search_similar_texts], lines 608-640. *)
Definition search_similar_texts (query : string) (corpus_name : option string)
    (k : Z) : M (list SearchResult) :=
  found ← ensure_loaded corpus_name;
  if negb found then mret []
  else
    results ← gather_results query corpus_name k;
    mret (py_slice_to k (sort_desc results)).

(** The candidates of a search: [results] as it stands at line 637, before
    the sort and the slice, and no candidate after the early return. *)
Definition candidates (query : string) (corpus_name : option string) (k : Z)
    : M (list SearchResult) :=
  found ← ensure_loaded corpus_name;
  if negb found then mret [] else gather_results query corpus_name k.

(** The inner loop as a function of the corpus's metadata list. *)
Fixpoint join_hits (corpus : string) (md : list MetadataRecord)
    (hits : list (Q * Z)) : outcome (list SearchResult) :=
  match hits with
  | [] => Ok []
  | (score, idx) :: hits' =>
      if idx <? Z.of_nat (length md) then
        match py_index md idx, join_hits corpus md hits' with
        | Ok r, Ok l => Ok (annotate corpus score r :: l)
        | Raise e, _ => Raise e
        | _, Raise e => Raise e
        end
      else join_hits corpus md hits'
  end.

(** The hits the index of corpus [c] returns for the query matrix [q], no
    hit for a corpus without a registered index. *)
Definition corpus_hits (s : State) (q : list Vec) (k : Z) (c : string)
    : list (Q * Z) :=
  match odict_get c (indexes s) with
  | Some ix => index_search (xb ix) q k
  | None => []
  end.

(** What the inner loop adds to [results] for corpus [c]: [metadata[c]] is
    only read when there is a hit. *)
Definition corpus_candidates (s : State) (c : string) (hits : list (Q * Z))
    : outcome (list SearchResult) :=
  match hits, metadata s !! c with
  | [], _ => Ok []
  | _ :: _, None => Raise KeyError
  | _ :: _, Some md => join_hits c md hits
  end.

(** The query matrix handed to [index.search], lines 615-616 and 628. *)
Definition query_matrix (query : string) : list Vec :=
  astype_float32 <$> (normalize_L2 <$> (embed <$> [query])).

(** ** Context assembler *)

(** [get_language_name], lines 660-685. *)
Definition language_names : list (string * string) :=
  [("es", "Spanish"); ("fr", "French"); ("de", "German"); ("it", "Italian");
   ("pt", "Portuguese"); ("ja", "Japanese"); ("ko", "Korean"); ("zh", "Chinese");
   ("ar", "Arabic"); ("hi", "Hindi"); ("ur", "Urdu"); ("ru", "Russian");
   ("nl", "Dutch"); ("sv", "Swedish"); ("no", "Norwegian"); ("da", "Danish");
   ("pl", "Polish"); ("tr", "Turkish"); ("he", "Hebrew"); ("th", "Thai");
   ("vi", "Vietnamese")].

Definition get_language_name (code : string) : string :=
  default code (odict_get code language_names).

Definition dquote : string := String "034"%char EmptyString.
Definition newline : string := String "010"%char EmptyString.

(** The f-string of line 650. *)
Definition format_example (target_language en_text target_text : string) : string :=
  "English: " +:+ dquote +:+ en_text +:+ dquote +:+ newline +:+
  get_language_name target_language +:+ ": " +:+ dquote +:+ target_text +:+ dquote.

(** [sep.join(l)]. *)
Fixpoint str_join (sep : string) (l : list string) : string :=
  match l with
  | [] => ""
  | [x] => x
  | x :: l' => x +:+ sep +:+ str_join sep l'
  end.

(** The loop of lines 647-654; [context_examples] is the list built so far. *)
Fixpoint collect_examples (target_language : string) (max_examples : Z)
    (similar_texts : list SearchResult) (context_examples : list string)
    : list string :=
  match similar_texts with
  | [] => context_examples
  | result :: rest =>
      let translations := translations (record result) in
      match translations !! "en", translations !! target_language with
      | Some en_text, Some target_text =>
          let context_examples :=
            context_examples ++ [format_example target_language en_text target_text] in
          if max_examples <=? Z.of_nat (length context_examples)
          then context_examples
          else collect_examples target_language max_examples rest context_examples
      | _, _ => collect_examples target_language max_examples rest context_examples
      end
  end.

(** Lines 656-658. *)
Definition render_examples (context_examples : list string) : string :=
  if bool_decide (context_examples = []) then ""
  else "Translation examples:" +:+ newline
       +:+ str_join (newline +:+ newline) context_examples
       +:+ newline +:+ newline.

(** [get_context_examples], lines 642-658. *)
Definition get_context_examples (query target_language : string)
    (max_examples : Z) : M string :=
  similar_texts ← search_similar_texts query None (max_examples * 2);
  mret (render_examples (collect_examples target_language max_examples similar_texts [])).

(** The example line 650 formats for a result, when line 649 selects it. *)
Definition example_of (target_language : string) (result : SearchResult)
    : option string :=
  let translations := translations (record result) in
  match translations !! "en", translations !! target_language with
  | Some en_text, Some target_text =>
      Some (format_example target_language en_text target_text)
  | _, _ => None
  end.

(** ** Registry invariant and ordering of results *)

(** The registry as [build_vector_index] leaves it: every registered index
    comes with a non-empty metadata list. *)
Definition registry_ok (s : State) : Prop :=
  ∀ c ix, odict_get c (indexes s) = Some ix →
    ∃ md, metadata s !! c = Some md ∧ md ≠ [].

(** FAISS labels: a position, or [-1] as padding. *)
Definition labels_ok (s : State) (q : list Vec) (k : Z) : Prop :=
  ∀ c ix, odict_get c (indexes s) = Some ix →
    Forall (λ h : Q * Z, -1 ≤ h.2) (index_search (xb ix) q k).

End Model.

(** [a] may stand before [b] in a list sorted by score, best first. *)
Definition ge_score (a b : SearchResult) : Prop :=
  (similarity_score b <= similarity_score a)%Q.

(** The results whose score equals [q]. *)
Definition same_score (q : Q) (r : SearchResult) : bool :=
  Qeq_bool (similarity_score r) q.

(** ** Object identity in the result loop *)

(** Lines 631-636 on the level of Python objects: the store maps the
    address of a dict object to its items, a metadata list is a list of
    addresses, and a record's ['translations'] value is the address of the
    entry's dict. *)
Abbreviation loc := positive.

Inductive pyval :=
| VStr (s : string)
| VInt (n : Z)
| VFloat (q : Q)
| VRef (l : loc).

Abbreviation pydict := (gmap string pyval).
Abbreviation store := (gmap loc pydict).

(** [d.copy()]: a new dict object with the items of the dict at [l]; the
    values are shared, not copied. *)
Definition dict_copy (l : loc) (h : store) : loc * store :=
  let l' := fresh (dom h) in (l', <[l' := h !!! l]> h).

(** [d[key] = v] for the dict at [l]. *)
Definition dict_setitem (l : loc) (key : string) (v : pyval) (h : store) : store :=
  alter <[key := v]> l h.

(** The loop of lines 631-636 for one corpus whose metadata list holds the
    addresses [md]. *)
Fixpoint collect_hits_store (corpus : string) (md : list loc)
    (hits : list (Q * Z)) (results : list loc) (h : store)
    : outcome (list loc) * store :=
  match hits with
  | [] => (Ok results, h)
  | (score, idx) :: hits' =>
      if idx <? Z.of_nat (length md) then
        match py_index md idx with
        | Raise e => (Raise e, h)
        | Ok l =>
            let '(result, h) := dict_copy l h in
            let h := dict_setitem result "similarity_score" (VFloat score) h in
            let h := dict_setitem result "corpus_name" (VStr corpus) h in
            collect_hits_store corpus md hits' (results ++ [result]) h
        end
      else collect_hits_store corpus md hits' results h
  end.

(** The dict object of a metadata record whose entry lives at [t]. *)
Definition record_dict (r : MetadataRecord) (t : loc) : pydict :=
  {[ "corpus" := VStr (corpus r);
     "index" := VInt (Z.of_nat (index r));
     "translations" := VRef t ]}.

(** The object at [l] is the metadata record [r]. *)
Definition is_record (h : store) (l : loc) (r : MetadataRecord) : Prop :=
  ∃ t, h !! l = Some (record_dict r t)
       ∧ h !! t = Some (VStr <$> translations r).

(** The object at [l] is the search result [sr]. *)
Definition is_result (h : store) (l : loc) (sr : SearchResult) : Prop :=
  ∃ t, h !! l = Some (<["corpus_name" := VStr (corpus_name sr)]>
                        (<["similarity_score" := VFloat (similarity_score sr)]>
                           (record_dict (record sr) t)))
       ∧ h !! t = Some (VStr <$> translations (record sr)).

(** ** Sample corpora, lifecycle and clients *)

(** *** Sample corpora and corpus sources

    The literals of [create_sample_corpora] (lines 161-518) and of
    [__init__] (lines 33-154), entry by entry. *)

Module Sample.

Definition opensubtitles_data : list Entry :=
  [ {[ "en" := "Hello, how are you?"; "es" := "Hola, ¿cómo estás?"; "fr" := "Salut, comment ça va?"; "de" := "Hallo, wie geht es dir?"; "ur" := "ہیلو، آپ کیسے ہیں؟" ]};
    {[ "en" := "Nice to meet you!"; "es" := "¡Encantado de conocerte!"; "fr" := "Ravi de vous rencontrer!"; "de" := "Freut mich, dich kennenzulernen!"; "ur" := "آپ سے مل کر خوشی ہوئی!" ]};
    {[ "en" := "What's your name?"; "es" := "¿Cómo te llamas?"; "fr" := "Comment tu t'appelles?"; "de" := "Wie heißt du?"; "ur" := "آپ کا نام کیا ہے؟" ]};
    {[ "en" := "I'm fine, thank you"; "es" := "Estoy bien, gracias"; "fr" := "Je vais bien, merci"; "de" := "Mir geht es gut, danke"; "ur" := "میں ٹھیک ہوں، شکریہ" ]};
    {[ "en" := "See you later!"; "es" := "¡Hasta luego!"; "fr" := "À plus tard!"; "de" := "Bis später!"; "ur" := "بعد میں ملیں گے!" ]};
    {[ "en" := "Good morning!"; "es" := "¡Buenos días!"; "fr" := "Bonjour!"; "de" := "Guten Morgen!"; "ur" := "صبح بخیر!" ]};
    {[ "en" := "Have a great day!"; "es" := "¡Que tengas un buen día!"; "fr" := "Passez une excellente journée!"; "de" := "Hab einen schönen Tag!"; "ur" := "آپ کا دن اچھا گزرے!" ]};
    {[ "en" := "I love this movie"; "es" := "Me encanta esta película"; "fr" := "J'adore ce film"; "de" := "Ich liebe diesen Film"; "ur" := "مجھے یہ فلم پسند ہے" ]};
    {[ "en" := "What time is it?"; "es" := "¿Qué hora es?"; "fr" := "Quelle heure est-il?"; "de" := "Wie spät ist es?"; "ur" := "کیا وقت ہے؟" ]};
    {[ "en" := "I'm sorry"; "es" := "Lo siento"; "fr" := "Je suis désolé"; "de" := "Es tut mir leid"; "ur" := "میں معافی چاہتا ہوں" ]} ].

Definition medical_data : list Entry :=
  [ {[ "en" := "Blood pressure"; "es" := "Presión arterial"; "fr" := "Tension artérielle"; "de" := "Blutdruck"; "ur" := "بلڈ پریشر" ]};
    {[ "en" := "Heart rate"; "es" := "Frecuencia cardíaca"; "fr" := "Rythme cardiaque"; "de" := "Herzfrequenz"; "ur" := "دل کی رفتار" ]};
    {[ "en" := "Body temperature"; "es" := "Temperatura corporal"; "fr" := "Température corporelle"; "de" := "Körpertemperatur"; "ur" := "جسم کا درجہ حرارت" ]};
    {[ "en" := "Check your temperature"; "es" := "Revisa tu temperatura"; "fr" := "Vérifiez votre température"; "de" := "Überprüfen Sie Ihre Temperatur"; "ur" := "اپنا درجہ حرارت چیک کریں" ]};
    {[ "en" := "You have a fever"; "es" := "Tienes fiebre"; "fr" := "Vous avez de la fièvre"; "de" := "Sie haben Fieber"; "ur" := "آپ کو بخار ہے" ]};
    {[ "en" := "Feeling hot and feverish"; "es" := "Sintiéndose caliente y febril"; "fr" := "Se sentir chaud et fiévreux"; "de" := "Heiß und fiebrig fühlen"; "ur" := "بخار اور گرمی محسوس کرنا" ]};
    {[ "en" := "You feel warm"; "es" := "Te sientes caliente"; "fr" := "Vous vous sentez chaud"; "de" := "Sie fühlen sich warm"; "ur" := "آپ گرم محسوس کر رہے ہیں" ]};
    {[ "en" := "Running a temperature"; "es" := "Teniendo temperatura alta"; "fr" := "Avoir de la température"; "de" := "Temperatur haben"; "ur" := "تیز بخار ہے" ]};
    {[ "en" := "Feeling depressed"; "es" := "Sintiéndose deprimido"; "fr" := "Se sentir déprimé"; "de" := "Sich deprimiert fühlen"; "ur" := "ڈپریشن محسوس کرنا" ]};
    {[ "en" := "Mental health support"; "es" := "Apoyo de salud mental"; "fr" := "Soutien en santé mentale"; "de" := "Unterstützung für psychische Gesundheit"; "ur" := "ذہنی صحت کی مدد" ]};
    {[ "en" := "Feeling sad or blue"; "es" := "Sintiéndose triste"; "fr" := "Se sentir triste ou déprimé"; "de" := "Sich traurig oder niedergeschlagen fühlen"; "ur" := "اداس یا پریشان محسوس کرنا" ]};
    {[ "en" := "Mood disorders"; "es" := "Trastornos del estado de ánimo"; "fr" := "Troubles de l'humeur"; "de" := "Stimmungsstörungen"; "ur" := "موڈ کی خرابی" ]};
    {[ "en" := "Take this medication twice daily"; "es" := "Tome este medicamento dos veces al día"; "fr" := "Prenez ce médicament deux fois par jour"; "de" := "Nehmen Sie dieses Medikament zweimal täglich"; "ur" := "یہ دوا روزانہ دو بار لیں" ]};
    {[ "en" := "You need to rest"; "es" := "Necesitas descansar"; "fr" := "Vous devez vous reposer"; "de" := "Du musst dich ausruhen"; "ur" := "آپ کو آرام کرنا چاہیے" ]};
    {[ "en" := "Stay hydrated"; "es" := "Manténgase hidratado"; "fr" := "Restez hydraté"; "de" := "Bleiben Sie hydratisiert"; "ur" := "پانی پیتے رہیں" ]};
    {[ "en" := "Get plenty of rest"; "es" := "Descanse mucho"; "fr" := "Reposez-vous beaucoup"; "de" := "Viel Ruhe bekommen"; "ur" := "خوب آرام کریں" ]};
    {[ "en" := "Emergency room"; "es" := "Sala de emergencias"; "fr" := "Salle d'urgence"; "de" := "Notaufnahme"; "ur" := "ایمرجنسی روم" ]};
    {[ "en" := "Medical history"; "es" := "Historia médica"; "fr" := "Antécédents médicaux"; "de" := "Krankengeschichte"; "ur" := "طبی تاریخ" ]};
    {[ "en" := "Prescription"; "es" := "Receta médica"; "fr" := "Ordonnance"; "de" := "Rezept"; "ur" := "نسخہ" ]};
    {[ "en" := "Symptoms"; "es" := "Síntomas"; "fr" := "Symptômes"; "de" := "Symptome"; "ur" := "علامات" ]};
    {[ "en" := "Diagnosis"; "es" := "Diagnóstico"; "fr" := "Diagnostic"; "de" := "Diagnose"; "ur" := "تشخیص" ]};
    {[ "en" := "Treatment"; "es" := "Tratamiento"; "fr" := "Traitement"; "de" := "Behandlung"; "ur" := "علاج" ]};
    {[ "en" := "Not feeling well"; "es" := "No me siento bien"; "fr" := "Je ne me sens pas bien"; "de" := "Fühle mich nicht wohl"; "ur" := "طبیعت ٹھیک نہیں" ]};
    {[ "en" := "Under the weather"; "es" := "Sintiéndose mal"; "fr" := "Pas dans son assiette"; "de" := "Nicht ganz fit"; "ur" := "طبیعت خراب ہے" ]};
    {[ "en" := "Health checkup"; "es" := "Chequeo médico"; "fr" := "Bilan de santé"; "de" := "Gesundheitscheck"; "ur" := "طبی معائنہ" ]} ].

Definition business_data : list Entry :=
  [ {[ "en" := "Schedule a meeting"; "es" := "Programar una reunión"; "fr" := "Planifier une réunion"; "de" := "Ein Meeting planen"; "ur" := "میٹنگ کا وقت مقرر کریں" ]};
    {[ "en" := "Business proposal"; "es" := "Propuesta comercial"; "fr" := "Proposition commerciale"; "de" := "Geschäftsvorschlag"; "ur" := "کاروباری تجویز" ]};
    {[ "en" := "Revenue growth"; "es" := "Crecimiento de ingresos"; "fr" := "Croissance des revenus"; "de" := "Umsatzwachstum"; "ur" := "آمدنی میں اضافہ" ]};
    {[ "en" := "Market analysis"; "es" := "Análisis de mercado"; "fr" := "Analyse de marché"; "de" := "Marktanalyse"; "ur" := "مارکیٹ کا تجزیہ" ]};
    {[ "en" := "Customer service"; "es" := "Servicio al cliente"; "fr" := "Service client"; "de" := "Kundendienst"; "ur" := "کسٹمر سروس" ]};
    {[ "en" := "Financial report"; "es" := "Informe financiero"; "fr" := "Rapport financier"; "de" := "Finanzbericht"; "ur" := "مالی رپورٹ" ]};
    {[ "en" := "Project deadline"; "es" := "Fecha límite del proyecto"; "fr" := "Date limite du projet"; "de" := "Projekttermin"; "ur" := "پروجیکٹ کی آخری تاریخ" ]};
    {[ "en" := "Budget allocation"; "es" := "Asignación de presupuesto"; "fr" := "Allocation budgétaire"; "de" := "Budgetzuweisung"; "ur" := "بجٹ کی تقسیم" ]};
    {[ "en" := "Strategic planning"; "es" := "Planificación estratégica"; "fr" := "Planification stratégique"; "de" := "Strategische Planung"; "ur" := "اسٹریٹجک پلاننگ" ]};
    {[ "en" := "Quality assurance"; "es" := "Aseguramiento de calidad"; "fr" := "Assurance qualité"; "de" := "Qualitätssicherung"; "ur" := "معیار کی یقین دہانی" ]} ].

Definition technical_data : list Entry :=
  [ {[ "en" := "Database connection"; "es" := "Conexión a base de datos"; "fr" := "Connexion à la base de données"; "de" := "Datenbankverbindung"; "ur" := "ڈیٹابیس کنکشن" ]};
    {[ "en" := "Software development"; "es" := "Desarrollo de software"; "fr" := "Développement logiciel"; "de" := "Softwareentwicklung"; "ur" := "سافٹ ویئر ڈیولپمنٹ" ]};
    {[ "en" := "Machine learning algorithm"; "es" := "Algoritmo de aprendizaje automático"; "fr" := "Algorithme d'apprentissage automatique"; "de" := "Algorithmus für maschinelles Lernen"; "ur" := "مشین لرننگ الگورتھم" ]};
    {[ "en" := "User interface"; "es" := "Interfaz de usuario"; "fr" := "Interface utilisateur"; "de" := "Benutzeroberfläche"; "ur" := "یوزر انٹرفیس" ]};
    {[ "en" := "System administrator"; "es" := "Administrador del sistema"; "fr" := "Administrateur système"; "de" := "Systemadministrator"; "ur" := "سسٹم ایڈمنسٹریٹر" ]};
    {[ "en" := "Cloud computing"; "es" := "Computación en la nube"; "fr" := "Informatique en nuage"; "de" := "Cloud-Computing"; "ur" := "کلاؤڈ کمپیوٹنگ" ]};
    {[ "en" := "Artificial intelligence"; "es" := "Inteligencia artificial"; "fr" := "Intelligence artificielle"; "de" := "Künstliche Intelligenz"; "ur" := "مصنوعی ذہانت" ]};
    {[ "en" := "Data security"; "es" := "Seguridad de datos"; "fr" := "Sécurité des données"; "de" := "Datensicherheit"; "ur" := "ڈیٹا سیکیورٹی" ]};
    {[ "en" := "Network protocol"; "es" := "Protocolo de red"; "fr" := "Protocole réseau"; "de" := "Netzwerkprotokoll"; "ur" := "نیٹ ورک پروٹوکول" ]};
    {[ "en" := "Version control"; "es" := "Control de versiones"; "fr" := "Contrôle de version"; "de" := "Versionskontrolle"; "ur" := "ورژن کنٹرول" ]} ].

Definition news_data : list Entry :=
  [ {[ "en" := "Breaking news"; "es" := "Noticias de última hora"; "fr" := "Dernières nouvelles"; "de" := "Eilmeldung"; "ur" := "تازہ خبریں" ]};
    {[ "en" := "Economic forecast"; "es" := "Pronóstico económico"; "fr" := "Prévisions économiques"; "de" := "Wirtschaftsprognose"; "ur" := "معاشی پیشن گوئی" ]};
    {[ "en" := "Climate change"; "es" := "Cambio climático"; "fr" := "Changement climatique"; "de" := "Klimawandel"; "ur" := "موسمیاتی تبدیلی" ]};
    {[ "en" := "Election results"; "es" := "Resultados electorales"; "fr" := "Résultats des élections"; "de" := "Wahlergebnisse"; "ur" := "انتخابی نتائج" ]};
    {[ "en" := "International relations"; "es" := "Relaciones internacionales"; "fr" := "Relations internationales"; "de" := "Internationale Beziehungen"; "ur" := "بین الاقوامی تعلقات" ]};
    {[ "en" := "Scientific research"; "es" := "Investigación científica"; "fr" := "Recherche scientifique"; "de" := "Wissenschaftliche Forschung"; "ur" := "سائنسی تحقیق" ]};
    {[ "en" := "Public health"; "es" := "Salud pública"; "fr" := "Santé publique"; "de" := "Öffentliche Gesundheit"; "ur" := "عوامی صحت" ]};
    {[ "en" := "Educational system"; "es" := "Sistema educativo"; "fr" := "Système éducatif"; "de" := "Bildungssystem"; "ur" := "تعلیمی نظام" ]};
    {[ "en" := "Environmental protection"; "es" := "Protección ambiental"; "fr" := "Protection de l'environnement"; "de" := "Umweltschutz"; "ur" := "ماحولیاتی تحفظ" ]};
    {[ "en" := "Technology advancement"; "es" := "Avance tecnológico"; "fr" := "Avancement technologique"; "de" := "Technologischer Fortschritt"; "ur" := "ٹیکنالوجی کی ترقی" ]} ].

Definition legal_data : list Entry :=
  [ {[ "en" := "Terms and conditions"; "es" := "Términos y condiciones"; "fr" := "Conditions générales"; "de" := "Geschäftsbedingungen"; "ur" := "شرائط و ضوابط" ]};
    {[ "en" := "Legal agreement"; "es" := "Acuerdo legal"; "fr" := "Accord juridique"; "de" := "Rechtsvereinbarung"; "ur" := "قانونی معاہدہ" ]};
    {[ "en" := "Court hearing"; "es" := "Audiencia judicial"; "fr" := "Audience du tribunal"; "de" := "Gerichtsverhandlung"; "ur" := "عدالتی سماعت" ]};
    {[ "en" := "Power of attorney"; "es" := "Poder legal"; "fr" := "Procuration"; "de" := "Vollmacht"; "ur" := "وکالت نامہ" ]};
    {[ "en" := "Contract negotiation"; "es" := "Negociación de contrato"; "fr" := "Négociation de contrat"; "de" := "Vertragsverhandlung"; "ur" := "کنٹریکٹ کی بات چیت" ]};
    {[ "en" := "Intellectual property"; "es" := "Propiedad intelectual"; "fr" := "Propriété intellectuelle"; "de" := "Geistiges Eigentum"; "ur" := "دانشورانہ املاک" ]};
    {[ "en" := "Legal liability"; "es" := "Responsabilidad legal"; "fr" := "Responsabilité légale"; "de" := "Rechtliche Haftung"; "ur" := "قانونی ذمہ داری" ]};
    {[ "en" := "Due diligence"; "es" := "Diligencia debida"; "fr" := "Diligence raisonnable"; "de" := "Sorgfaltsprüfung"; "ur" := "محتاط جانچ" ]};
    {[ "en" := "Compliance requirements"; "es" := "Requisitos de cumplimiento"; "fr" := "Exigences de conformité"; "de" := "Compliance-Anforderungen"; "ur" := "تعمیل کی ضروریات" ]};
    {[ "en" := "Legal documentation"; "es" := "Documentación legal"; "fr" := "Documentation juridique"; "de" := "Rechtsdokumentation"; "ur" := "قانونی دستاویزات" ]} ].

Definition academic_data : list Entry :=
  [ {[ "en" := "Research methodology"; "es" := "Metodología de investigación"; "fr" := "Méthodologie de recherche"; "de" := "Forschungsmethodik"; "ur" := "تحقیقی طریقہ کار" ]};
    {[ "en" := "Peer review"; "es" := "Revisión por pares"; "fr" := "Évaluation par les pairs"; "de" := "Peer-Review"; "ur" := "ہم مرتبہ جائزہ" ]};
    {[ "en" := "Literature review"; "es" := "Revisión de literatura"; "fr" := "Revue de littérature"; "de" := "Literaturübersicht"; "ur" := "ادبی جائزہ" ]};
    {[ "en" := "Statistical analysis"; "es" := "Análisis estadístico"; "fr" := "Analyse statistique"; "de" := "Statistische Analyse"; "ur" := "شماریاتی تجزیہ" ]};
    {[ "en" := "Academic conference"; "es" := "Conferencia académica"; "fr" := "Conférence académique"; "de" := "Akademische Konferenz"; "ur" := "علمی کانفرنس" ]};
    {[ "en" := "Dissertation defense"; "es" := "Defensa de tesis"; "fr" := "Soutenance de thèse"; "de" := "Dissertationsverteidigung"; "ur" := "مقالے کا دفاع" ]};
    {[ "en" := "Citation format"; "es" := "Formato de cita"; "fr" := "Format de citation"; "de" := "Zitierformat"; "ur" := "حوالہ جات کا انداز" ]};
    {[ "en" := "Hypothesis testing"; "es" := "Prueba de hipótesis"; "fr" := "Test d'hypothèse"; "de" := "Hypothesentest"; "ur" := "فرضیے کی جانچ" ]};
    {[ "en" := "Data collection"; "es" := "Recolección de datos"; "fr" := "Collecte de données"; "de" := "Datensammlung"; "ur" := "ڈیٹا اکٹھا کرنا" ]};
    {[ "en" := "Scholarly publication"; "es" := "Publicación académica"; "fr" := "Publication académique"; "de" := "Wissenschaftliche Publikation"; "ur" := "علمی اشاعت" ]} ].

Definition travel_data : list Entry :=
  [ {[ "en" := "Hotel reservation"; "es" := "Reserva de hotel"; "fr" := "Réservation d'hôtel"; "de" := "Hotelreservierung"; "ur" := "ہوٹل کی بکنگ" ]};
    {[ "en" := "Flight booking"; "es" := "Reserva de vuelo"; "fr" := "Réservation de vol"; "de" := "Flugbuchung"; "ur" := "پرواز کی بکنگ" ]};
    {[ "en" := "Tourist attraction"; "es" := "Atracción turística"; "fr" := "Attraction touristique"; "de" := "Touristenattraktion"; "ur" := "سیاحتی مقام" ]};
    {[ "en" := "Local cuisine"; "es" := "Cocina local"; "fr" := "Cuisine locale"; "de" := "Lokale Küche"; "ur" := "مقامی کھانا" ]};
    {[ "en" := "Tour guide"; "es" := "Guía turístico"; "fr" := "Guide touristique"; "de" := "Reiseführer"; "ur" := "سیاحتی گائیڈ" ]};
    {[ "en" := "Currency exchange"; "es" := "Cambio de moneda"; "fr" := "Change de devises"; "de" := "Geldwechsel"; "ur" := "کرنسی تبدیلی" ]};
    {[ "en" := "Travel insurance"; "es" := "Seguro de viaje"; "fr" := "Assurance voyage"; "de" := "Reiseversicherung"; "ur" := "سفری انشورنس" ]};
    {[ "en" := "Public transportation"; "es" := "Transporte público"; "fr" := "Transport public"; "de" := "Öffentliche Verkehrsmittel"; "ur" := "عوامی ٹرانسپورٹ" ]};
    {[ "en" := "Cultural experience"; "es" := "Experiencia cultural"; "fr" := "Expérience culturelle"; "de" := "Kulturelle Erfahrung"; "ur" := "ثقافتی تجربہ" ]};
    {[ "en" := "Travel itinerary"; "es" := "Itinerario de viaje"; "fr" := "Itinéraire de voyage"; "de" := "Reiseroute"; "ur" := "سفری منصوبہ" ]} ].

Definition culinary_data : list Entry :=
  [ {[ "en" := "Menu selection"; "es" := "Selección del menú"; "fr" := "Sélection du menu"; "de" := "Menüauswahl"; "ur" := "مینو کا انتخاب" ]};
    {[ "en" := "Cooking technique"; "es" := "Técnica de cocina"; "fr" := "Technique de cuisine"; "de" := "Kochtechnik"; "ur" := "پکانے کی تکنیک" ]};
    {[ "en" := "Fresh ingredients"; "es" := "Ingredientes frescos"; "fr" := "Ingrédients frais"; "de" := "Frische Zutaten"; "ur" := "تازہ اجزاء" ]};
    {[ "en" := "Dietary restrictions"; "es" := "Restricciones dietéticas"; "fr" := "Restrictions alimentaires"; "de" := "Diätbeschränkungen"; "ur" := "غذائی پابندیاں" ]};
    {[ "en" := "Food allergy"; "es" := "Alergia alimentaria"; "fr" := "Allergie alimentaire"; "de" := "Nahrungsmittelallergie"; "ur" := "کھانے سے الرجی" ]};
    {[ "en" := "Recipe instructions"; "es" := "Instrucciones de receta"; "fr" := "Instructions de recette"; "de" := "Rezeptanweisungen"; "ur" := "ترکیب کی ہدایات" ]};
    {[ "en" := "Restaurant review"; "es" := "Reseña de restaurante"; "fr" := "Critique de restaurant"; "de" := "Restaurantbewertung"; "ur" := "ریستوران کا جائزہ" ]};
    {[ "en" := "Wine pairing"; "es" := "Maridaje de vinos"; "fr" := "Accord mets et vins"; "de" := "Weinpaarung"; "ur" := "شراب کا جوڑ" ]};
    {[ "en" := "Kitchen equipment"; "es" := "Equipo de cocina"; "fr" := "Équipement de cuisine"; "de" := "Küchenausstattung"; "ur" := "باورچی خانے کا سامان" ]};
    {[ "en" := "Food presentation"; "es" := "Presentación de comida"; "fr" := "Présentation culinaire"; "de" := "Speisenpräsentation"; "ur" := "کھانے کی پیشکش" ]} ].

Definition education_data : list Entry :=
  [ {[ "en" := "Lesson plan"; "es" := "Plan de lección"; "fr" := "Plan de cours"; "de" := "Unterrichtsplan"; "ur" := "سبق کا منصوبہ" ]};
    {[ "en" := "Student assessment"; "es" := "Evaluación de estudiantes"; "fr" := "Évaluation des étudiants"; "de" := "Schülerbewertung"; "ur" := "طلباء کا جائزہ" ]};
    {[ "en" := "Learning objectives"; "es" := "Objetivos de aprendizaje"; "fr" := "Objectifs d'apprentissage"; "de" := "Lernziele"; "ur" := "سیکھنے کے مقاصد" ]};
    {[ "en" := "Educational resources"; "es" := "Recursos educativos"; "fr" := "Ressources éducatives"; "de" := "Bildungsressourcen"; "ur" := "تعلیمی وسائل" ]};
    {[ "en" := "Classroom management"; "es" := "Gestión del aula"; "fr" := "Gestion de classe"; "de" := "Klassenmanagement"; "ur" := "کلاس روم کا انتظام" ]};
    {[ "en" := "Academic achievement"; "es" := "Logro académico"; "fr" := "Réussite académique"; "de" := "Akademische Leistung"; "ur" := "تعلیمی کامیابی" ]};
    {[ "en" := "Distance learning"; "es" := "Aprendizaje a distancia"; "fr" := "Apprentissage à distance"; "de" := "Fernunterricht"; "ur" := "فاصلاتی تعلیم" ]};
    {[ "en" := "Educational technology"; "es" := "Tecnología educativa"; "fr" := "Technologie éducative"; "de" := "Bildungstechnologie"; "ur" := "تعلیمی ٹیکنالوجی" ]};
    {[ "en" := "Study schedule"; "es" := "Horario de estudio"; "fr" := "Horaire d'étude"; "de" := "Stundenplan"; "ur" := "مطالعے کا شیڈول" ]};
    {[ "en" := "Parent-teacher meeting"; "es" := "Reunión de padres y maestros"; "fr" := "Réunion parents-enseignants"; "de" := "Eltern-Lehrer-Gespräch"; "ur" := "والدین اور استاد کی ملاقات" ]} ].

Definition finance_data : list Entry :=
  [ {[ "en" := "Investment portfolio"; "es" := "Cartera de inversiones"; "fr" := "Portefeuille d'investissement"; "de" := "Investmentportfolio"; "ur" := "سرمایہ کاری کا پورٹ فولیو" ]};
    {[ "en" := "Credit score"; "es" := "Puntuación crediticia"; "fr" := "Score de crédit"; "de" := "Kreditwürdigkeit"; "ur" := "کریڈٹ سکور" ]};
    {[ "en" := "Mortgage application"; "es" := "Solicitud de hipoteca"; "fr" := "Demande d'hypothèque"; "de" := "Hypothekenantrag"; "ur" := "رہن کی درخواست" ]};
    {[ "en" := "Interest rate"; "es" := "Tasa de interés"; "fr" := "Taux d'intérêt"; "de" := "Zinssatz"; "ur" := "سود کی شرح" ]};
    {[ "en" := "Financial planning"; "es" := "Planificación financiera"; "fr" := "Planification financière"; "de" := "Finanzplanung"; "ur" := "مالی منصوبہ بندی" ]};
    {[ "en" := "Stock market"; "es" := "Mercado de valores"; "fr" := "Marché boursier"; "de" := "Aktienmarkt"; "ur" := "سٹاک مارکیٹ" ]};
    {[ "en" := "Retirement savings"; "es" := "Ahorros para la jubilación"; "fr" := "Épargne retraite"; "de" := "Altersvorsorge"; "ur" := "ریٹائرمنٹ کی بچت" ]};
    {[ "en" := "Banking fees"; "es" := "Tarifas bancarias"; "fr" := "Frais bancaires"; "de" := "Bankgebühren"; "ur" := "بینک کی فیسیں" ]};
    {[ "en" := "Currency trading"; "es" := "Comercio de divisas"; "fr" := "Trading de devises"; "de" := "Devisenhandel"; "ur" := "کرنسی ٹریڈنگ" ]};
    {[ "en" := "Risk management"; "es" := "Gestión de riesgos"; "fr" := "Gestion des risques"; "de" := "Risikomanagement"; "ur" := "خطرات کا انتظام" ]} ].

Definition sports_data : list Entry :=
  [ {[ "en" := "Training program"; "es" := "Programa de entrenamiento"; "fr" := "Programme d'entraînement"; "de" := "Trainingsprogramm"; "ur" := "تربیتی پروگرام" ]};
    {[ "en" := "Athletic performance"; "es" := "Rendimiento atlético"; "fr" := "Performance athlétique"; "de" := "Sportliche Leistung"; "ur" := "کھیلوں کی کارکردگی" ]};
    {[ "en" := "Killer performance"; "es" := "Rendimiento increíble"; "fr" := "Performance fantastique"; "de" := "Fantastische Leistung"; "ur" := "شاندار کارکردگی" ]};
    {[ "en" := "Absolutely killed it"; "es" := "Lo hizo increíblemente bien"; "fr" := "C'était fantastique"; "de" := "Hat es fantastisch gemacht"; "ur" := "شاندار کارکردگی کی" ]};
    {[ "en" := "Crushing the game"; "es" := "Dominando el juego"; "fr" := "Dominant le jeu"; "de" := "Das Spiel beherrschen"; "ur" := "کھیل میں غالب" ]};
    {[ "en" := "Smashing records"; "es" := "Rompiendo récords"; "fr" := "Battre des records"; "de" := "Rekorde brechen"; "ur" := "ریکارڈ توڑنا" ]};
    {[ "en" := "Beast mode activated"; "es" := "Modo bestia activado"; "fr" := "Mode bête activé"; "de" := "Biest-Modus aktiviert"; "ur" := "شیر کی طرح کھیل" ]};
    {[ "en" := "On fire today"; "es" := "En llamas hoy"; "fr" := "En feu aujourd'hui"; "de" := "Heute on fire"; "ur" := "آج زبردست فارم میں" ]};
    {[ "en" := "Absolutely crushing it"; "es" := "Absolutamente aplastándolo"; "fr" := "Absolument écrasant"; "de" := "Absolut zermalmen"; "ur" := "مکمل طور پر دبدبہ" ]};
    {[ "en" := "Dominating the field"; "es" := "Dominando el campo"; "fr" := "Dominant le terrain"; "de" := "Das Feld beherrschen"; "ur" := "میدان میں غالب" ]};
    {[ "en" := "That was insane"; "es" := "Eso fue increíble"; "fr" := "C'était dingue"; "de" := "Das war wahnsinnig"; "ur" := "یہ تو کمال تھا" ]};
    {[ "en" := "Totally nailed it"; "es" := "Lo clavó totalmente"; "fr" := "Totalement réussi"; "de" := "Voll getroffen"; "ur" := "مکمل طور پر کامیاب" ]};
    {[ "en" := "Playing out of their mind"; "es" := "Jugando increíblemente"; "fr" := "Joue de façon incroyable"; "de" := "Unglaublich spielen"; "ur" := "شاندار کھیل رہا ہے" ]};
    {[ "en" := "Fitness goal"; "es" := "Objetivo de fitness"; "fr" := "Objectif de remise en forme"; "de" := "Fitnessziel"; "ur" := "فٹنس کا ہدف" ]};
    {[ "en" := "Sports equipment"; "es" := "Equipo deportivo"; "fr" := "Équipement sportif"; "de" := "Sportausrüstung"; "ur" := "کھیل کا سامان" ]};
    {[ "en" := "Team strategy"; "es" := "Estrategia de equipo"; "fr" := "Stratégie d'équipe"; "de" := "Teamstrategie"; "ur" := "ٹیم کی حکمت عملی" ]};
    {[ "en" := "Championship tournament"; "es" := "Torneo de campeonato"; "fr" := "Tournoi de championnat"; "de" := "Meisterschaftsturnier"; "ur" := "چیمپئن شپ ٹورنامنٹ" ]};
    {[ "en" := "Injury prevention"; "es" := "Prevención de lesiones"; "fr" := "Prévention des blessures"; "de" := "Verletzungsprävention"; "ur" := "چوٹ سے بچاؤ" ]};
    {[ "en" := "Nutrition plan"; "es" := "Plan de nutrición"; "fr" := "Plan nutritionnel"; "de" := "Ernährungsplan"; "ur" := "غذائی منصوبہ" ]};
    {[ "en" := "Exercise routine"; "es" := "Rutina de ejercicios"; "fr" := "Routine d'exercices"; "de" := "Trainingsroutine"; "ur" := "ورزش کا طریقہ" ]};
    {[ "en" := "Physical therapy"; "es" := "Fisioterapia"; "fr" := "Kinésithérapie"; "de" := "Physiotherapie"; "ur" := "فزیو تھراپی" ]} ].

Definition automotive_data : list Entry :=
  [ {[ "en" := "Engine maintenance"; "es" := "Mantenimiento del motor"; "fr" := "Entretien moteur"; "de" := "Motorwartung"; "ur" := "انجن کی دیکھ بھال" ]};
    {[ "en" := "Brake system"; "es" := "Sistema de frenos"; "fr" := "Système de freinage"; "de" := "Bremssystem"; "ur" := "بریک سسٹم" ]};
    {[ "en" := "Vehicle inspection"; "es" := "Inspección del vehículo"; "fr" := "Inspection du véhicule"; "de" := "Fahrzeuginspektion"; "ur" := "گاڑی کا معائنہ" ]};
    {[ "en" := "Car insurance"; "es" := "Seguro de automóvil"; "fr" := "Assurance automobile"; "de" := "Autoversicherung"; "ur" := "کار انشورنس" ]};
    {[ "en" := "Fuel efficiency"; "es" := "Eficiencia de combustible"; "fr" := "Efficacité énergétique"; "de" := "Kraftstoffeffizienz"; "ur" := "ایندھن کی بچت" ]} ].

Definition real_estate_data : list Entry :=
  [ {[ "en" := "Property valuation"; "es" := "Valuación de propiedad"; "fr" := "Évaluation immobilière"; "de" := "Immobilienbewertung"; "ur" := "جائیداد کی قیمت" ]};
    {[ "en" := "Rental agreement"; "es" := "Acuerdo de alquiler"; "fr" := "Contrat de location"; "de" := "Mietvertrag"; "ur" := "کرایے کا معاہدہ" ]};
    {[ "en" := "Home inspection"; "es" := "Inspección de vivienda"; "fr" := "Inspection domiciliaire"; "de" := "Hausinspektion"; "ur" := "گھر کا معائنہ" ]};
    {[ "en" := "Mortgage calculator"; "es" := "Calculadora de hipoteca"; "fr" := "Calculateur d'hypothèque"; "de" := "Hypothekenrechner"; "ur" := "گروی کیلکولیٹر" ]};
    {[ "en" := "Property management"; "es" := "Gestión de propiedades"; "fr" := "Gestion immobilière"; "de" := "Immobilienverwaltung"; "ur" := "جائیداد کا انتظام" ]} ].

Definition arts_culture_data : list Entry :=
  [ {[ "en" := "Art exhibition"; "es" := "Exposición de arte"; "fr" := "Exposition d'art"; "de" := "Kunstausstellung"; "ur" := "آرٹ کی نمائش" ]};
    {[ "en" := "Musical performance"; "es" := "Actuación musical"; "fr" := "Performance musicale"; "de" := "Musikaufführung"; "ur" := "موسیقی کی پرفارمنس" ]};
    {[ "en" := "Cultural heritage"; "es" := "Patrimonio cultural"; "fr" := "Patrimoine culturel"; "de" := "Kulturerbe"; "ur" := "ثقافتی ورثہ" ]};
    {[ "en" := "Theater production"; "es" := "Producción teatral"; "fr" := "Production théâtrale"; "de" := "Theaterproduktion"; "ur" := "تھیٹر پروڈکشن" ]};
    {[ "en" := "Creative writing"; "es" := "Escritura creativa"; "fr" := "Écriture créative"; "de" := "Kreatives Schreiben"; "ur" := "تخلیقی تحریر" ]};
    {[ "en" := "Dance choreography"; "es" := "Coreografía de danza"; "fr" := "Chorégraphie de danse"; "de" := "Tanzchoreografie"; "ur" := "ڈانس کوریوگرافی" ]};
    {[ "en" := "Film production"; "es" := "Producción cinematográfica"; "fr" := "Production cinématographique"; "de" := "Filmproduktion"; "ur" := "فلم پروڈکشن" ]};
    {[ "en" := "Literary criticism"; "es" := "Crítica literaria"; "fr" := "Critique littéraire"; "de" := "Literaturkritik"; "ur" := "ادبی تنقید" ]};
    {[ "en" := "Museum collection"; "es" := "Colección de museo"; "fr" := "Collection de musée"; "de" := "Museumssammlung"; "ur" := "عجائب گھر کا مجموعہ" ]};
    {[ "en" := "Artistic technique"; "es" := "Técnica artística"; "fr" := "Technique artistique"; "de" := "Künstlerische Technik"; "ur" := "فنکارانہ تکنیک" ]} ].

Definition government_data : list Entry :=
  [ {[ "en" := "Public policy"; "es" := "Política pública"; "fr" := "Politique publique"; "de" := "Öffentliche Politik"; "ur" := "عوامی پالیسی" ]};
    {[ "en" := "Legislative process"; "es" := "Proceso legislativo"; "fr" := "Processus législatif"; "de" := "Gesetzgebungsverfahren"; "ur" := "قانون سازی کا عمل" ]};
    {[ "en" := "Voter registration"; "es" := "Registro de votantes"; "fr" := "Inscription des électeurs"; "de" := "Wählerregistrierung"; "ur" := "ووٹر رجسٹریشن" ]};
    {[ "en" := "Government services"; "es" := "Servicios gubernamentales"; "fr" := "Services gouvernementaux"; "de" := "Regierungsdienstleistungen"; "ur" := "سرکاری خدمات" ]};
    {[ "en" := "Political campaign"; "es" := "Campaña política"; "fr" := "Campagne politique"; "de" := "Politischer Wahlkampf"; "ur" := "سیاسی مہم" ]};
    {[ "en" := "Civic duty"; "es" := "Deber cívico"; "fr" := "Devoir civique"; "de" := "Bürgerpflicht"; "ur" := "شہری فریضہ" ]};
    {[ "en" := "Electoral system"; "es" := "Sistema electoral"; "fr" := "Système électoral"; "de" := "Wahlsystem"; "ur" := "انتخابی نظام" ]};
    {[ "en" := "Constitutional rights"; "es" := "Derechos constitucionales"; "fr" := "Droits constitutionnels"; "de" := "Verfassungsrechte"; "ur" := "آئینی حقوق" ]};
    {[ "en" := "Public administration"; "es" := "Administración pública"; "fr" := "Administration publique"; "de" := "Öffentliche Verwaltung"; "ur" := "عوامی انتظامیہ" ]};
    {[ "en" := "Democratic process"; "es" := "Proceso democrático"; "fr" := "Processus démocratique"; "de" := "Demokratischer Prozess"; "ur" := "جمہوری عمل" ]} ].

Definition social_media_data : list Entry :=
  [ {[ "en" := "You look amazing"; "es" := "Te ves increíble"; "fr" := "Tu es magnifique"; "de" := "Du siehst fantastisch aus"; "ur" := "آپ بہت خوبصورت لگ رہے ہیں" ]};
    {[ "en" := "You are so hot"; "es" := "Estás muy guapo/a"; "fr" := "Tu es très sexy"; "de" := "Du bist so heiß"; "ur" := "آپ بہت خوبصورت ہیں" ]};
    {[ "en" := "Looking good today"; "es" := "Te ves bien hoy"; "fr" := "Tu es beau aujourd'hui"; "de" := "Du siehst heute gut aus"; "ur" := "آج آپ اچھے لگ رہے ہیں" ]};
    {[ "en" := "Stunning outfit"; "es" := "Atuendo impresionante"; "fr" := "Tenue magnifique"; "de" := "Atemberaubendes Outfit"; "ur" := "شاندار لباس" ]};
    {[ "en" := "I'm feeling blue"; "es" := "Me siento triste"; "fr" := "Je me sens triste"; "de" := "Mir ist traurig"; "ur" := "میں اداس محسوس کر رہا ہوں" ]};
    {[ "en" := "Feeling down today"; "es" := "Me siento mal hoy"; "fr" := "Je me sens déprimé aujourd'hui"; "de" := "Heute fühle ich mich schlecht"; "ur" := "آج پریشان ہوں" ]};
    {[ "en" := "On cloud nine"; "es" := "En las nubes"; "fr" := "Aux anges"; "de" := "Im siebten Himmel"; "ur" := "بہت خوش ہوں" ]};
    {[ "en" := "Living my best life"; "es" := "Viviendo mi mejor vida"; "fr" := "Je vis ma meilleure vie"; "de" := "Ich lebe mein bestes Leben"; "ur" := "اپنی بہترین زندگی گزار رہا ہوں" ]};
    {[ "en" := "That was fire"; "es" := "Eso estuvo genial"; "fr" := "C'était génial"; "de" := "Das war der Hammer"; "ur" := "یہ شاندار تھا" ]};
    {[ "en" := "Absolutely killed it"; "es" := "Lo mataste"; "fr" := "Tu as assuré"; "de" := "Du hast es gerockt"; "ur" := "بہترین کارکردگی" ]};
    {[ "en" := "Nailed the performance"; "es" := "Clavaste la actuación"; "fr" := "Tu as réussi ta performance"; "de" := "Die Leistung war perfekt"; "ur" := "کامیاب پرفارمنس" ]};
    {[ "en" := "Epic win"; "es" := "Victoria épica"; "fr" := "Victoire épique"; "de" := "Epischer Sieg"; "ur" := "شاندار کامیابی" ]};
    {[ "en" := "Phone died on me"; "es" := "Se me murió el teléfono"; "fr" := "Mon téléphone est mort"; "de" := "Mein Handy ist kaputt"; "ur" := "فون کی بیٹری ختم ہو گئی" ]};
    {[ "en" := "Need to charge up"; "es" := "Necesito cargar"; "fr" := "Je dois recharger"; "de" := "Muss aufladen"; "ur" := "چارج کرنا ہے" ]};
    {[ "en" := "Going viral"; "es" := "Se está volviendo viral"; "fr" := "Ça devient viral"; "de" := "Wird viral"; "ur" := "وائرل ہو رہا ہے" ]};
    {[ "en" := "Posted a story"; "es" := "Publiqué una historia"; "fr" := "J'ai posté une story"; "de" := "Story gepostet"; "ur" := "اسٹوری پوسٹ کی" ]};
    {[ "en" := "Slide into DMs"; "es" := "Escribir al privado"; "fr" := "Envoyer un message privé"; "de" := "Private Nachricht senden"; "ur" := "پرائیویٹ میسج بھیجنا" ]};
    {[ "en" := "Double tap this"; "es" := "Dale doble tap"; "fr" := "Double-cliquez"; "de" := "Doppelt antippen"; "ur" := "ڈبل ٹیپ کریں" ]};
    {[ "en" := "Drop a comment"; "es" := "Deja un comentario"; "fr" := "Laisse un commentaire"; "de" := "Kommentier das"; "ur" := "کمنٹ کریں" ]};
    {[ "en" := "Tag your squad"; "es" := "Etiqueta a tu grupo"; "fr" := "Tague tes potes"; "de" := "Markiere deine Crew"; "ur" := "اپنے دوستوں کو ٹیگ کریں" ]};
    {[ "en" := "No cap"; "es" := "Sin mentir"; "fr" := "Sans mentir"; "de" := "Echt jetzt"; "ur" := "سچ میں" ]};
    {[ "en" := "It's giving vibes"; "es" := "Da buenas vibras"; "fr" := "Ça donne des bonnes vibes"; "de" := "Hat gute Vibes"; "ur" := "اچھا لگ رہا ہے" ]};
    {[ "en" := "Periodt"; "es" := "Punto final"; "fr" := "Point final"; "de" := "Punkt aus"; "ur" := "بس اتنا ہی" ]};
    {[ "en" := "Slay queen"; "es" := "Reina poderosa"; "fr" := "Reine puissante"; "de" := "Starke Königin"; "ur" := "شاندار ملکہ" ]};
    {[ "en" := "The party was dead"; "es" := "La fiesta estuvo aburrida"; "fr" := "La fête était morte"; "de" := "Die Party war tot"; "ur" := "پارٹی بورنگ تھی" ]};
    {[ "en" := "Had a blast"; "es" := "Me divertí mucho"; "fr" := "Je me suis éclaté"; "de" := "Hatte einen Riesenspaß"; "ur" := "بہت مزہ آیا" ]};
    {[ "en" := "FOMO is real"; "es" := "El miedo a perdérselo es real"; "fr" := "La peur de rater quelque chose"; "de" := "Angst etwas zu verpassen"; "ur" := "کچھ چھوٹ جانے کا ڈر" ]};
    {[ "en" := "Living for this"; "es" := "Vivo para esto"; "fr" := "Je vis pour ça"; "de" := "Dafür lebe ich"; "ur" := "یہی میری زندگی ہے" ]} ].

Definition environmental_data : list Entry :=
  [ {[ "en" := "Carbon footprint"; "es" := "Huella de carbono"; "fr" := "Empreinte carbone"; "de" := "CO2-Fußabdruck"; "ur" := "کاربن فوٹ پرنٹ" ]};
    {[ "en" := "Renewable energy"; "es" := "Energía renovable"; "fr" := "Énergie renouvelable"; "de" := "Erneuerbare Energie"; "ur" := "قابل تجدید توانائی" ]};
    {[ "en" := "Ecosystem preservation"; "es" := "Preservación del ecosistema"; "fr" := "Préservation de l'écosystème"; "de" := "Ökosystemerhaltung"; "ur" := "ماحولیاتی نظام کا تحفظ" ]};
    {[ "en" := "Sustainable development"; "es" := "Desarrollo sostenible"; "fr" := "Développement durable"; "de" := "Nachhaltige Entwicklung"; "ur" := "پائیدار ترقی" ]};
    {[ "en" := "Climate adaptation"; "es" := "Adaptación climática"; "fr" := "Adaptation climatique"; "de" := "Klimaanpassung"; "ur" := "آب و ہوا کے ساتھ ہم آہنگی" ]};
    {[ "en" := "Biodiversity conservation"; "es" := "Conservación de la biodiversidad"; "fr" := "Conservation de la biodiversité"; "de" := "Biodiversitätsschutz"; "ur" := "حیاتیاتی تنوع کا تحفظ" ]};
    {[ "en" := "Pollution control"; "es" := "Control de la contaminación"; "fr" := "Contrôle de la pollution"; "de" := "Umweltverschmutzungskontrolle"; "ur" := "آلودگی کنٹرول" ]};
    {[ "en" := "Waste management"; "es" := "Gestión de residuos"; "fr" := "Gestion des déchets"; "de" := "Abfallwirtschaft"; "ur" := "فضلہ کا انتظام" ]};
    {[ "en" := "Environmental impact"; "es" := "Impacto ambiental"; "fr" := "Impact environnemental"; "de" := "Umweltauswirkung"; "ur" := "ماحولیاتی اثرات" ]};
    {[ "en" := "Green technology"; "es" := "Tecnología verde"; "fr" := "Technologie verte"; "de" := "Grüne Technologie"; "ur" := "سبز ٹیکنالوجی" ]} ].

Definition religious_data : list Entry :=
  [ {[ "en" := "Spiritual guidance"; "es" := "Orientación espiritual"; "fr" := "Guidance spirituelle"; "de" := "Spirituelle Führung"; "ur" := "روحانی رہنمائی" ]};
    {[ "en" := "Religious ceremony"; "es" := "Ceremonia religiosa"; "fr" := "Cérémonie religieuse"; "de" := "Religiöse Zeremonie"; "ur" := "مذہبی تقریب" ]};
    {[ "en" := "Faith community"; "es" := "Comunidad de fe"; "fr" := "Communauté de foi"; "de" := "Glaubensgemeinschaft"; "ur" := "ایمانی برادری" ]};
    {[ "en" := "Sacred text"; "es" := "Texto sagrado"; "fr" := "Texte sacré"; "de" := "Heiliger Text"; "ur" := "مقدس کتاب" ]};
    {[ "en" := "Prayer service"; "es" := "Servicio de oración"; "fr" := "Service de prière"; "de" := "Gebetsgottesdienst"; "ur" := "نماز کی خدمت" ]};
    {[ "en" := "Meditation practice"; "es" := "Práctica de meditación"; "fr" := "Pratique de méditation"; "de" := "Meditationspraxis"; "ur" := "مراقبے کی مشق" ]};
    {[ "en" := "Religious holiday"; "es" := "Festividad religiosa"; "fr" := "Fête religieuse"; "de" := "Religiöser Feiertag"; "ur" := "مذہبی تہوار" ]};
    {[ "en" := "Moral teaching"; "es" := "Enseñanza moral"; "fr" := "Enseignement moral"; "de" := "Moralische Lehre"; "ur" := "اخلاقی تعلیم" ]};
    {[ "en" := "Spiritual journey"; "es" := "Viaje espiritual"; "fr" := "Voyage spirituel"; "de" := "Spirituelle Reise"; "ur" := "روحانی سفر" ]};
    {[ "en" := "Divine blessing"; "es" := "Bendición divina"; "fr" := "Bénédiction divine"; "de" := "Göttlicher Segen"; "ur" := "الہی برکت" ]} ].

Definition pharmaceutical_data : list Entry :=
  [ {[ "en" := "Drug interaction"; "es" := "Interacción de medicamentos"; "fr" := "Interaction médicamenteuse"; "de" := "Arzneimittelwechselwirkung"; "ur" := "دوا کا باہمی اثر" ]};
    {[ "en" := "Clinical trial"; "es" := "Ensayo clínico"; "fr" := "Essai clinique"; "de" := "Klinische Studie"; "ur" := "کلینیکل ٹرائل" ]};
    {[ "en" := "Prescription label"; "es" := "Etiqueta de prescripción"; "fr" := "Étiquette d'ordonnance"; "de" := "Verschreibungsetikett"; "ur" := "نسخے کا لیبل" ]};
    {[ "en" := "Generic medication"; "es" := "Medicamento genérico"; "fr" := "Médicament générique"; "de" := "Generikum"; "ur" := "عام دوا" ]};
    {[ "en" := "Side effects"; "es" := "Efectos secundarios"; "fr" := "Effets secondaires"; "de" := "Nebenwirkungen"; "ur" := "ضمنی اثرات" ]};
    {[ "en" := "Dosage instructions"; "es" := "Instrucciones de dosificación"; "fr" := "Instructions de dosage"; "de" := "Dosierungsanweisungen"; "ur" := "خوراک کی ہدایات" ]};
    {[ "en" := "Pharmacy consultation"; "es" := "Consulta farmacéutica"; "fr" := "Consultation pharmaceutique"; "de" := "Apothekenberatung"; "ur" := "فارمیسی مشاورت" ]};
    {[ "en" := "Drug safety"; "es" := "Seguridad del medicamento"; "fr" := "Sécurité du médicament"; "de" := "Arzneimittelsicherheit"; "ur" := "دوا کی حفاظت" ]};
    {[ "en" := "Medication management"; "es" := "Gestión de medicamentos"; "fr" := "Gestion des médicaments"; "de" := "Medikamentenmanagement"; "ur" := "دوا کا انتظام" ]};
    {[ "en" := "Pharmaceutical research"; "es" := "Investigación farmacéutica"; "fr" := "Recherche pharmaceutique"; "de" := "Pharmazeutische Forschung"; "ur" := "دوائی تحقیق" ]} ].

End Sample.

(** The dict [corpus_data] of lines 497-518, in insertion order. *)
Definition corpus_data : odict (list Entry) :=
  [ ("opus_opensubtitles", Sample.opensubtitles_data);
    ("medical_terminology", Sample.medical_data);
    ("business_common", Sample.business_data);
    ("technical_computing", Sample.technical_data);
    ("news_current", Sample.news_data);
    ("legal_formal", Sample.legal_data);
    ("academic_research", Sample.academic_data);
    ("travel_tourism", Sample.travel_data);
    ("culinary_food", Sample.culinary_data);
    ("education_learning", Sample.education_data);
    ("finance_banking", Sample.finance_data);
    ("sports_fitness", Sample.sports_data);
    ("automotive_transport", Sample.automotive_data);
    ("real_estate", Sample.real_estate_data);
    ("arts_culture", Sample.arts_culture_data);
    ("government_politics", Sample.government_data);
    ("social_media", Sample.social_media_data);
    ("environmental_science", Sample.environmental_data);
    ("religious_spiritual", Sample.religious_data);
    ("pharmaceutical", Sample.pharmaceutical_data) ].

(** An item of [self.corpus_sources]. *)
Record CorpusSource := {
  source_name : string;
  source_description : string;
  source_domain : string;
  source_languages : list string
}.

Definition source_languages_all : list string :=
  ["en"; "es"; "fr"; "de"; "it"; "pt"; "ja"; "ko"; "zh"; "ar"; "hi"; "ur"; "ru"].

(** [self.corpus_sources], lines 33-154, in insertion order. *)
Definition corpus_sources : odict CorpusSource :=
  [ ("opus_opensubtitles", {| source_name := "OpenSubtitles";
            source_description := "Movie/TV subtitles - conversational language";
            source_domain := "conversational";
            source_languages := source_languages_all |});
    ("medical_terminology", {| source_name := "Medical Terms";
            source_description := "Medical terminology and healthcare translations";
            source_domain := "medical";
            source_languages := source_languages_all |});
    ("business_common", {| source_name := "Business Common";
            source_description := "Common business phrases and terminology";
            source_domain := "business";
            source_languages := source_languages_all |});
    ("technical_computing", {| source_name := "Technical Computing";
            source_description := "Programming and technical terminology";
            source_domain := "technical";
            source_languages := source_languages_all |});
    ("news_current", {| source_name := "News & Current Events";
            source_description := "News articles and current affairs";
            source_domain := "news";
            source_languages := source_languages_all |});
    ("legal_formal", {| source_name := "Legal & Formal";
            source_description := "Legal documents, contracts, and formal communications";
            source_domain := "legal";
            source_languages := source_languages_all |});
    ("academic_research", {| source_name := "Academic & Research";
            source_description := "Academic papers, research terminology, and scholarly language";
            source_domain := "academic";
            source_languages := source_languages_all |});
    ("travel_tourism", {| source_name := "Travel & Tourism";
            source_description := "Travel phrases, tourism, hotels, and transportation";
            source_domain := "travel";
            source_languages := source_languages_all |});
    ("culinary_food", {| source_name := "Culinary & Food";
            source_description := "Food, cooking, restaurants, and culinary terminology";
            source_domain := "culinary";
            source_languages := source_languages_all |});
    ("education_learning", {| source_name := "Education & Learning";
            source_description := "Educational content, classroom language, and learning materials";
            source_domain := "education";
            source_languages := source_languages_all |});
    ("finance_banking", {| source_name := "Finance & Banking";
            source_description := "Financial services, banking, investments, and economic terms";
            source_domain := "finance";
            source_languages := source_languages_all |});
    ("sports_fitness", {| source_name := "Sports & Fitness";
            source_description := "Sports terminology, fitness, and athletic activities";
            source_domain := "sports";
            source_languages := source_languages_all |});
    ("automotive_transport", {| source_name := "Automotive & Transport";
            source_description := "Cars, transportation, mechanics, and automotive industry";
            source_domain := "automotive";
            source_languages := source_languages_all |});
    ("real_estate", {| source_name := "Real Estate";
            source_description := "Property, real estate, housing, and rental terminology";
            source_domain := "realestate";
            source_languages := source_languages_all |});
    ("arts_culture", {| source_name := "Arts & Culture";
            source_description := "Art, music, literature, and cultural expressions";
            source_domain := "arts";
            source_languages := source_languages_all |});
    ("government_politics", {| source_name := "Government & Politics";
            source_description := "Political terminology, government services, and civic language";
            source_domain := "politics";
            source_languages := source_languages_all |});
    ("social_media", {| source_name := "Social Media";
            source_description := "Social media language, internet slang, and digital communication";
            source_domain := "social";
            source_languages := source_languages_all |});
    ("environmental_science", {| source_name := "Environmental Science";
            source_description := "Environment, climate, ecology, and sustainability terminology";
            source_domain := "environment";
            source_languages := source_languages_all |});
    ("religious_spiritual", {| source_name := "Religious & Spiritual";
            source_description := "Religious texts, spiritual concepts, and faith-based language";
            source_domain := "religious";
            source_languages := source_languages_all |});
    ("pharmaceutical", {| source_name := "Pharmaceutical";
            source_description := "Drug names, pharmacy, medication instructions, and pharmaceutical industry";
            source_domain := "pharmaceutical";
            source_languages := source_languages_all |}) ].

(** The last character of a string. *)
Fixpoint last_char (p : string) : option ascii :=
  match p with
  | EmptyString => None
  | String c EmptyString => Some c
  | String _ p' => last_char p'
  end.


(** A plain corpus name: one that holds neither a directory separator nor
    a NUL character, so that [name + suffix] names a file of the corpus
    directory itself. *)
Fixpoint plain_name (p : string) : bool :=
  match p with
  | EmptyString => true
  | String c p' =>
      negb (bool_decide (c = "/"%char)) && negb (bool_decide (c = Ascii.zero))
      && plain_name p'
  end.

Section Lifecycle.
Context `{Services}.

(** [CorpusManager.__init__], lines 21-154: the attributes of a new manager
    on the files [files] ([os.makedirs] creates the directory, no file;
    [self.corpora] is never read or written by the class). *)
Definition CorpusManager_init (corpus_dir : string) (vector_dim : Z)
    (files : gmap string file) (clock : string) : State :=
  {| corpus_dir := corpus_dir; vector_dim := vector_dim; indexes := [];
     metadata := ∅; fs := files; clock := clock; calls := [] |}.

(** A [for] loop whose body returns nothing. *)
Fixpoint for_each {A : Type} (l : list A) (body : A → M unit) : M unit :=
  match l with
  | [] => mret tt
  | x :: l' => body x;; for_each l' body
  end.

(** [create_sample_corpora], lines 156-522. *)
Definition create_sample_corpora : M unit :=
  for_each corpus_data (λ item, save_corpus item.1 item.2).

(** The body of the loop of lines 695-697: the index is loaded from disk,
    or built from the English texts when there is nothing to load. *)
Definition load_or_build (corpus_name : string) : M unit :=
  found ← load_vector_index corpus_name;
  if negb found then build_vector_index corpus_name "en" else mret tt.

(** [initialize_all_corpora], lines 687-699. *)
Definition initialize_all_corpora : M unit :=
  create_sample_corpora;;
  for_each (odict_keys corpus_sources) load_or_build.

(** An item of the dict [get_corpus_stats] returns. *)
Record CorpusStats := {
  stats_name : string;
  stats_description : string;
  stats_domain : string;
  stats_entries : nat;
  stats_indexed : bool
}.

(** The loop of lines 704-712 over the remaining sources. *)
Fixpoint collect_stats (sources : odict CorpusSource) (stats : odict CorpusStats)
    : M (odict CorpusStats) :=
  match sources with
  | [] => mret stats
  | (corpus_name, source) :: rest =>
      data ← load_corpus corpus_name;
      indexed ← gets (λ s, odict_mem corpus_name (indexes s));
      collect_stats rest
        (odict_set corpus_name
           {| stats_name := source_name source;
              stats_description := source_description source;
              stats_domain := source_domain source;
              stats_entries := length data;
              stats_indexed := indexed |} stats)
  end.

(** [get_corpus_stats], lines 701-713. *)
Definition get_corpus_stats : M (odict CorpusStats) :=
  collect_stats corpus_sources [].

End Lifecycle.

Section BuildState.
Context `{Services}.

(** A new manager on the files and clock of [s]: the process is restarted. *)
Definition restart (s : State) : State :=
  CorpusManager_init (corpus_dir s) (vector_dim s) (fs s) (clock s).

(** The index lines 573-580 build from the texts. *)
Definition built_index (s : State) (texts : list string) : Index :=
  {| dim := vector_dim s;
     xb := astype_float32 <$> (normalize_L2 <$> (embed <$> texts)) |}.

(** The state lines 571-594 leave behind when [texts] and [md] are the
    lists of the loop of lines 558-565. *)
Definition built_state (corpus_name : string) (texts : list string)
    (md : list MetadataRecord) (s : State) : State :=
  let ix := built_index s texts in
  with_fs (λ files,
      <[os_path_join (corpus_dir s) (corpus_name +:+ "_metadata.pkl")
          := PickleFile md]>
        (<[os_path_join (corpus_dir s) (corpus_name +:+ "_index.faiss")
             := FaissFile ix]> files))
    (with_metadata <[corpus_name := md]>
       (with_indexes (odict_set corpus_name ix)
          (with_calls [Encode texts; IndexNew (vector_dim s);
                       IndexAdd (length texts)] s))).

End BuildState.

Section Consistency.
Context `{Services}.

(** The registry is aligned: every registered index comes with a metadata
    list that is not empty and has one record per index row. *)
Definition aligned (s : State) : Prop :=
  ∀ c ix, odict_get c (indexes s) = Some ix →
    ∃ md, metadata s !! c = Some md ∧ md ≠ [] ∧ ntotal ix = length md.

(** The files are in the shape [build_vector_index] leaves them in: where
    an index file and a metadata file of the same stem both exist, they hold
    an index and a metadata list that is not empty and has one record per
    index row. *)
Definition storage_ok (files : gmap string file) : Prop :=
  ∀ stem fi fm,
    files !! (stem +:+ "_index.faiss") = Some fi →
    files !! (stem +:+ "_metadata.pkl") = Some fm →
    ∃ ix md, fi = FaissFile ix ∧ fm = PickleFile md
             ∧ md ≠ [] ∧ ntotal ix = length md.

(** The corpus file of [c] is absent or holds a document of the annotated
    type: a JSON object whose ['data'], when present, is a list of objects
    with string values. A file written by [save_corpus] is of this kind. *)
Definition corpus_file_typed (s : State) (c : string) : Prop :=
  match fs s !! os_path_join (corpus_dir s) (c +:+ ".json") with
  | None => True
  | Some (JsonFile (JObject corpus_info)) =>
      match json_get "data" corpus_info with
      | None => True
      | Some v => is_Some (entries_of_json v)
      end
  | Some _ => False
  end.

(** A call of a public method by a client of the manager. *)
Inductive call :=
| Call_save_corpus (corpus_name : string) (data : list Entry)
| Call_load_corpus (corpus_name : string)
| Call_build_vector_index (corpus_name source_lang : string)
| Call_load_vector_index (corpus_name : string)
| Call_search_similar_texts (query : string) (corpus_name : option string) (k : Z)
| Call_get_context_examples (query target_language : string) (max_examples : Z)
| Call_create_sample_corpora
| Call_initialize_all_corpora
| Call_get_corpus_stats.

(** The state a call leaves behind, whether it returns or raises: the
    client goes on with the same manager. *)
Definition run_call (c : call) (s : State) : State :=
  match c with
  | Call_save_corpus corpus_name data => (save_corpus corpus_name data s).2
  | Call_load_corpus corpus_name => (load_corpus corpus_name s).2
  | Call_build_vector_index corpus_name source_lang =>
      (build_vector_index corpus_name source_lang s).2
  | Call_load_vector_index corpus_name => (load_vector_index corpus_name s).2
  | Call_search_similar_texts query corpus_name k =>
      (search_similar_texts query corpus_name k s).2
  | Call_get_context_examples query target_language max_examples =>
      (get_context_examples query target_language max_examples s).2
  | Call_create_sample_corpora => (create_sample_corpora s).2
  | Call_initialize_all_corpora => (initialize_all_corpora s).2
  | Call_get_corpus_stats => (get_corpus_stats s).2
  end.

Fixpoint run_calls (cs : list call) (s : State) : State :=
  match cs with
  | [] => s
  | c :: cs' => run_calls cs' (run_call c s)
  end.

End Consistency.

Section AccuracyTest.
Context `{Services}.

(** test_accuracy_final.py, line 21. *)
Definition test_corpora : list string :=
  ["legal_formal"; "medical_terminology"; "business_common"; "travel_tourism"].

(** test_accuracy_final.py, lines 26-39: the loop that loads the test
    corpora, with [loaded_corpora] and [cm.corpora] as built so far. An
    exception raised in a round is caught at line 38 and the loop goes on;
    [cm.corpora[corpus_name]] holds the entry list. *)
Fixpoint load_test_corpora (test_corpora loaded_corpora : list string)
    (corpora : odict (list Entry)) (s : State)
    : (list string * odict (list Entry)) * State :=
  match test_corpora with
  | [] => ((loaded_corpora, corpora), s)
  | corpus_name :: rest =>
      match load_corpus corpus_name s with
      | (Ok data, s1) =>
          if bool_decide (data ≠ []) then
            let corpora := odict_set corpus_name data corpora in
            match load_vector_index corpus_name s1 with
            | (Ok true, s2) =>
                load_test_corpora rest (loaded_corpora ++ [corpus_name]) corpora s2
            | (Ok false, s2) => load_test_corpora rest loaded_corpora corpora s2
            | (Raise _, s2) => load_test_corpora rest loaded_corpora corpora s2
            end
          else load_test_corpora rest loaded_corpora corpora s1
      | (Raise _, s1) => load_test_corpora rest loaded_corpora corpora s1
      end
  end.

(** [best_score], [best_corpus] and [best_result], lines 62-64. *)
Record Best := {
  best_score : Q;
  best_corpus : option string;
  best_result : option SearchResult
}.

(** Lines 62-64. *)
Definition no_best : Best :=
  {| best_score := -1; best_corpus := None; best_result := None |}.

(** Lines 73-77: [results] is the outcome of the search in one corpus. *)
Definition update_best (corpus_name : string) (results : outcome (list SearchResult))
    (best : Best) : Best :=
  match results with
  | Ok (result :: _) =>
      let score := similarity_score result in
      if score_lt (best_score best) score
      then {| best_score := score; best_corpus := Some corpus_name;
              best_result := Some result |}
      else best
  | _ => best
  end.

(** The loop of lines 67-80 over the loaded corpora that remain; an
    exception of the search is caught at line 78. *)
Fixpoint classify (query : string) (loaded_corpora : list string) (best : Best)
    (s : State) : Best * State :=
  match loaded_corpora with
  | [] => (best, s)
  | corpus_name :: rest =>
      let '(results, s1) := search_similar_texts query (Some corpus_name) 1 s in
      classify query rest (update_best corpus_name results best) s1
  end.

(** The best result of corpus [c] for the query, if its search returns
    one. *)
Definition top_result (s : State) (query c : string) : option SearchResult :=
  match (search_similar_texts query (Some c) 1 s).1 with
  | Ok (result :: _) => Some result
  | _ => None
  end.

(** What the loop of lines 67-80 has established once it has gone through
    the corpora [seen]: no result above -1 so far, or the first corpus of
    [seen] whose best result has the greatest score. *)
Definition best_of (s : State) (query : string) (seen : list string)
    (best : Best) : Prop :=
  match best_corpus best with
  | None =>
      best_result best = None ∧ best_score best = (-1)%Q
      ∧ ∀ c res, c ∈ seen → top_result s query c = Some res →
          (similarity_score res <= -1)%Q
  | Some c =>
      ∃ res l1 l2,
        seen = l1 ++ c :: l2
        ∧ top_result s query c = Some res
        ∧ best_result best = Some res
        ∧ best_score best = similarity_score res
        ∧ (-1 < similarity_score res)%Q
        ∧ (∀ c' res', c' ∈ l1 → top_result s query c' = Some res' →
             (similarity_score res' < similarity_score res)%Q)
        ∧ (∀ c' res', c' ∈ l2 → top_result s query c' = Some res' →
             (similarity_score res' <= similarity_score res)%Q)
  end.

(** A corpus the loop of lines 26-39 appends to [loaded_corpora]: its file
    loads a list that is not empty and both index files exist. *)
Definition loadable (s : State) (c : string) : bool :=
  match (load_corpus c s).1 with
  | Ok (_ :: _) =>
      bool_decide (is_Some (fs s !! os_path_join (corpus_dir s) (c +:+ "_index.faiss")))
      && bool_decide (is_Some (fs s !! os_path_join (corpus_dir s) (c +:+ "_metadata.pkl")))
  | _ => false
  end.

End AccuracyTest.

(** ** A small installation

    A three-dimensional embedding and a reference inner-product index: the
    [k] best rows by inner product, padded with label [-1] and the lowest
    float when the index holds fewer than [k] rows. Two corpora are saved
    and indexed, one by its English and one by its Spanish texts. *)

Definition dot (u v : list Z) : Z := foldr Z.add 0 (zip_with Z.mul u v).

Fixpoint insert_hit (h : Q * Z) (l : list (Q * Z)) : list (Q * Z) :=
  match l with
  | [] => [h]
  | x :: l' => if score_lt h.1 x.1 then x :: insert_hit h l' else h :: x :: l'
  end.

(** The lowest finite 32-bit float, FAISS's score for a padding hit. *)
Definition lowest : Q := (-340282346638528859811704183484516925440) # 1.

(** [IndexFlatIP.search] for the first row of the query matrix. *)
Definition flat_ip_search (xb q : list (list Z)) (k : Z) : list (Q * Z) :=
  let q0 := default [] (head q) in
  let hits := imap (λ i v, (inject_Z (dot q0 v), Z.of_nat i)) xb in
  take (Z.to_nat k)
    (foldr insert_hit [] hits ++ replicate (Z.to_nat k) (lowest, -1)).

Definition toy_embed (t : string) : list Z :=
  default [0; 0; 0]
    (odict_get t [("Blood pressure", [1; 0; 0]); ("Heart rate", [0; 1; 0]);
                  ("Take this medication twice daily", [0; 0; 1]);
                  ("Audiencia judicial", [0; 1; 0]); ("Contrato", [0; 0; 1])]).

Definition toy : Services :=
  {| Vec := list Z; embed := toy_embed; normalize_L2 := id;
     astype_float32 := id; index_search := flat_ip_search |}.

(** The medical corpus, with English and Spanish texts. *)
Definition medical_data : list Entry :=
  [ {[ "en" := "Blood pressure"; "es" := "Presion arterial" ]};
    {[ "en" := "Heart rate"; "es" := "Frecuencia cardiaca" ]};
    {[ "en" := "Take this medication twice daily";
       "es" := "Tome este medicamento dos veces al dia" ]} ].

Definition medical_record (i : nat) : MetadataRecord :=
  {| corpus := "medical"; index := i;
     translations := default ∅ (medical_data !! i) |}.

Definition medical_rows : list (list Z) := [[1; 0; 0]; [0; 1; 0]; [0; 0; 1]].

Definition medical_index : @Index toy := @Build_Index toy 3 medical_rows.

(** The legal corpus; its second entry has no English text. *)
Definition legal_data : list Entry :=
  [ {[ "en" := "Court hearing"; "es" := "Audiencia judicial" ]};
    {[ "es" := "Contrato"; "fr" := "Contrat" ]} ].

Definition legal_record (i : nat) : MetadataRecord :=
  {| corpus := "legal"; index := i;
     translations := default ∅ (legal_data !! i) |}.

Definition legal_index : @Index toy := @Build_Index toy 3 [[0; 1; 0]; [0; 0; 1]].

(** A new manager on an empty directory; the medical corpus saved; its
    index built from the English texts; the legal corpus saved and indexed
    by its Spanish texts as well. *)
Definition s_init : @State toy :=
  {| corpus_dir := "./corpus_data"; vector_dim := 3; indexes := [];
     metadata := ∅; fs := ∅; clock := "2024-01-01T00:00:00"; calls := [] |}.

Definition s_saved : @State toy :=
  (save_corpus (H:=toy) "medical" medical_data s_init).2.

Definition s_built : @State toy :=
  (build_vector_index (H:=toy) "medical" "en" s_saved).2.

Definition s_two : @State toy :=
  (build_vector_index (H:=toy) "legal" "es"
     (save_corpus (H:=toy) "legal" legal_data s_built).2).2.

(** A new process on the directory of [s_built]: the registry is empty, the
    files are there. *)
Definition s_restart : @State toy :=
  with_metadata (λ _, ∅) (with_indexes (λ _, []) s_built).

(** The candidates of the query "Heart rate" over both corpora with
    [k = 3], and the state after that search. *)
Definition two_cands : list SearchResult :=
  [ annotate "medical" 1 (medical_record 1);
    annotate "medical" 0 (medical_record 0);
    annotate "medical" 0 (medical_record 2);
    annotate "legal" 1 (legal_record 0);
    annotate "legal" 0 (legal_record 1);
    annotate "legal" lowest (legal_record 1) ].

Definition s_two_searched : @State toy :=
  with_calls [Encode ["Heart rate"]; IndexSearch "medical" 3;
              IndexSearch "legal" 3] s_two.

(** A store holding the first medical entry at address 1 and its metadata
    record at address 2. *)
Definition store0 : store :=
  {[ 1%positive := VStr <$> default ∅ (medical_data !! 0%nat);
     2%positive := record_dict (medical_record 0) 1 ]}.



(** The sample corpora initialised on the empty directory, and a new
    manager on that directory a day later. *)
Definition s_ready : @State toy := (initialize_all_corpora (H:=toy) s_init).2.

Definition s_reopened : @State toy :=
  CorpusManager_init (H:=toy) (corpus_dir s_ready) (vector_dim s_ready)
    (fs s_ready) "2024-01-02T00:00:00".

(** A client that saves and indexes the medical corpus, searches it and
    asks for the statistics. *)
Definition client_calls : list call :=
  [ Call_save_corpus "medical" medical_data;
    Call_build_vector_index "medical" "en";
    Call_search_similar_texts "Heart rate" (Some "medical") 3;
    Call_get_corpus_stats ].

(** ** Proof support *)

Ltac munfold :=
  unfold mbind, M_bind, mret, M_ret, gets, modify, raise, lift, path_exists,
    write_file, corpus_file, index_file, metadata_file, encode, IndexFlatIP,
    index_add, faiss_search, with_call in *.

Section CorpusStoreFacts.
Context `{Services}.

Lemma odict_get_set_eq {V} k (v : V) d : odict_get k (odict_set k v d) = Some v.
Proof.
  induction d as [|[k' v'] d IH]; simpl.
  - by rewrite decide_True.
  - destruct (decide (k = k')) as [->|Hne]; simpl.
    + by rewrite decide_True.
    + by rewrite decide_False.
Qed.

Lemma odict_get_set_ne {V} k k' (v : V) d :
  k ≠ k' → odict_get k' (odict_set k v d) = odict_get k' d.
Proof.
  intros Hne. induction d as [|[k0 v0] d IH]; simpl.
  - by rewrite decide_False.
  - destruct (decide (k = k0)) as [->|Hne0]; simpl.
    + by rewrite !decide_False.
    + destruct (decide (k' = k0)); [done|apply IH].
Qed.

Lemma odict_get_keys {V} k (d : odict V) :
  k ∈ odict_keys d → is_Some (odict_get k d).
Proof.
  unfold odict_keys. induction d as [|[k' v'] d IH]; simpl.
  - by intros ?%elem_of_nil.
  - intros [->|Hin]%elem_of_cons.
    + rewrite decide_True; eauto.
    + destruct (decide (k = k')); eauto.
Qed.

Lemma members_to_texts_encode (kvs : list (string * string)) :
  members_to_texts (prod_map id JString <$> kvs) = Some kvs.
Proof.
  induction kvs as [|[k v] kvs IH]; [done|].
  rewrite fmap_cons. cbn [members_to_texts prod_map fst snd id].
  by rewrite IH.
Qed.

Lemma entry_json_roundtrip (e : Entry) : entry_of_json (entry_to_json e) = Some e.
Proof.
  unfold entry_of_json, entry_to_json.
  rewrite members_to_texts_encode. f_equal.
  rewrite <- (list_to_map_to_list e) at 2.
  apply list_to_map_proper.
  - rewrite fmap_reverse, reverse_Permutation. apply NoDup_fst_map_to_list.
  - apply reverse_Permutation.
Qed.

Lemma entries_json_roundtrip (data : list Entry) :
  entries_of_json (entries_to_json data) = Some data.
Proof.
  unfold entries_of_json, entries_to_json.
  induction data as [|e data IH]; [done|].
  rewrite fmap_cons. cbn [entries_of_items].
  by rewrite entry_json_roundtrip, IH.
Qed.

Lemma with_calls_nil s : with_calls [] s = s.
Proof. destruct s. unfold with_calls. simpl. by rewrite app_nil_r. Qed.

Lemma with_calls_app evs1 evs2 s :
  with_calls evs2 (with_calls evs1 s) = with_calls (evs1 ++ evs2) s.
Proof. unfold with_calls. simpl. by rewrite app_assoc. Qed.

Lemma load_corpus_state corpus_name s : (load_corpus corpus_name s).2 = s.
Proof.
  unfold load_corpus. munfold. simpl.
  destruct (bool_decide _); simpl; [|done].
  destruct (fs s !! _) as [[[| | |corpus_info]| |]|]; simpl; try done.
  destruct (json_get _ _); simpl; [|done].
  by destruct (entries_of_json _).
Qed.

Lemma load_corpus_absent corpus_name s :
  fs s !! os_path_join (corpus_dir s) (corpus_name +:+ ".json") = None →
  load_corpus corpus_name s = (Ok [], s).
Proof.
  intros Hf. unfold load_corpus. munfold. simpl. rewrite Hf.
  by rewrite bool_decide_false by (by intros [? ?]).
Qed.

End CorpusStoreFacts.

Section SortFacts.
Context `{Services}.

Lemma score_lt_true a b : score_lt a b = true ↔ (a < b)%Q.
Proof.
  unfold score_lt. rewrite negb_true_iff. split.
  - intros Hb. apply Qnot_le_lt. intros Hle.
    apply Qle_bool_iff in Hle. congruence.
  - intros Hlt. destruct (Qle_bool b a) eqn:E; [|done].
    apply Qle_bool_iff in E. exfalso. by apply (Qlt_not_le a b).
Qed.

Lemma score_lt_false a b : score_lt a b = false ↔ (b <= a)%Q.
Proof.
  unfold score_lt. rewrite negb_false_iff. apply Qle_bool_iff.
Qed.

Lemma insert_desc_perm r l : insert_desc r l ≡ₚ r :: l.
Proof.
  induction l as [|x l IH]; simpl; [done|].
  destruct (score_lt _ _); [|done].
  rewrite IH. apply perm_swap.
Qed.

Lemma sort_desc_perm l : sort_desc l ≡ₚ l.
Proof.
  induction l as [|x l IH]; simpl; [done|].
  rewrite insert_desc_perm. by rewrite IH.
Qed.

Lemma sort_desc_length l : length (sort_desc l) = length l.
Proof. by rewrite sort_desc_perm. Qed.

Lemma insert_desc_sorted r l :
  StronglySorted ge_score l → StronglySorted ge_score (insert_desc r l).
Proof.
  induction 1 as [|x l Hs IH Hx]; simpl.
  - repeat constructor.
  - destruct (score_lt _ _) eqn:E.
    + constructor; [done|].
      apply score_lt_true in E.
      rewrite insert_desc_perm. constructor; [|done].
      by apply Qlt_le_weak.
    + apply score_lt_false in E.
      constructor; [by constructor|].
      constructor; [done|].
      eapply Forall_impl; [exact Hx|].
      intros y Hy. unfold ge_score in *. by eapply Qle_trans.
Qed.

Lemma sort_desc_sorted l : StronglySorted ge_score (sort_desc l).
Proof.
  induction l; simpl; [constructor | by apply insert_desc_sorted].
Qed.

Lemma insert_desc_stable q r l :
  List.filter (same_score q) (insert_desc r l)
  = List.filter (same_score q) (r :: l).
Proof.
  induction l as [|x l IH]; [done|].
  cbn [insert_desc]. destruct (score_lt _ _) eqn:E; [|done].
  apply score_lt_true in E.
  cbn [List.filter] in *. rewrite IH.
  destruct (same_score q r) eqn:Er, (same_score q x) eqn:Ex; try done.
  unfold same_score in *. apply Qeq_bool_iff in Er, Ex.
  exfalso. rewrite Er, Ex in E. by apply (Qlt_irrefl q).
Qed.

Lemma sort_desc_stable q l :
  List.filter (same_score q) (sort_desc l) = List.filter (same_score q) l.
Proof.
  induction l as [|x l IH]; [done|].
  cbn [sort_desc foldr]. rewrite insert_desc_stable.
  cbn [List.filter]. fold (sort_desc l). by rewrite IH.
Qed.

Lemma same_score_refl r : same_score (similarity_score r) r = true.
Proof. unfold same_score. apply Qeq_bool_iff. reflexivity. Qed.

Lemma sorted_head_max x l y :
  StronglySorted ge_score (x :: l) → In y l → ge_score x y.
Proof.
  intros Hs Hy. apply StronglySorted_inv in Hs as [_ Hx].
  rewrite List.Forall_forall in Hx. by apply Hx.
Qed.

(** Two score-descending lists with the same elements of every score, in
    the same order, are equal: the result of a stable sort does not depend
    on the sorting algorithm. *)
Lemma stable_sort_unique l1 l2 :
  StronglySorted ge_score l1 → StronglySorted ge_score l2 →
  (∀ q, List.filter (same_score q) l1 = List.filter (same_score q) l2) →
  l1 = l2.
Proof.
  revert l2. induction l1 as [|x l1 IH]; intros l2 Hs1 Hs2 Hf.
  - destruct l2 as [|y l2]; [done|].
    specialize (Hf (similarity_score y)). cbn [List.filter] in Hf.
    by rewrite same_score_refl in Hf.
  - destruct l2 as [|y l2].
    { specialize (Hf (similarity_score x)). cbn [List.filter] in Hf.
      by rewrite same_score_refl in Hf. }
    assert (Hxy : same_score (similarity_score x) y = true).
    { destruct (same_score (similarity_score x) y) eqn:E; [done|]. exfalso.
      assert (Hx : In x l2).
      { pose proof (Hf (similarity_score x)) as Hq. cbn [List.filter] in Hq.
        rewrite same_score_refl, E in Hq.
        eapply (proj1 (filter_In _ _ _)). rewrite <- Hq. by left. }
      assert (Hy : In y l1).
      { pose proof (Hf (similarity_score y)) as Hq. cbn [List.filter] in Hq.
        rewrite same_score_refl in Hq.
        destruct (same_score (similarity_score y) x) eqn:E'.
        - unfold same_score in E, E'. apply Qeq_bool_iff in E'.
          assert (Qeq_bool (similarity_score y) (similarity_score x) = true)
            by (apply Qeq_bool_iff; by symmetry).
          congruence.
        - eapply (proj1 (filter_In _ _ _)). rewrite Hq. by left. }
      pose proof (sorted_head_max _ _ _ Hs1 Hy) as H1.
      pose proof (sorted_head_max _ _ _ Hs2 Hx) as H2.
      unfold ge_score in H1, H2. unfold same_score in E.
      assert (Qeq_bool (similarity_score y) (similarity_score x) = true)
        by (apply Qeq_bool_iff; by apply Qle_antisym).
      congruence. }
    assert (x = y) as <-.
    { specialize (Hf (similarity_score x)). cbn [List.filter] in Hf.
      rewrite same_score_refl, Hxy in Hf. congruence. }
    f_equal. apply IH.
    + by apply StronglySorted_inv in Hs1 as [? _].
    + by apply StronglySorted_inv in Hs2 as [? _].
    + intros q. specialize (Hf q). cbn [List.filter] in Hf.
      destruct (same_score q x); congruence.
Qed.

(** Hence any stable, score-descending rearrangement of [l] is [sort_desc l]. *)
Lemma sort_desc_unique l l' :
  StronglySorted ge_score l' →
  (∀ q, List.filter (same_score q) l' = List.filter (same_score q) l) →
  l' = sort_desc l.
Proof.
  intros Hs Hf. apply stable_sort_unique; [done|apply sort_desc_sorted|].
  intros q. by rewrite sort_desc_stable.
Qed.

End SortFacts.

Section BuildFacts.
Context `{Services}.

Lemma extract_texts_none c src idx data :
  Forall (λ e : Entry, e !! src = None) data →
  extract_texts c src idx data = ([], []).
Proof.
  intros Hall. revert idx.
  induction Hall as [|e data He _ IH]; intros idx; simpl; [done|].
  by rewrite IH, He.
Qed.

Lemma extract_texts_rows c src idx data texts md :
  extract_texts c src idx data = (texts, md) →
  Forall2 (λ t r, corpus r = c ∧ translations r !! src = Some t) texts md.
Proof.
  revert idx texts md.
  induction data as [|e data IH]; intros idx texts md; simpl.
  - intros [= <- <-]. constructor.
  - destruct (extract_texts c src (S idx) data) as [texts' md'] eqn:E.
    specialize (IH _ _ _ E).
    destruct (e !! src) as [t|] eqn:Ht; intros [= <- <-]; [|done].
    by constructor.
Qed.

Lemma extract_texts_positions c src idx data texts md :
  extract_texts c src idx data = (texts, md) →
  Forall (λ r, (idx ≤ index r)%nat
               ∧ data !! (index r - idx)%nat = Some (translations r)) md.
Proof.
  revert idx texts md.
  induction data as [|e data IH]; intros idx texts md; simpl.
  - intros [= <- <-]. constructor.
  - destruct (extract_texts c src (S idx) data) as [texts' md'] eqn:E.
    specialize (IH _ _ _ E).
    assert (Forall (λ r, (idx ≤ index r)%nat
              ∧ (e :: data) !! (index r - idx)%nat = Some (translations r)) md')
      as IH'.
    { eapply Forall_impl; [exact IH|]. simpl. intros r [Hle Hr]. split; [lia|].
      replace (index r - idx)%nat with (S (index r - S idx)) by lia. done. }
    destruct (e !! src) as [t|] eqn:Ht; intros [= <- <-]; [|done].
    constructor; [|done]. simpl. split; [lia|]. by rewrite Nat.sub_diag.
Qed.

Lemma extract_texts_increasing c src idx data texts md :
  extract_texts c src idx data = (texts, md) →
  StronglySorted lt (index <$> md).
Proof.
  revert idx texts md.
  induction data as [|e data IH]; intros idx texts md; simpl.
  - intros [= <- <-]. constructor.
  - destruct (extract_texts c src (S idx) data) as [texts' md'] eqn:E.
    pose proof (extract_texts_positions _ _ _ _ _ _ E) as Hpos.
    specialize (IH _ _ _ E).
    destruct (e !! src) as [t|] eqn:Ht; intros [= <- <-]; [|done].
    rewrite fmap_cons. constructor; [done|]. simpl.
    apply Forall_fmap. eapply Forall_impl; [exact Hpos|].
    simpl. intros r [Hle _]. lia.
Qed.

Lemma extract_texts_complete c src idx data texts md j e :
  extract_texts c src idx data = (texts, md) →
  data !! j = Some e → is_Some (e !! src) →
  ∃ r, r ∈ md ∧ index r = (idx + j)%nat.
Proof.
  revert idx texts md j.
  induction data as [|e0 data IH]; intros idx texts md j; simpl; [done|].
  destruct (extract_texts c src (S idx) data) as [texts' md'] eqn:E.
  intros Hex Hj [t Ht]. destruct j as [|j]; simpl in Hj.
  - injection Hj as ->. rewrite Ht in Hex. injection Hex as <- <-.
    eexists. split; [apply list_elem_of_here|]. simpl. lia.
  - destruct (IH _ _ _ _ E Hj (ex_intro _ t Ht)) as (r & Hr & Hi).
    exists r. split; [|lia].
    destruct (e0 !! src); injection Hex as <- <-; [by apply list_elem_of_further|done].
Qed.

(** Building is a no-op when no entry of the corpus has the source language. *)
Lemma build_vector_index_skip corpus_name source_lang data s :
  (load_corpus corpus_name s).1 = Ok data →
  Forall (λ e : Entry, e !! source_lang = None) data →
  build_vector_index corpus_name source_lang s = (Ok tt, s).
Proof.
  intros Hload Hnone. unfold build_vector_index.
  unfold mbind at 1. unfold M_bind.
  pose proof (load_corpus_state corpus_name s) as Hs.
  destruct (load_corpus corpus_name s) as [o s1]. simpl in *. subst o s1.
  case_bool_decide; [done|].
  rewrite (extract_texts_none _ _ _ _ Hnone). by rewrite bool_decide_true.
Qed.

End BuildFacts.

Section SearchFacts.
Context `{Services}.

Lemma collect_hits_join c md hits rs s :
  metadata s !! c = Some md →
  collect_hits c hits rs s
  = (match join_hits c md hits with
     | Ok l => Ok (rs ++ l)
     | Raise e => Raise e
     end, s).
Proof.
  intros Hmd. revert rs.
  induction hits as [|[score idx] hits IH]; intros rs; simpl.
  - by rewrite app_nil_r.
  - munfold. rewrite Hmd. destruct (idx <? _); [|apply IH].
    destruct (py_index md idx) as [r|e]; simpl; [|done].
    rewrite IH. destruct (join_hits c md hits); [|done].
    by rewrite <- app_assoc.
Qed.

Lemma collect_hits_candidates c hits rs s :
  collect_hits c hits rs s
  = (match corpus_candidates s c hits with
     | Ok l => Ok (rs ++ l)
     | Raise e => Raise e
     end, s).
Proof.
  unfold corpus_candidates.
  destruct hits as [|h hits]; [simpl; by rewrite app_nil_r|].
  destruct (metadata s !! c) as [md|] eqn:Hmd.
  - by apply collect_hits_join.
  - destruct h. simpl. munfold. by rewrite Hmd.
Qed.

Lemma corpus_hits_with_calls evs s q k c :
  corpus_hits (with_calls evs s) q k c = corpus_hits s q k c.
Proof. done. Qed.

Lemma corpus_candidates_with_calls evs s c hits :
  corpus_candidates (with_calls evs s) c hits = corpus_candidates s c hits.
Proof. done. Qed.

(** The outer loop: the state only gains log entries, one search per
    registered corpus; on success the candidates are appended corpus by
    corpus. *)
Lemma search_corpora_spec corpora q k rs s :
  ∃ evs,
    (search_corpora corpora q k rs s).2 = with_calls evs s
    ∧ Forall (λ e, ∃ c, e = IndexSearch c k) evs
    ∧ ∀ cands, (search_corpora corpora q k rs s).1 = Ok cands →
        evs = (λ c, IndexSearch c k)
                <$> filter (λ c, is_Some (odict_get c (indexes s))) corpora
        ∧ ∃ groups,
            cands = rs ++ concat groups
            ∧ Forall2 (λ c g, corpus_candidates s c (corpus_hits s q k c) = Ok g)
                corpora groups.
Proof.
  revert rs s. induction corpora as [|c corpora IH]; intros rs s; simpl.
  - exists []. rewrite with_calls_nil. split; [done|]. split; [done|].
    intros cands [= <-]. split; [done|]. exists []. by rewrite app_nil_r.
  - munfold. destruct (odict_get c (indexes s)) as [ix|] eqn:Hix.
    + simpl. rewrite collect_hits_candidates.
      change (corpus_candidates (with_calls [IndexSearch c k] s) c)
        with (corpus_candidates s c).
      destruct (corpus_candidates s c (index_search (xb ix) q k)) as [l|e] eqn:Hc.
      * destruct (IH (rs ++ l) (with_calls [IndexSearch c k] s))
          as (evs & Hst & Hevs & Hok).
        exists (IndexSearch c k :: evs).
        rewrite Hst, with_calls_app. split; [done|].
        split; [constructor; eauto|].
        intros cands Hcands. destruct (Hok cands Hcands) as (-> & groups & -> & Hg).
        split.
        { rewrite filter_cons_True by (rewrite Hix; eauto). done. }
        exists (l :: groups). simpl. rewrite app_assoc. split; [done|].
        constructor; [|done].
        unfold corpus_hits. by rewrite Hix.
      * exists [IndexSearch c k]. split; [done|].
        split; [constructor; eauto|]. done.
    + destruct (IH rs s) as (evs & Hst & Hevs & Hok).
      exists evs. split; [done|]. split; [done|].
      intros cands Hcands. destruct (Hok cands Hcands) as (-> & groups & -> & Hg).
      split.
      { rewrite filter_cons_False; [done|]. rewrite Hix. by intros [? ?]. }
      exists ([] :: groups). split; [done|].
      constructor; [|done].
      unfold corpus_hits, corpus_candidates. by rewrite Hix.
Qed.

End SearchFacts.

Section ResolveFacts.
Context `{Services}.

Lemma odict_mem_true {V} k (d : odict V) : odict_mem k d = true ↔ is_Some (odict_get k d).
Proof. unfold odict_mem. apply bool_decide_eq_true. Qed.

Lemma odict_mem_false {V} k (d : odict V) : odict_mem k d = false ↔ odict_get k d = None.
Proof.
  unfold odict_mem. rewrite bool_decide_eq_false.
  rewrite <- eq_None_not_Some. done.
Qed.

Lemma truthy_Some name : truthy (Some name) = true ↔ name ≠ "".
Proof. destruct name; simpl; split; done. Qed.

(** [load_vector_index] when one of the two files is missing. *)
Lemma load_vector_index_missing name s :
  fs s !! os_path_join (corpus_dir s) (name +:+ "_index.faiss") = None
  ∨ fs s !! os_path_join (corpus_dir s) (name +:+ "_metadata.pkl") = None →
  load_vector_index name s = (Ok false, s).
Proof.
  intros Hmiss. unfold load_vector_index. munfold. simpl.
  assert (bool_decide (is_Some (@None file)) = false) as Hn
    by apply bool_decide_eq_false_2, is_Some_None.
  destruct Hmiss as [-> | ->]; rewrite Hn; [done|].
  by rewrite andb_false_r.
Qed.

(** [load_vector_index] when both files are there and well formed. *)
Lemma load_vector_index_present name ix md s :
  fs s !! os_path_join (corpus_dir s) (name +:+ "_index.faiss") = Some (FaissFile ix) →
  fs s !! os_path_join (corpus_dir s) (name +:+ "_metadata.pkl") = Some (PickleFile md) →
  load_vector_index name s
  = (Ok true, with_metadata <[name := md]> (with_indexes (odict_set name ix) s)).
Proof.
  intros Hi Hm. unfold load_vector_index. munfold. simpl.
  rewrite Hi, Hm. rewrite !bool_decide_true by eauto. simpl.
  rewrite Hi. simpl. by rewrite Hm.
Qed.

(** Whatever [load_vector_index] does, it only touches the registry entry
    of the corpus it loads. *)
Lemma load_vector_index_frame name s :
  let s' := (load_vector_index name s).2 in
  fs s' = fs s ∧ calls s' = calls s
  ∧ ∀ c, c ≠ name →
      odict_get c (indexes s') = odict_get c (indexes s)
      ∧ metadata s' !! c = metadata s !! c.
Proof.
  unfold load_vector_index. munfold. simpl.
  destruct (_ && _); [|done].
  destruct (fs s !! _) as [[|ix|]|]; simpl; try done.
  destruct (fs s !! _) as [[| |md]|]; simpl;
    (split; [done|]; split; [done|]; intros c Hc;
     rewrite ?odict_get_set_ne by done; rewrite ?lookup_insert_ne by done; done).
Qed.

Lemma load_vector_index_false name s s' :
  load_vector_index name s = (Ok false, s') → s' = s.
Proof.
  unfold load_vector_index. munfold. simpl.
  destruct (_ && _); [|by intros [= <-]].
  destruct (fs s !! _) as [[|ix|]|]; simpl; try done.
  destruct (fs s !! _) as [[| |md]|]; simpl; done.
Qed.

Lemma ensure_loaded_skip corpus_name s :
  truthy corpus_name = false
  ∨ is_Some (odict_get (default "" corpus_name) (indexes s)) →
  ensure_loaded corpus_name s = (Ok true, s).
Proof.
  intros Hc. unfold ensure_loaded. munfold. simpl.
  destruct Hc as [-> | Hreg]; [done|].
  apply odict_mem_true in Hreg. rewrite Hreg. by rewrite andb_false_r.
Qed.

Lemma ensure_loaded_load name s :
  name ≠ "" → odict_get name (indexes s) = None →
  ensure_loaded (Some name) s = load_vector_index name s.
Proof.
  intros Hn Hreg. unfold ensure_loaded. munfold. simpl.
  apply truthy_Some in Hn. simpl in Hn. rewrite Hn.
  apply odict_mem_false in Hreg. by rewrite Hreg.
Qed.

Lemma ensure_loaded_cases corpus_name s :
  ensure_loaded corpus_name s = (Ok true, s)
  ∨ (∃ name, corpus_name = Some name ∧ name ≠ ""
       ∧ odict_get name (indexes s) = None
       ∧ ensure_loaded corpus_name s = load_vector_index name s).
Proof.
  destruct (truthy corpus_name) eqn:Ht.
  - destruct corpus_name as [name|]; [|done].
    apply truthy_Some in Ht.
    destruct (odict_get name (indexes s)) as [ix|] eqn:Hreg.
    + left. apply ensure_loaded_skip. right. simpl. rewrite Hreg. eauto.
    + right. exists name. eauto using ensure_loaded_load.
  - left. apply ensure_loaded_skip. by left.
Qed.

Lemma ensure_loaded_false corpus_name s s' :
  ensure_loaded corpus_name s = (Ok false, s') →
  s' = s ∧ truthy corpus_name = true
  ∧ odict_get (default "" corpus_name) (indexes s) = None.
Proof.
  destruct (ensure_loaded_cases corpus_name s)
    as [-> | (name & -> & Hn & Hreg & ->)]; [done|].
  intros Hl. split; [by eapply load_vector_index_false|].
  split; [by apply truthy_Some|done].
Qed.

Lemma py_slice_to_nil {A} k : py_slice_to k (@nil A) = [].
Proof. unfold py_slice_to. destruct (0 <=? k); by rewrite take_nil. Qed.

Lemma py_slice_to_nonneg {A} k (l : list A) :
  0 ≤ k → py_slice_to k l = take (Z.to_nat k) l.
Proof. intros Hk. unfold py_slice_to. by rewrite (proj2 (Z.leb_le 0 k)). Qed.

(** [search_similar_texts] sorts and cuts the candidates. *)
Lemma search_similar_texts_candidates query corpus_name k s :
  search_similar_texts query corpus_name k s
  = (match (candidates query corpus_name k s).1 with
     | Ok cands => Ok (py_slice_to k (sort_desc cands))
     | Raise e => Raise e
     end, (candidates query corpus_name k s).2).
Proof.
  unfold search_similar_texts, candidates.
  unfold mbind, M_bind, mret, M_ret.
  destruct (ensure_loaded corpus_name s) as [[[]|e] s1]; simpl; try done.
  - by destruct (gather_results query corpus_name k s1) as [[cands|e] s2].
  - by rewrite py_slice_to_nil.
Qed.

Lemma gather_results_spec query corpus_name k s :
  ∃ evs,
    (gather_results query corpus_name k s).2 = with_calls (Encode [query] :: evs) s
    ∧ Forall (λ e, ∃ c, e = IndexSearch c k) evs
    ∧ ∀ cands, (gather_results query corpus_name k s).1 = Ok cands →
        evs = (λ c, IndexSearch c k)
                <$> filter (λ c, is_Some (odict_get c (indexes s)))
                      (corpora_to_search corpus_name s)
        ∧ ∃ groups,
            cands = concat groups
            ∧ Forall2 (λ c g, corpus_candidates s c
                                (corpus_hits s (query_matrix query) k c) = Ok g)
                (corpora_to_search corpus_name s) groups.
Proof.
  unfold gather_results. munfold. simpl.
  destruct (search_corpora_spec
              (corpora_to_search corpus_name (with_calls [Encode [query]] s))
              (query_matrix query) k [] (with_calls [Encode [query]] s))
    as (evs & Hst & Hevs & Hok).
  exists evs. unfold query_matrix in *. simpl in *.
  rewrite Hst, with_calls_app. split; [done|]. split; [done|].
  intros cands Hc. destruct (Hok cands Hc) as (-> & groups & -> & Hg).
  split; [done|]. by exists groups.
Qed.

End ResolveFacts.

Section CandidateFacts.
Context `{Services}.

(** The state after a search is the state after the load step, with the
    calls to the embedding model and the indexes logged. *)
Lemma candidates_state query corpus_name k s :
  ∃ evs,
    (candidates query corpus_name k s).2
    = with_calls evs (ensure_loaded corpus_name s).2
    ∧ Forall (λ e, e = Encode [query] ∨ ∃ c, e = IndexSearch c k) evs.
Proof.
  unfold candidates, mbind, M_bind, mret, M_ret.
  destruct (ensure_loaded corpus_name s) as [[[]|e] s1]; simpl.
  - destruct (gather_results_spec query corpus_name k s1) as (evs & Hst & Hevs & _).
    eexists. split; [exact Hst|].
    constructor; [by left|]. eapply Forall_impl; [exact Hevs|]. by right.
  - exists []. by rewrite with_calls_nil.
  - exists []. by rewrite with_calls_nil.
Qed.

Lemma candidates_groups query corpus_name k s cands s' :
  candidates query corpus_name k s = (Ok cands, s') →
  ∃ groups,
    cands = concat groups
    ∧ Forall2 (λ c g, corpus_candidates s' c
                        (corpus_hits s' (query_matrix query) k c) = Ok g)
        (corpora_to_search corpus_name s') groups.
Proof.
  unfold candidates, mbind, M_bind, mret, M_ret.
  destruct (ensure_loaded corpus_name s) as [[[]|e] s1] eqn:El; simpl; [| |done].
  - destruct (gather_results_spec query corpus_name k s1) as (evs & Hst & _ & Hok).
    destruct (gather_results query corpus_name k s1) as [o s2]. simpl in *.
    intros [= -> <-]. subst s2.
    destruct (Hok cands eq_refl) as (_ & groups & -> & Hg). by exists groups.
  - intros [= <- <-].
    apply ensure_loaded_false in El as (-> & Ht & Hreg).
    exists [[]]. split; [done|].
    unfold corpora_to_search. rewrite Ht.
    constructor; [|constructor].
    unfold corpus_hits. by rewrite Hreg.
Qed.

(** A search leaves the files alone and keeps every registry entry it
    found; it adds an entry only when it loads the named corpus. *)
Lemma search_similar_texts_frame query corpus_name k s :
  let s' := (search_similar_texts query corpus_name k s).2 in
  fs s' = fs s
  ∧ (∀ c ix, odict_get c (indexes s) = Some ix →
       odict_get c (indexes s') = Some ix
       ∧ metadata s' !! c = metadata s !! c)
  ∧ (∀ c, corpus_name ≠ Some c →
       odict_get c (indexes s') = odict_get c (indexes s)
       ∧ metadata s' !! c = metadata s !! c)
  ∧ (truthy corpus_name = false
     ∨ is_Some (odict_get (default "" corpus_name) (indexes s)) →
     indexes s' = indexes s ∧ metadata s' = metadata s).
Proof.
  rewrite search_similar_texts_candidates. simpl.
  destruct (candidates_state query corpus_name k s) as (evs & -> & _).
  simpl.
  destruct (ensure_loaded_cases corpus_name s)
    as [-> | (name & -> & Hn & Hreg & ->)]; simpl.
  - split; [done|]. split; [by intros c ix ->|]. done.
  - destruct (load_vector_index_frame name s) as (Hfs & _ & Hother).
    split; [done|]. split; [|split].
    + intros c ix Hc. assert (c ≠ name) as Hne by congruence.
      destruct (Hother c Hne) as [-> ->]. done.
    + intros c Hc. apply Hother. congruence.
    + intros [Ht | [ix Hix]]; [|congruence].
      apply truthy_Some in Hn. simpl in *. congruence.
Qed.

End CandidateFacts.

Section JoinFacts.
Context `{Services}.

Lemma py_index_in_range {A} (l : list A) i x :
  0 ≤ i → l !! Z.to_nat i = Some x → py_index l i = Ok x.
Proof.
  intros Hi Hx. unfold py_index.
  pose proof (lookup_lt_Some _ _ _ Hx) as Hlt.
  rewrite (proj2 (Z.ltb_ge i 0)) by lia.
  rewrite (proj2 (Z.leb_le 0 i)) by lia.
  rewrite (proj2 (Z.ltb_lt i _)) by lia. simpl. by rewrite Hx.
Qed.

Lemma py_index_from_end {A} (l : list A) i x :
  i < 0 → - Z.of_nat (length l) ≤ i →
  l !! Z.to_nat (Z.of_nat (length l) + i) = Some x → py_index l i = Ok x.
Proof.
  intros Hi Hlo Hx. unfold py_index.
  rewrite (proj2 (Z.ltb_lt i 0)) by lia.
  rewrite (proj2 (Z.leb_le 0 _)) by lia.
  rewrite (proj2 (Z.ltb_lt _ _)) by lia. simpl.
  by rewrite Z.add_comm, Hx.
Qed.

Lemma py_index_below {A} (l : list A) i :
  i < - Z.of_nat (length l) → py_index l i = Raise IndexError.
Proof.
  intros Hi. unfold py_index.
  rewrite (proj2 (Z.ltb_lt i 0)) by lia.
  by rewrite (proj2 (Z.leb_gt 0 _)) by lia.
Qed.


(** A negative position is not dropped: it passes the test of line 632 and
    is read from the end of the list. *)
Lemma join_hits_negative corpus md score idx r hits :
  idx < 0 → - Z.of_nat (length md) ≤ idx →
  md !! Z.to_nat (Z.of_nat (length md) + idx) = Some r →
  join_hits corpus md ((score, idx) :: hits)
  = match join_hits corpus md hits with
    | Ok l => Ok (annotate corpus score r :: l)
    | Raise e => Raise e
    end.
Proof.
  intros Hneg Hlo Hr. simpl.
  rewrite (proj2 (Z.ltb_lt idx _)) by lia.
  by rewrite (py_index_from_end _ _ _ Hneg Hlo Hr).
Qed.

Lemma join_hits_total corpus md hits :
  md ≠ [] → Forall (λ h : Q * Z, -1 ≤ h.2) hits →
  ∃ l, join_hits corpus md hits = Ok l.
Proof.
  intros Hmd. induction 1 as [|[score idx] hits Hidx _ [l IH]]; simpl in *; [eauto|].
  destruct (idx <? _) eqn:Hlt; [|eauto].
  apply Z.ltb_lt in Hlt.
  assert (∃ r, py_index md idx = Ok r) as [r ->].
  { destruct (decide (0 ≤ idx)).
    - destruct (lookup_lt_is_Some_2 md (Z.to_nat idx)) as [r Hr]; [lia|].
      exists r. by apply py_index_in_range.
    - destruct md as [|r0 md]; [done|].
      destruct (lookup_lt_is_Some_2 (r0 :: md)
                  (Z.to_nat (Z.of_nat (length (r0 :: md)) + idx))) as [r Hr].
      { simpl. lia. }
      exists r. apply py_index_from_end; [lia| simpl; lia | done]. }
  rewrite IH. eauto.
Qed.

Lemma corpus_candidates_total s q k c :
  registry_ok s → labels_ok s q k →
  ∃ l, corpus_candidates s c (corpus_hits s q k c) = Ok l.
Proof.
  intros Hreg Hlab. unfold corpus_candidates, corpus_hits.
  destruct (odict_get c (indexes s)) as [ix|] eqn:Hix; [|eauto].
  destruct (Hreg c ix Hix) as (md & -> & Hmd).
  destruct (index_search (xb ix) q k) as [|h hits] eqn:Hh; [eauto|].
  rewrite <- Hh. apply join_hits_total; [done|]. by eapply Hlab.
Qed.

Lemma search_corpora_total corpora q k rs s :
  registry_ok s → labels_ok s q k →
  ∃ cands, (search_corpora corpora q k rs s).1 = Ok cands.
Proof.
  intros Hreg Hlab. revert rs s Hreg Hlab.
  induction corpora as [|c corpora IH]; intros rs s Hreg Hlab; simpl; [eauto|].
  munfold. destruct (odict_get c (indexes s)) as [ix|] eqn:Hix; [|by apply IH].
  simpl. rewrite collect_hits_candidates.
  change (corpus_candidates (with_calls [IndexSearch c k] s) c)
    with (corpus_candidates s c).
  destruct (corpus_candidates_total s q k c Hreg Hlab) as [l Hl].
  unfold corpus_hits in Hl. rewrite Hix in Hl. rewrite Hl.
  by apply IH.
Qed.

(** With a registry in that shape, a search that has nothing to load
    returns. *)
Lemma search_similar_texts_returns query corpus_name k s :
  registry_ok s → labels_ok s (query_matrix query) k →
  truthy corpus_name = false
  ∨ is_Some (odict_get (default "" corpus_name) (indexes s)) →
  ∃ cands s', candidates query corpus_name k s = (Ok cands, s').
Proof.
  intros Hreg Hlab Hname. unfold candidates, mbind, M_bind.
  rewrite ensure_loaded_skip by done. simpl.
  unfold gather_results. munfold. simpl.
  destruct (search_corpora_total
              (corpora_to_search corpus_name (with_calls [Encode [query]] s))
              (query_matrix query) k [] (with_calls [Encode [query]] s))
    as [cands Hc]; [done..|].
  unfold query_matrix in Hc. simpl in Hc.
  destruct (search_corpora _ _ _ _ _) as [o s']. simpl in Hc. subst o. eauto.
Qed.

End JoinFacts.

Section RegistryKeys.
Context `{Services}.

Lemma filter_registered_keys (d : odict Index) :
  filter (λ c, is_Some (odict_get c d)) (odict_keys d) = odict_keys d.
Proof.
  assert (∀ l : list string, Forall (λ c, is_Some (odict_get c d)) l →
            filter (λ c, is_Some (odict_get c d)) l = l) as Hall.
  { induction 1 as [|c l Hc _ IH]; [done|].
    by rewrite filter_cons_True, IH by done. }
  apply Hall. apply Forall_forall. intros c Hc. by apply odict_get_keys.
Qed.

Lemma search_state_ok query corpus_name k s s1 rs :
  ensure_loaded corpus_name s = (Ok true, s1) →
  (search_similar_texts query corpus_name k s).1 = Ok rs →
  (search_similar_texts query corpus_name k s).2
  = with_calls
      (Encode [query]
       :: ((λ c, IndexSearch c k)
             <$> filter (λ c, is_Some (odict_get c (indexes s1)))
                   (corpora_to_search corpus_name s1))) s1.
Proof.
  intros El. rewrite search_similar_texts_candidates. simpl.
  unfold candidates, mbind, M_bind. rewrite El. simpl.
  destruct (gather_results_spec query corpus_name k s1) as (evs & Hst & _ & Hok).
  destruct (gather_results query corpus_name k s1) as [[cands|e] s2]; [|done].
  simpl in *. intros _. destruct (Hok cands eq_refl) as [-> _]. done.
Qed.

End RegistryKeys.

Section ContextFacts.
Context `{Services}.

Lemma collect_examples_spec target_language max_examples similar_texts acc :
  Z.of_nat (length acc) < Z.max 1 max_examples →
  collect_examples target_language max_examples similar_texts acc
  = acc ++ take (Z.to_nat (Z.max 1 max_examples) - length acc)%nat
             (omap (example_of target_language) similar_texts).
Proof.
  revert acc. induction similar_texts as [|r rs IH]; intros acc Hacc.
  - simpl. by rewrite take_nil, app_nil_r.
  - cbn [collect_examples omap list_omap]. unfold example_of at 1.
    destruct (translations (record r) !! "en") as [en_text|];
      [destruct (translations (record r) !! target_language) as [target_text|]|];
      [|by apply IH..].
    set (e := format_example target_language en_text target_text).
    rewrite length_app. simpl.
    destruct (max_examples <=? _) eqn:Hle.
    + apply Z.leb_le in Hle.
      replace (Z.to_nat (Z.max 1 max_examples) - length acc)%nat with 1%nat by lia.
      simpl. by rewrite take_0.
    + apply Z.leb_gt in Hle.
      rewrite IH by (rewrite length_app; simpl; lia).
      rewrite length_app. simpl. rewrite <- app_assoc. simpl.
      replace (Z.to_nat (Z.max 1 max_examples) - length acc)%nat
        with (S (Z.to_nat (Z.max 1 max_examples) - (length acc + 1)))%nat by lia.
      done.
Qed.

Lemma collect_examples_take target_language max_examples similar_texts :
  collect_examples target_language max_examples similar_texts []
  = take (Z.to_nat (Z.max 1 max_examples))
      (omap (example_of target_language) similar_texts).
Proof.
  rewrite collect_examples_spec by (simpl; lia). simpl.
  by rewrite Nat.sub_0_r.
Qed.

Lemma search_similar_texts_length query corpus_name k s rs :
  0 ≤ k →
  (search_similar_texts query corpus_name k s).1 = Ok rs →
  (length rs ≤ Z.to_nat k)%nat.
Proof.
  intros Hk. rewrite search_similar_texts_candidates. simpl.
  destruct (candidates query corpus_name k s).1 as [cands|e]; [|done].
  intros [= <-]. rewrite py_slice_to_nonneg by done.
  rewrite length_take. lia.
Qed.

Lemma get_context_examples_unfold query target_language max_examples s :
  get_context_examples query target_language max_examples s
  = (match (search_similar_texts query None (max_examples * 2) s).1 with
     | Ok rs =>
         Ok (render_examples
               (collect_examples target_language max_examples rs []))
     | Raise e => Raise e
     end, (search_similar_texts query None (max_examples * 2) s).2).
Proof.
  unfold get_context_examples, mbind, M_bind, mret, M_ret.
  by destruct (search_similar_texts query None (max_examples * 2) s) as [[rs|e] s'].
Qed.

Lemma omap_example_none target_language rs :
  Forall (λ r, translations (record r) !! target_language = None) rs →
  omap (example_of target_language) rs = [].
Proof.
  induction 1 as [|r rs Hr _ IH]; [done|].
  cbn [omap list_omap]. unfold example_of at 1. rewrite Hr.
  by destruct (translations (record r) !! "en").
Qed.

End ContextFacts.

Section ObjectFacts.

Lemma py_index_Forall2 {A B} (R : A → B → Prop) (l1 : list A) (l2 : list B) i :
  Forall2 R l1 l2 →
  match py_index l1 i, py_index l2 i with
  | Ok a, Ok b => R a b
  | Raise e1, Raise e2 => e1 = e2
  | _, _ => False
  end.
Proof.
  intros HR. unfold py_index. cbv zeta.
  rewrite <- (Forall2_length _ _ _ HR).
  destruct (_ && _); [|done].
  destruct (l1 !! _) as [a|] eqn:Ha.
  - destruct (Forall2_lookup_l _ _ _ _ _ HR Ha) as (b & Hb & Hab).
    by rewrite Hb.
  - apply lookup_ge_None in Ha.
    rewrite (Forall2_length _ _ _ HR) in Ha at 1.
    apply lookup_ge_None in Ha. by rewrite Ha.
Qed.

Lemma is_record_mono h h' l r : h ⊆ h' → is_record h l r → is_record h' l r.
Proof.
  intros Hsub (t & Hl & Ht). exists t.
  split; eapply lookup_weaken; eauto.
Qed.

Lemma is_result_mono h h' l sr : h ⊆ h' → is_result h l sr → is_result h' l sr.
Proof.
  intros Hsub (t & Hl & Ht). exists t.
  split; eapply lookup_weaken; eauto.
Qed.

(** One pass of the loop body: a fresh object, the stored ones as before. *)
Lemma annotate_copy_spec corpus score l (h : store) :
  let l' := fresh (dom h) in
  let h1 := snd (dict_copy l h) in
  let h' := dict_setitem l' "corpus_name" (VStr corpus)
              (dict_setitem l' "similarity_score" (VFloat score) h1) in
  fst (dict_copy l h) = l' ∧ (l' ∉ dom h) ∧ h ⊆ h'
  ∧ h' !! l' = Some (<["corpus_name" := VStr corpus]>
                       (<["similarity_score" := VFloat score]> (h !!! l))).
Proof.
  simpl. unfold dict_setitem, dict_copy. simpl.
  pose proof (is_fresh (dom h)) as Hfresh.
  split; [done|]. split; [done|].
  rewrite !alter_insert_eq.
  split; [|by rewrite lookup_insert_eq].
  apply insert_subseteq. by apply not_elem_of_dom.
Qed.

Lemma collect_hits_store_spec corpus mdl md hits results (h : store) :
  Forall2 (is_record h) mdl md →
  let h' := (collect_hits_store corpus mdl hits results h).2 in
  h ⊆ h'
  ∧ Forall2 (is_record h') mdl md
  ∧ match (collect_hits_store corpus mdl hits results h).1,
          join_hits corpus md hits with
    | Ok rs, Ok new =>
        ∃ new_locs,
          rs = results ++ new_locs
          ∧ Forall (λ l, l ∉ dom h) new_locs
          ∧ Forall2 (is_result h') new_locs new
    | Raise e1, Raise e2 => e1 = e2
    | _, _ => False
    end.
Proof.
  revert results h.
  induction hits as [|[score idx] hits IH]; intros results h Hmd; simpl.
  - split; [done|]. split; [done|]. exists []. by rewrite app_nil_r.
  - rewrite <- (Forall2_length _ _ _ Hmd).
    destruct (idx <? _); [|by apply IH].
    pose proof (py_index_Forall2 _ _ _ idx Hmd) as Hidx.
    destruct (py_index mdl idx) as [l|e1], (py_index md idx) as [r|e2];
      try done.
    destruct (annotate_copy_spec corpus score l h) as (_ & Hfresh & Hsub & Hnew).
    simpl in Hsub, Hnew. simpl.
    set (h3 := dict_setitem _ "corpus_name" _ _) in *.
    assert (Forall2 (is_record h3) mdl md) as Hmd3.
    { eapply Forall2_impl; [exact Hmd|]. intros ???. by eapply is_record_mono. }
    destruct (IH (results ++ [fresh (dom h)]) h3 Hmd3) as (Hsub' & Hmd' & Hres).
    split; [by etrans|]. split; [done|].
    destruct (collect_hits_store _ _ _ _ h3) as [[rs|e1] h'] eqn:Hrun,
      (join_hits corpus md hits) as [new|e2]; simpl in *; try done.
    destruct Hres as (new_locs & -> & Hfr & Hrs).
    exists (fresh (dom h) :: new_locs). rewrite <- app_assoc. split; [done|].
    split.
    + constructor; [done|].
      eapply Forall_impl; [exact Hfr|]. intros l0 Hl0 Hin. apply Hl0.
      by eapply (subseteq_dom h h3).
    + constructor; [|done].
      destruct Hidx as (t & Hl & Ht).
      eapply is_result_mono; [exact Hsub'|].
      exists t. simpl. split; [|by eapply lookup_weaken].
      rewrite Hnew. by rewrite (lookup_total_correct _ _ _ Hl).
Qed.

End ObjectFacts.

Section Invariant.
Context `{Services}.

(** [build_vector_index] keeps the registry in shape. *)
Lemma build_vector_index_registry_ok corpus_name source_lang s :
  registry_ok s → registry_ok (build_vector_index corpus_name source_lang s).2.
Proof.
  intros Hreg. unfold build_vector_index.
  unfold mbind at 1. unfold M_bind at 1.
  pose proof (load_corpus_state corpus_name s) as Hs.
  destruct (load_corpus corpus_name s) as [[data|e] s1]; simpl in Hs; subst s1;
    [|done].
  case_bool_decide; [done|].
  destruct (extract_texts corpus_name source_lang 0 data) as [texts md] eqn:E.
  case_bool_decide as Ht; [done|].
  pose proof (extract_texts_rows _ _ _ _ _ _ E) as Hrows.
  munfold. simpl. intros c ix. simpl.
  destruct (decide (corpus_name = c)) as [<-|Hne].
  - intros _. exists md. rewrite lookup_insert_eq. split; [done|].
    intros ->. by apply Forall2_nil_inv_r in Hrows.
  - rewrite odict_get_set_ne, lookup_insert_ne by done. apply Hreg.
Qed.

End Invariant.

(** ** Properties of the corpus manager *)

Section Properties.
Context `{Services}.

(** The ranking step of lines 638-640, for a count [k > 0]. When the
    search gathers the candidate list [cands] over the searched corpora,
    [search_similar_texts] returns the first [k] elements of [ranked], the
    stable score-descending rearrangement of [cands]: [min k (length cands)]
    results, [ranked] being a permutation of [cands] sorted by score, best
    first, in which results of equal score keep the order they have in
    [cands]. [cands] lists the candidates corpus by corpus in search order,
    within a corpus in the order of the index's hits, and holds whatever the
    test of line 632 lets through, the padding hits of an index with fewer
    than [k] rows included. The candidates are gathered whenever the
    registry is in shape, the index labels are positions or [-1], and
    nothing has to be loaded. *)
Lemma search_similar_texts_ranked s query corpus_name k :
  0 < k →
  (∀ cands s',
     candidates query corpus_name k s = (Ok cands, s') →
     ∃ ranked,
       search_similar_texts query corpus_name k s
       = (Ok (take (Z.to_nat k) ranked), s')
       ∧ length (take (Z.to_nat k) ranked) = (Z.to_nat k `min` length cands)%nat
       ∧ ranked ≡ₚ cands
       ∧ StronglySorted ge_score ranked
       ∧ (∀ q, List.filter (same_score q) ranked
               = List.filter (same_score q) cands)
       ∧ (Z.of_nat (length cands) ≤ k → take (Z.to_nat k) ranked = ranked)
       ∧ ∃ groups,
           cands = concat groups
           ∧ Forall2 (λ c g, corpus_candidates s' c
                               (corpus_hits s' (query_matrix query) k c) = Ok g)
               (corpora_to_search corpus_name s') groups)
  ∧ (registry_ok s → labels_ok s (query_matrix query) k →
     truthy corpus_name = false
     ∨ is_Some (odict_get (default "" corpus_name) (indexes s)) →
     ∃ cands s', candidates query corpus_name k s = (Ok cands, s')).
Proof.
  intros Hk. split; [|apply search_similar_texts_returns].
  intros cands s' Hc. exists (sort_desc cands).
  rewrite search_similar_texts_candidates, Hc. simpl.
  rewrite py_slice_to_nonneg by lia.
  split; [done|].
  split; [by rewrite length_take, sort_desc_length|].
  split; [apply sort_desc_perm|].
  split; [apply sort_desc_sorted|].
  split; [intros q; apply sort_desc_stable|].
  split; [|by eapply candidates_groups].
  intros Hlen. apply take_ge. rewrite sort_desc_length. lia.
Qed.

(** C3, as amended. Without a corpus name the search loads nothing: the
    registry and the files stay as they are, and a search that returns has
    queried exactly the corpora whose index is registered, in registration
    order. Loading from disk happens for a named corpus only: a non-empty
    name that is not registered but has both files on disk is registered
    from them and then searched; when one of the files is missing the
    search returns the empty list and changes nothing. *)
Theorem search_corpus_resolution s query k :
  (let s' := (search_similar_texts query None k s).2 in
   indexes s' = indexes s ∧ metadata s' = metadata s ∧ fs s' = fs s
   ∧ ∀ rs, (search_similar_texts query None k s).1 = Ok rs →
       calls s' = calls s ++ Encode [query]
                    :: ((λ c, IndexSearch c k) <$> odict_keys (indexes s)))
  ∧ (∀ name ix md,
       name ≠ "" → odict_get name (indexes s) = None →
       fs s !! os_path_join (corpus_dir s) (name +:+ "_index.faiss")
         = Some (FaissFile ix) →
       fs s !! os_path_join (corpus_dir s) (name +:+ "_metadata.pkl")
         = Some (PickleFile md) →
       let s' := (search_similar_texts query (Some name) k s).2 in
       odict_get name (indexes s') = Some ix
       ∧ metadata s' !! name = Some md
       ∧ ∀ rs, (search_similar_texts query (Some name) k s).1 = Ok rs →
           calls s' = calls s ++ [Encode [query]; IndexSearch name k])
  ∧ (∀ name,
       name ≠ "" → odict_get name (indexes s) = None →
       fs s !! os_path_join (corpus_dir s) (name +:+ "_index.faiss") = None
       ∨ fs s !! os_path_join (corpus_dir s) (name +:+ "_metadata.pkl") = None →
       search_similar_texts query (Some name) k s = (Ok [], s)).
Proof.
  split; [|split].
  - destruct (search_similar_texts_frame query None k s) as (Hfs & _ & _ & Hsame).
    destruct Hsame as [Hi Hm]; [by left|].
    simpl. split; [done|]. split; [done|]. split; [done|].
    intros rs Hrs.
    rewrite (search_state_ok query None k s s rs);
      [|by apply ensure_loaded_skip; left|done].
    simpl. unfold corpora_to_search. simpl.
    by rewrite filter_registered_keys.
  - intros name ix md Hn Hreg Hi Hm. cbv zeta.
    pose proof (load_vector_index_present name ix md s Hi Hm) as Hload.
    rewrite <- ensure_loaded_load in Hload by done.
    assert ((search_similar_texts query (Some name) k s).2
            = (candidates query (Some name) k s).2) as Hs2
      by (by rewrite search_similar_texts_candidates).
    destruct (candidates_state query (Some name) k s) as (evs & Hst & _).
    rewrite Hload in Hst. cbn [snd] in Hst.
    split; [rewrite Hs2, Hst; apply odict_get_set_eq|].
    split; [rewrite Hs2, Hst; apply lookup_insert_eq|].
    intros rs Hrs.
    rewrite (search_state_ok query (Some name) k s _ rs Hload Hrs).
    unfold corpora_to_search.
    rewrite (proj2 (truthy_Some name) Hn).
    rewrite filter_cons_True by (simpl; rewrite odict_get_set_eq; eauto).
    done.
  - intros name Hn Hreg Hmiss. unfold search_similar_texts, mbind, M_bind.
    rewrite ensure_loaded_load by done.
    by rewrite load_vector_index_missing.
Qed.

(** C4. When the corpus file holds [data] and some entry has the source
    language, [build_vector_index] completes and registers an index [ix]
    and a metadata list [md] of the same length as the rows added to the
    index (the one [add] call adds [length md] rows to a new index). The
    record at position [i] carries the corpus name, the position of its
    entry in [data] and that entry's whole translation mapping, and row [i]
    of the index is the embedding of that entry's source-language text.
    Positions increase along [md] and every entry with the source language
    has its record. *)
Theorem build_vector_index_alignment s corpus_name source_lang data :
  (load_corpus corpus_name s).1 = Ok data →
  Exists (λ e : Entry, is_Some (e !! source_lang)) data →
  ∃ s' ix md texts,
    build_vector_index corpus_name source_lang s = (Ok tt, s')
    ∧ odict_get corpus_name (indexes s') = Some ix
    ∧ metadata s' !! corpus_name = Some md
    ∧ length md = ntotal ix
    ∧ calls s' = calls s ++ [Encode texts; IndexNew (vector_dim s);
                             IndexAdd (length md)]
    ∧ (∀ i r, md !! i = Some r →
         corpus r = corpus_name
         ∧ data !! index r = Some (translations r)
         ∧ ∃ text, translations r !! source_lang = Some text
             ∧ texts !! i = Some text
             ∧ xb ix !! i = Some (astype_float32 (normalize_L2 (embed text))))
    ∧ StronglySorted lt (index <$> md)
    ∧ (∀ j e, data !! j = Some e → is_Some (e !! source_lang) →
         ∃ r, r ∈ md ∧ index r = j).
Proof.
  intros Hload Hex. unfold build_vector_index.
  unfold mbind at 1. unfold M_bind at 1.
  pose proof (load_corpus_state corpus_name s) as Hs.
  destruct (load_corpus corpus_name s) as [o s1]. simpl in *. subst o s1.
  destruct (extract_texts corpus_name source_lang 0 data) as [texts md] eqn:E.
  pose proof (extract_texts_rows _ _ _ _ _ _ E) as Hrows.
  pose proof (extract_texts_positions _ _ _ _ _ _ E) as Hpos.
  pose proof (extract_texts_increasing _ _ _ _ _ _ E) as Hinc.
  assert (Hcomplete : ∀ j e, data !! j = Some e → is_Some (e !! source_lang) →
            ∃ r, r ∈ md ∧ index r = j).
  { intros j e Hj He. apply (extract_texts_complete _ _ _ _ _ _ j e E Hj He). }
  assert (data ≠ []) as Hdata by (intros ->; by apply Exists_nil in Hex).
  assert (texts ≠ []) as Htexts.
  { apply Exists_exists in Hex as (e & [j Hj]%list_elem_of_lookup & He).
    destruct (Hcomplete j e Hj He) as (r & Hr & _).
    intros ->. apply Forall2_nil_inv_l in Hrows as ->. by apply elem_of_nil in Hr. }
  pose proof (Forall2_length _ _ _ Hrows) as Hlen.
  rewrite bool_decide_false by done. rewrite bool_decide_false by done.
  munfold. simpl.
  eexists _, _, md, texts. split; [reflexivity|]. simpl.
  split; [apply odict_get_set_eq|].
  split; [apply lookup_insert_eq|].
  unfold ntotal. simpl. rewrite !length_fmap.
  split; [done|].
  split; [by rewrite <- !app_assoc, Hlen|].
  split; [|done].
  intros i r Hr.
  destruct (Forall2_lookup_r _ _ _ _ _ Hrows Hr) as (text & Htext & Hc & Ht).
  rewrite Forall_lookup in Hpos. destruct (Hpos _ _ Hr) as [_ Hd].
  rewrite Nat.sub_0_r in Hd.
  split; [done|]. split; [done|].
  exists text. split; [done|]. split; [done|].
  by rewrite !list_lookup_fmap, Htext.
Qed.

(** C5. Saving an entry list under a name and loading that name gives the
    same entry list back, for every entry list and so for every non-empty
    one. *)
Theorem save_load_corpus_roundtrip corpus_name data s :
  (save_corpus corpus_name data ;; load_corpus corpus_name) s
  = (Ok data, (save_corpus corpus_name data s).2).
Proof.
  unfold save_corpus, load_corpus. munfold. simpl.
  rewrite bool_decide_true by (rewrite lookup_insert_eq; eauto).
  simpl. rewrite lookup_insert_eq.
  change (json_get "data" _) with (Some (entries_to_json data)).
  cbv beta iota. by rewrite entries_json_roundtrip.
Qed.

(** C6, as amended. Searching under a non-empty name that has no registered
    index and lacks the index file or the metadata file returns the empty
    list, raises nothing and leaves the state as it is. *)
Theorem search_unbuilt_corpus s query name k :
  name ≠ "" →
  odict_get name (indexes s) = None →
  fs s !! os_path_join (corpus_dir s) (name +:+ "_index.faiss") = None
  ∨ fs s !! os_path_join (corpus_dir s) (name +:+ "_metadata.pkl") = None →
  search_similar_texts query (Some name) k s = (Ok [], s).
Proof.
  intros Hn Hreg Hmiss. unfold search_similar_texts, mbind, M_bind.
  rewrite ensure_loaded_load by done.
  by rewrite load_vector_index_missing.
Qed.

(** C7. With [max_examples = N >= 0], [get_context_examples] runs the
    search without a corpus name and with [k = N * 2]: every index search it
    triggers asks for [N * 2] results. When the search returns [rs] it
    returns the rendering of the first [N] eligible examples of [rs], at
    most [N] of them, and the empty string when no result of [rs] has the
    target language; when the search raises, so does it. *)
Theorem get_context_examples_bound s query target_language max_examples :
  0 ≤ max_examples →
  (∃ evs,
     calls (get_context_examples query target_language max_examples s).2
     = calls s ++ evs
     ∧ Forall (λ e, e = Encode [query]
                    ∨ ∃ c, e = IndexSearch c (max_examples * 2)) evs)
  ∧ match (search_similar_texts query None (max_examples * 2) s).1 with
    | Raise e =>
        (get_context_examples query target_language max_examples s).1 = Raise e
    | Ok rs =>
        ∃ context_examples,
          (get_context_examples query target_language max_examples s).1
          = Ok (render_examples context_examples)
          ∧ context_examples
            = take (Z.to_nat max_examples) (omap (example_of target_language) rs)
          ∧ (length context_examples ≤ Z.to_nat max_examples)%nat
          ∧ (Forall (λ r, translations (record r) !! target_language = None) rs →
             (get_context_examples query target_language max_examples s).1
             = Ok "")
    end.
Proof.
  intros HN. rewrite get_context_examples_unfold.
  cbn [fst snd]. split.
  - rewrite search_similar_texts_candidates. cbn [snd].
    destruct (candidates_state query None (max_examples * 2) s)
      as (evs & -> & Hevs).
    rewrite ensure_loaded_skip by (by left). simpl. eauto.
  - destruct (search_similar_texts query None (max_examples * 2) s).1
      as [rs|e] eqn:Hrs; [|done].
    apply search_similar_texts_length in Hrs; [|lia].
    rewrite collect_examples_take.
    assert (take (Z.to_nat (Z.max 1 max_examples))
              (omap (example_of target_language) rs)
            = take (Z.to_nat max_examples)
                (omap (example_of target_language) rs)) as ->.
    { destruct (decide (max_examples = 0)) as [->|]; [|f_equal; lia].
      destruct rs; [done|]. simpl in Hrs. lia. }
    eexists. split; [reflexivity|]. split; [reflexivity|].
    split; [rewrite length_take; lia|].
    intros Hnone. rewrite omap_example_none by done. by rewrite take_nil.
Qed.

(** C8. When the corpus file is absent, or holds an entry list that is
    empty or has no entry with the source language, [build_vector_index]
    returns without raising and the state after it is the state before it:
    no call to the embedding model or to FAISS is logged, no file is
    written and the registry is unchanged. *)
Theorem build_vector_index_no_data s corpus_name source_lang :
  fs s !! os_path_join (corpus_dir s) (corpus_name +:+ ".json") = None
  ∨ (∃ data, (load_corpus corpus_name s).1 = Ok data
             ∧ Forall (λ e : Entry, e !! source_lang = None) data) →
  build_vector_index corpus_name source_lang s = (Ok tt, s).
Proof.
  intros [Habsent | (data & Hload & Hnone)].
  - apply (build_vector_index_skip corpus_name source_lang []); [|done].
    by rewrite load_corpus_absent.
  - by apply (build_vector_index_skip corpus_name source_lang data).
Qed.

(** C9, as amended. A search writes no file and keeps every registry entry
    it finds: a corpus registered before the search has the same index and
    the same metadata list after it, no entry but that of the named corpus
    is touched, and the whole registry is unchanged unless the search loads
    the named corpus. On the level of objects, the
    loop of lines 631-636 leaves every stored dict as it is (also the
    record dicts of the metadata list), and each result is a new dict: the
    stored record's items plus the two annotations. *)
Theorem search_preserves_registered s query corpus_name k :
  (let s' := (search_similar_texts query corpus_name k s).2 in
   fs s' = fs s
   ∧ (∀ c ix, odict_get c (indexes s) = Some ix →
        odict_get c (indexes s') = Some ix
        ∧ metadata s' !! c = metadata s !! c)
   ∧ (∀ c, corpus_name ≠ Some c →
        odict_get c (indexes s') = odict_get c (indexes s)
        ∧ metadata s' !! c = metadata s !! c)
   ∧ (truthy corpus_name = false
      ∨ is_Some (odict_get (default "" corpus_name) (indexes s)) →
      indexes s' = indexes s ∧ metadata s' = metadata s))
  ∧ (∀ corpus mdl md hits results (h : store),
       Forall2 (is_record h) mdl md →
       let h' := (collect_hits_store corpus mdl hits results h).2 in
       h ⊆ h'
       ∧ Forall2 (is_record h') mdl md
       ∧ match (collect_hits_store corpus mdl hits results h).1,
               join_hits corpus md hits with
         | Ok rs, Ok new =>
             ∃ new_locs,
               rs = results ++ new_locs
               ∧ Forall (λ l, l ∉ dom h) new_locs
               ∧ Forall2 (is_result h') new_locs new
         | Raise e1, Raise e2 => e1 = e2
         | _, _ => False
         end).
Proof.
  split.
  - apply search_similar_texts_frame.
  - intros corpus mdl md hits results h. apply collect_hits_store_spec.
Qed.

(** C10. The examples [get_context_examples] renders are the first
    [max 1 max_examples] eligible ones among the search results; a result
    is eligible exactly when its translations hold the key ["en"] and the
    target language, whatever language its index was built from, and its
    example pairs the ["en"] text with the target-language text. For the
    target language ["en"] the English text is paired with itself. *)
Theorem context_examples_english_source s query target_language max_examples :
  get_context_examples query target_language max_examples s
  = (match (search_similar_texts query None (max_examples * 2) s).1 with
     | Ok rs =>
         Ok (render_examples
               (take (Z.to_nat (Z.max 1 max_examples))
                  (omap (example_of target_language) rs)))
     | Raise e => Raise e
     end, (search_similar_texts query None (max_examples * 2) s).2)
  ∧ (∀ r, is_Some (example_of target_language r)
          ↔ is_Some (translations (record r) !! "en")
            ∧ is_Some (translations (record r) !! target_language))
  ∧ (∀ r e, example_of target_language r = Some e →
       ∃ en_text target_text,
         translations (record r) !! "en" = Some en_text
         ∧ translations (record r) !! target_language = Some target_text
         ∧ e = "English: " +:+ dquote +:+ en_text +:+ dquote +:+ newline
               +:+ get_language_name target_language +:+ ": "
               +:+ dquote +:+ target_text +:+ dquote)
  ∧ (∀ r en_text, translations (record r) !! "en" = Some en_text →
       example_of "en" r
       = Some ("English: " +:+ dquote +:+ en_text +:+ dquote +:+ newline
               +:+ "en: " +:+ dquote +:+ en_text +:+ dquote)).
Proof.
  split; [|split; [|split]].
  - rewrite get_context_examples_unfold.
    destruct (search_similar_texts query None (max_examples * 2) s).1; [|done].
    by rewrite collect_examples_take.
  - intros r. unfold example_of.
    destruct (translations (record r) !! "en") as [en_text|],
      (translations (record r) !! target_language) as [target_text|];
      split; try (intros [[? ?] [? ?]]); try (intros [? ?]);
      try done; split; eauto.
  - intros r e. unfold example_of.
    destruct (translations (record r) !! "en") as [en_text|]; [|done].
    destruct (translations (record r) !! target_language) as [target_text|]; [|done].
    intros [= <-]. by exists en_text, target_text.
  - intros r en_text Hen. unfold example_of. by rewrite Hen.
Qed.

End Properties.

(** ** The properties on the small installation *)

(** C1, at a failing input. The medical index holds three rows; asked for
    five hits it pads with label [-1]. The search does not drop the two
    padding hits: each passes the test of line 632 and is joined to the last
    metadata record, so five results come back where three records exist. *)
Theorem padding_position_joined_to_last_record :
  @index_search toy medical_rows (@query_matrix toy "Blood pressure") 5
  = [(1%Q, 0); (0%Q, 1); (0%Q, 2); (lowest, -1); (lowest, -1)]
  ∧ (search_similar_texts (H:=toy) "Blood pressure" (Some "medical") 5 s_built).1
    = Ok [ annotate "medical" 1 (medical_record 0);
           annotate "medical" 0 (medical_record 1);
           annotate "medical" 0 (medical_record 2);
           annotate "medical" lowest (medical_record 2);
           annotate "medical" lowest (medical_record 2) ].
Proof. split; vm_compute; reflexivity. Qed.

(** C2, at a failing input. The two corpora hold 3 + 2 = 5 vectors and as
    many metadata records. A search over both with [k = 6] returns six
    results where five records are available: each index pads its hits to
    [k] with label [-1], the test of line 632 lets the padding hits through
    (twelve candidates in all), and the sixth result is one of them, a copy
    of the last medical record with the lowest float as its score. *)
Theorem search_beyond_available_returns_padding :
  (ntotal <$> odict_get "medical" (indexes s_two)) = Some 3%nat
  ∧ (ntotal <$> odict_get "legal" (indexes s_two)) = Some 2%nat
  ∧ (length <$> metadata s_two !! "medical") = Some 3%nat
  ∧ (length <$> metadata s_two !! "legal") = Some 2%nat
  ∧ (candidates (H:=toy) "Heart rate" None 6 s_two).1
    = Ok ([ annotate "medical" 1 (medical_record 1);
            annotate "medical" 0 (medical_record 0);
            annotate "medical" 0 (medical_record 2) ]
          ++ replicate 3 (annotate "medical" lowest (medical_record 2))
          ++ [ annotate "legal" 1 (legal_record 0);
               annotate "legal" 0 (legal_record 1) ]
          ++ replicate 4 (annotate "legal" lowest (legal_record 1)))
  ∧ (search_similar_texts (H:=toy) "Heart rate" None 6 s_two).1
    = Ok [ annotate "medical" 1 (medical_record 1);
           annotate "legal" 1 (legal_record 0);
           annotate "medical" 0 (medical_record 0);
           annotate "medical" 0 (medical_record 2);
           annotate "legal" 0 (legal_record 1);
           annotate "medical" lowest (medical_record 2) ].
Proof. repeat split; vm_compute; reflexivity. Qed.

(** The ranking on the two corpora: "Heart rate" with [k = 3] meets one
    best hit in each corpus; the tie is kept in registry order, medical
    before legal. *)
Lemma search_similar_texts_ranked_example :
  0 < 3
  ∧ registry_ok s_two
  ∧ labels_ok s_two (@query_matrix toy "Heart rate") 3
  ∧ candidates (H:=toy) "Heart rate" None 3 s_two = (Ok two_cands, s_two_searched)
  ∧ ∃ ranked,
      search_similar_texts (H:=toy) "Heart rate" None 3 s_two
      = (Ok (take (Z.to_nat 3) ranked), s_two_searched)
      ∧ length (take (Z.to_nat 3) ranked) = (Z.to_nat 3 `min` length two_cands)%nat
      ∧ ranked ≡ₚ two_cands
      ∧ StronglySorted ge_score ranked
      ∧ (∀ q, List.filter (same_score q) ranked
              = List.filter (same_score q) two_cands)
      ∧ (Z.of_nat (length two_cands) ≤ 3 → take (Z.to_nat 3) ranked = ranked)
      ∧ ∃ groups,
          two_cands = concat groups
          ∧ Forall2 (λ c g, corpus_candidates s_two_searched c
                              (corpus_hits s_two_searched
                                 (@query_matrix toy "Heart rate") 3 c) = Ok g)
              (corpora_to_search None s_two_searched) groups.
Proof.
  assert (indexes s_two = [("medical", medical_index); ("legal", legal_index)])
    as Hix by (vm_compute; reflexivity).
  assert (registry_ok s_two) as Hreg.
  { intros c ix. rewrite Hix. simpl.
    repeat case_decide; intros [= <-]; subst c;
      (eexists; split; [vm_compute; reflexivity|discriminate]). }
  assert (labels_ok s_two (@query_matrix toy "Heart rate") 3) as Hlab.
  { intros c ix. rewrite Hix. simpl.
    repeat case_decide; intros [= <-]; vm_compute;
      repeat constructor; discriminate. }
  assert (candidates (H:=toy) "Heart rate" None 3 s_two
          = (Ok two_cands, s_two_searched)) as Hc
    by (vm_compute; reflexivity).
  split; [lia|]. split; [exact Hreg|]. split; [exact Hlab|]. split; [exact Hc|].
  apply (search_similar_texts_ranked (H:=toy) s_two "Heart rate" None 3); [lia|].
  exact Hc.
Qed.

(** C3 as stated fails: after a restart the medical index and metadata are
    on disk and loadable, yet a search without a corpus name loads nothing,
    searches nothing and returns the empty list, while the same query under
    the name finds the entry. *)
Lemma persisted_corpus_not_loaded_without_name :
  fs s_restart !! "./corpus_data/medical_index.faiss" = Some (FaissFile medical_index)
  ∧ fs s_restart !! "./corpus_data/medical_metadata.pkl"
    = Some (PickleFile [medical_record 0; medical_record 1; medical_record 2])
  ∧ (load_vector_index (H:=toy) "medical" s_restart).1 = Ok true
  ∧ search_similar_texts (H:=toy) "Blood pressure" None 1 s_restart
    = (Ok [], with_calls [Encode ["Blood pressure"]] s_restart)
  ∧ indexes (search_similar_texts (H:=toy) "Blood pressure" None 1 s_restart).2 = []
  ∧ (search_similar_texts (H:=toy) "Blood pressure" (Some "medical") 1 s_restart).1
    = Ok [annotate "medical" 1 (medical_record 0)].
Proof. repeat split; vm_compute; reflexivity. Qed.

(** C3 (amended) after a restart: the named search registers the medical
    pair from disk, and a name without files is skipped. *)
Lemma search_corpus_resolution_witness :
  ("medical" ≠ ""
   ∧ odict_get "medical" (indexes s_restart) = None
   ∧ fs s_restart !! os_path_join (corpus_dir s_restart) ("medical" +:+ "_index.faiss")
     = Some (FaissFile medical_index)
   ∧ fs s_restart !! os_path_join (corpus_dir s_restart) ("medical" +:+ "_metadata.pkl")
     = Some (PickleFile [medical_record 0; medical_record 1; medical_record 2]))
  ∧ (odict_get "medical"
       (indexes (search_similar_texts (H:=toy) "Blood pressure" (Some "medical") 1
                   s_restart).2) = Some medical_index
     ∧ metadata (search_similar_texts (H:=toy) "Blood pressure" (Some "medical") 1
                   s_restart).2 !! "medical"
       = Some [medical_record 0; medical_record 1; medical_record 2])
  ∧ search_similar_texts (H:=toy) "Blood pressure" (Some "legal") 1 s_restart
    = (Ok [], s_restart).
Proof.
  destruct (search_corpus_resolution (H:=toy) s_restart "Blood pressure" 1)
    as (_ & Hload & Hskip).
  assert ("medical" ≠ "") as Hn by discriminate.
  assert (odict_get "medical" (indexes s_restart) = None) as Hreg by reflexivity.
  assert (fs s_restart
            !! os_path_join (corpus_dir s_restart) ("medical" +:+ "_index.faiss")
          = Some (FaissFile medical_index)) as Hi by (vm_compute; reflexivity).
  assert (fs s_restart
            !! os_path_join (corpus_dir s_restart) ("medical" +:+ "_metadata.pkl")
          = Some (PickleFile [medical_record 0; medical_record 1; medical_record 2]))
    as Hm by (vm_compute; reflexivity).
  split; [exact (conj Hn (conj Hreg (conj Hi Hm)))|]. split.
  - destruct (Hload "medical" _ _ Hn Hreg Hi Hm) as (H1 & H2 & _).
    exact (conj H1 H2).
  - apply Hskip; [discriminate|reflexivity|]. left. vm_compute. reflexivity.
Defined.

(** C4 on the saved medical corpus. *)
Lemma build_vector_index_alignment_witness :
  (load_corpus (H:=toy) "medical" s_saved).1 = Ok medical_data
  ∧ Exists (λ e : Entry, is_Some (e !! "en")) medical_data
  ∧ ∃ s' ix md texts,
      build_vector_index (H:=toy) "medical" "en" s_saved = (Ok tt, s')
      ∧ odict_get "medical" (indexes s') = Some ix
      ∧ metadata s' !! "medical" = Some md
      ∧ length md = ntotal ix
      ∧ calls s' = calls s_saved ++ [Encode texts; IndexNew (vector_dim s_saved);
                                     IndexAdd (length md)]
      ∧ (∀ i r, md !! i = Some r →
           corpus r = "medical"
           ∧ medical_data !! index r = Some (translations r)
           ∧ ∃ text, translations r !! "en" = Some text
               ∧ texts !! i = Some text
               ∧ xb ix !! i
                 = Some (@astype_float32 toy (@normalize_L2 toy (@embed toy text))))
      ∧ StronglySorted lt (index <$> md)
      ∧ (∀ j e, medical_data !! j = Some e → is_Some (e !! "en") →
           ∃ r, r ∈ md ∧ index r = j).
Proof.
  assert ((load_corpus (H:=toy) "medical" s_saved).1 = Ok medical_data) as Hl
    by (vm_compute; reflexivity).
  assert (Exists (λ e : Entry, is_Some (e !! "en")) medical_data) as He.
  { apply Exists_cons_hd. exists "Blood pressure". vm_compute. reflexivity. }
  split; [exact Hl|]. split; [exact He|].
  exact (build_vector_index_alignment (H:=toy) s_saved "medical" "en"
           medical_data Hl He).
Defined.

(** C6 as stated fails for the empty name: it has no registered index and
    no file, but the empty string counts as no name at lines 610 and 621, so
    the registered corpora are searched and a result comes back. *)
Lemma empty_name_searches_every_corpus :
  odict_get "" (indexes s_built) = None
  ∧ fs s_built !! os_path_join (corpus_dir s_built) ("" +:+ "_index.faiss") = None
  ∧ fs s_built !! os_path_join (corpus_dir s_built) ("" +:+ "_metadata.pkl") = None
  ∧ (search_similar_texts (H:=toy) "Blood pressure" (Some "") 1 s_built).1
    = Ok [annotate "medical" 1 (medical_record 0)].
Proof. repeat split; vm_compute; reflexivity. Qed.

(** C6 (amended) for the legal corpus before it is built. *)
Lemma search_unbuilt_corpus_witness :
  "legal" ≠ ""
  ∧ odict_get "legal" (indexes s_built) = None
  ∧ (fs s_built !! os_path_join (corpus_dir s_built) ("legal" +:+ "_index.faiss") = None
     ∨ fs s_built !! os_path_join (corpus_dir s_built) ("legal" +:+ "_metadata.pkl")
       = None)
  ∧ search_similar_texts (H:=toy) "Court hearing" (Some "legal") 3 s_built
    = (Ok [], s_built).
Proof.
  assert ("legal" ≠ "") as Hn by discriminate.
  assert (odict_get "legal" (indexes s_built) = None) as Hreg
    by (vm_compute; reflexivity).
  assert (fs s_built !! os_path_join (corpus_dir s_built) ("legal" +:+ "_index.faiss")
          = None
          ∨ fs s_built
              !! os_path_join (corpus_dir s_built) ("legal" +:+ "_metadata.pkl")
            = None) as Hmiss by (left; vm_compute; reflexivity).
  split; [exact Hn|]. split; [exact Hreg|]. split; [exact Hmiss|].
  exact (search_unbuilt_corpus (H:=toy) s_built "Court hearing" "legal" 3
           Hn Hreg Hmiss).
Defined.

(** C7 with [max_examples = 1] on the two corpora. *)
Lemma get_context_examples_bound_witness :
  0 ≤ 1
  ∧ (∃ evs,
       calls (get_context_examples (H:=toy) "Heart rate" "es" 1 s_two).2
       = calls s_two ++ evs
       ∧ Forall (λ e, e = Encode ["Heart rate"]
                      ∨ ∃ c, e = IndexSearch c (1 * 2)) evs)
  ∧ match (search_similar_texts (H:=toy) "Heart rate" None (1 * 2) s_two).1 with
    | Raise e => (get_context_examples (H:=toy) "Heart rate" "es" 1 s_two).1 = Raise e
    | Ok rs =>
        ∃ context_examples,
          (get_context_examples (H:=toy) "Heart rate" "es" 1 s_two).1
          = Ok (render_examples context_examples)
          ∧ context_examples = take (Z.to_nat 1) (omap (example_of "es") rs)
          ∧ (length context_examples ≤ Z.to_nat 1)%nat
          ∧ (Forall (λ r, translations (record r) !! "es" = None) rs →
             (get_context_examples (H:=toy) "Heart rate" "es" 1 s_two).1 = Ok "")
    end.
Proof.
  assert (0 ≤ 1) as HN by lia.
  split; [exact HN|].
  exact (get_context_examples_bound (H:=toy) s_two "Heart rate" "es" 1 HN).
Defined.

(** C8 for French on the medical corpus, which has no French text. *)
Lemma build_vector_index_no_data_witness :
  (fs s_saved !! os_path_join (corpus_dir s_saved) ("medical" +:+ ".json") = None
   ∨ ∃ data, (load_corpus (H:=toy) "medical" s_saved).1 = Ok data
             ∧ Forall (λ e : Entry, e !! "fr" = None) data)
  ∧ build_vector_index (H:=toy) "medical" "fr" s_saved = (Ok tt, s_saved).
Proof.
  assert (fs s_saved !! os_path_join (corpus_dir s_saved) ("medical" +:+ ".json")
          = None
          ∨ ∃ data, (load_corpus (H:=toy) "medical" s_saved).1 = Ok data
                    ∧ Forall (λ e : Entry, e !! "fr" = None) data) as Hno.
  { right. exists medical_data. split; [vm_compute; reflexivity|].
    repeat constructor. }
  split; [exact Hno|].
  exact (build_vector_index_no_data (H:=toy) s_saved "medical" "fr" Hno).
Defined.

(** C9 as stated fails: after a restart the registry is empty, and the
    search under the name "medical" leaves it with the loaded index and
    metadata list. *)
Lemma search_registers_loaded_corpus :
  indexes s_restart = []
  ∧ metadata s_restart = ∅
  ∧ indexes (search_similar_texts (H:=toy) "Blood pressure" (Some "medical") 1
               s_restart).2 = [("medical", medical_index)]
  ∧ metadata (search_similar_texts (H:=toy) "Blood pressure" (Some "medical") 1
                s_restart).2
    = {[ "medical" := [medical_record 0; medical_record 1; medical_record 2] ]}.
Proof. repeat split; vm_compute; reflexivity. Qed.

(** C9 (amended): the medical entry survives a search over both corpora,
    and on a store with one record object the loop leaves that object alone
    and returns two new ones. *)
Lemma search_preserves_registered_witness :
  odict_get "medical" (indexes s_two) = Some medical_index
  ∧ (odict_get "medical"
       (indexes (search_similar_texts (H:=toy) "Heart rate" None 3 s_two).2)
     = Some medical_index
     ∧ metadata (search_similar_texts (H:=toy) "Heart rate" None 3 s_two).2
         !! "medical" = metadata s_two !! "medical")
  ∧ Forall2 (is_record store0) [2%positive] [medical_record 0]
  ∧ (let h' := (collect_hits_store "medical" [2%positive]
                  [(1%Q, 0); (lowest, -1)] [] store0).2 in
     store0 ⊆ h'
     ∧ Forall2 (is_record h') [2%positive] [medical_record 0]
     ∧ match (collect_hits_store "medical" [2%positive]
                [(1%Q, 0); (lowest, -1)] [] store0).1,
             join_hits "medical" [medical_record 0] [(1%Q, 0); (lowest, -1)] with
       | Ok rs, Ok new =>
           ∃ new_locs,
             rs = [] ++ new_locs
             ∧ Forall (λ l, l ∉ dom store0) new_locs
             ∧ Forall2 (is_result h') new_locs new
       | Raise e1, Raise e2 => e1 = e2
       | _, _ => False
       end).
Proof.
  destruct (search_preserves_registered (H:=toy) s_two "Heart rate" None 3)
    as ((_ & Hkeep & _ & _) & Hstore).
  assert (odict_get "medical" (indexes s_two) = Some medical_index) as Hreg
    by (vm_compute; reflexivity).
  assert (Forall2 (is_record store0) [2%positive] [medical_record 0]) as Hrec.
  { constructor; [|constructor]. exists 1%positive.
    split; vm_compute; reflexivity. }
  split; [exact Hreg|]. split; [exact (Hkeep _ _ Hreg)|]. split; [exact Hrec|].
  exact (Hstore "medical" [2%positive] [medical_record 0]
           [(1%Q, 0); (lowest, -1)] [] store0 Hrec).
Defined.

(** C10 on the two corpora: the legal entry "Contrato" was indexed by its
    Spanish text and has a French one, but no English one, so it yields no
    example; with the target language "en" the English text stands on both
    sides. *)
Lemma context_examples_english_source_witness :
  (search_similar_texts (H:=toy) "Contrato" None (1 * 2) s_two).1
  = Ok [annotate "medical" 1 (medical_record 2); annotate "legal" 1 (legal_record 1)]
  ∧ translations (legal_record 1) !! "fr" = Some "Contrat"
  ∧ example_of "fr" (annotate "legal" 1 (legal_record 1)) = None
  ∧ (get_context_examples (H:=toy) "Contrato" "fr" 1 s_two).1 = Ok ""
  ∧ (get_context_examples (H:=toy) "Heart rate" "en" 1 s_two).1
    = Ok ("Translation examples:" +:+ newline
          +:+ "English: " +:+ dquote +:+ "Heart rate" +:+ dquote +:+ newline
          +:+ "en: " +:+ dquote +:+ "Heart rate" +:+ dquote
          +:+ newline +:+ newline).
Proof.
  split; [vm_compute; reflexivity|].
  split; [vm_compute; reflexivity|].
  split; [vm_compute; reflexivity|].
  split.
  - rewrite (proj1 (context_examples_english_source (H:=toy) s_two
                      "Contrato" "fr" 1)).
    vm_compute. reflexivity.
  - rewrite (proj1 (context_examples_english_source (H:=toy) s_two
                      "Heart rate" "en" 1)).
    vm_compute. reflexivity.
Defined.

(** ** Further properties of the corpus manager and its clients *)

(** ** Paths *)

Ltac str_step :=
  repeat match goal with
  | |- context [String ?x ?a +:+ ?b] =>
      change (String x a +:+ b) with (String x (a +:+ b))
  | |- context [EmptyString +:+ ?b] => change (EmptyString +:+ b) with b
  | H : context [String ?x ?a +:+ ?b] |- _ =>
      change (String x a +:+ b) with (String x (a +:+ b)) in H
  | H : context [EmptyString +:+ ?b] |- _ =>
      change (EmptyString +:+ b) with b in H
  end.

Section PathFacts.

Lemma str_app_assoc (a b c : string) : (a +:+ b) +:+ c = a +:+ b +:+ c.
Proof. induction a as [|x a IH]; str_step; [done|]. by f_equal. Qed.

Lemma str_app_nil_r (a : string) : a +:+ "" = a.
Proof. induction a as [|x a IH]; str_step; [done|]. by f_equal. Qed.

Lemma str_app_length (a b : string) :
  String.length (a +:+ b) = (String.length a + String.length b)%nat.
Proof. induction a as [|x a IH]; str_step; simpl; [done|]. by rewrite IH. Qed.

Lemma str_app_inv_head (a b c : string) : a +:+ b = a +:+ c → b = c.
Proof. induction a as [|x a IH]; str_step; [done|]. intros [= ?]. auto. Qed.

Lemma str_app_inv_tail (a b c : string) : a +:+ c = b +:+ c → a = b.
Proof.
  revert b. induction a as [|x a IH]; intros [|y b]; str_step; [done| | |].
  - intros Heq. apply (f_equal String.length) in Heq. simpl in Heq.
    rewrite str_app_length in Heq. lia.
  - intros Heq. apply (f_equal String.length) in Heq. simpl in Heq.
    rewrite str_app_length in Heq. lia.
  - intros [= -> Heq]. f_equal. by apply IH.
Qed.

Lemma str_app_ne_nil (a b : string) : b ≠ "" → a +:+ b ≠ "".
Proof. intros Hb. destruct a; str_step; [done|discriminate]. Qed.

Lemma last_char_app (a b : string) :
  b ≠ "" → last_char (a +:+ b) = last_char b.
Proof.
  intros Hb. induction a as [|x a IH]; str_step; [done|].
  simpl. rewrite IH. destruct (a +:+ b) eqn:E; [|done].
  destruct a; str_step; [done|discriminate].
Qed.

(** The three files of a corpus share a stem: joining the directory with
    [name + suffix] is joining it with [name] and appending the suffix. *)
Lemma os_path_join_suffix d name suffix :
  is_abs suffix = false →
  os_path_join d (name +:+ suffix) = os_path_join d name +:+ suffix.
Proof.
  intros Hs. unfold os_path_join.
  destruct name as [|c name]; str_step.
  - rewrite Hs. simpl. destruct (_ && _);
      rewrite ?str_app_assoc; str_step; by rewrite ?str_app_nil_r.
  - destruct (Ascii.eqb c "/") eqn:Ec.
    + apply Ascii.eqb_eq in Ec as ->. done.
    + assert (is_abs (String c (name +:+ suffix)) = false) as ->.
      { destruct c as [[] [] [] [] [] [] [] []]; try done. }
      assert (is_abs (String c name) = false) as ->.
      { destruct c as [[] [] [] [] [] [] [] []]; try done. }
      destruct (_ && _); by rewrite ?str_app_assoc.
Qed.

(** A joined path ends like its second component. *)
Lemma os_path_join_last d p : p ≠ "" → last_char (os_path_join d p) = last_char p.
Proof.
  intros Hp. unfold os_path_join.
  destruct (is_abs p); [done|].
  destruct (_ && _).
  - rewrite last_char_app; [|by destruct p]. by rewrite last_char_app.
  - by rewrite last_char_app.
Qed.

End PathFacts.

Section BuildRun.
Context `{Services}.

Lemma json_ne_index d n m :
  os_path_join d (n +:+ ".json") ≠ os_path_join d (m +:+ "_index.faiss").
Proof.
  intros Heq. apply (f_equal last_char) in Heq.
  rewrite !os_path_join_last in Heq by (by apply str_app_ne_nil).
  rewrite !last_char_app in Heq by done. simpl in Heq. discriminate.
Qed.

Lemma json_ne_metadata d n m :
  os_path_join d (n +:+ ".json") ≠ os_path_join d (m +:+ "_metadata.pkl").
Proof.
  intros Heq. apply (f_equal last_char) in Heq.
  rewrite !os_path_join_last in Heq by (by apply str_app_ne_nil).
  rewrite !last_char_app in Heq by done. simpl in Heq. discriminate.
Qed.

Lemma index_ne_metadata d n m :
  os_path_join d (n +:+ "_index.faiss") ≠ os_path_join d (m +:+ "_metadata.pkl").
Proof.
  intros Heq. apply (f_equal last_char) in Heq.
  rewrite !os_path_join_last in Heq by (by apply str_app_ne_nil).
  rewrite !last_char_app in Heq by done. simpl in Heq. discriminate.
Qed.

(** What [load_corpus] returns only depends on the directory and the files
    with a [.json] name. *)
Lemma load_corpus_ext corpus_name s s' :
  corpus_dir s' = corpus_dir s →
  fs s' !! os_path_join (corpus_dir s) (corpus_name +:+ ".json")
  = fs s !! os_path_join (corpus_dir s) (corpus_name +:+ ".json") →
  (load_corpus corpus_name s').1 = (load_corpus corpus_name s).1.
Proof.
  intros Hd Hf. unfold load_corpus. munfold. simpl. rewrite Hd, Hf.
  destruct (bool_decide _); simpl; [|done].
  rewrite Hf.
  destruct (fs s !! _) as [[[| | |corpus_info]| |]|]; simpl; try done.
  destruct (json_get _ _); simpl; [|done].
  by destruct (entries_of_json _).
Qed.

(** A build that finds a text in the source language ends in
    [built_state]. *)
Lemma build_vector_index_run corpus_name source_lang data s :
  (load_corpus corpus_name s).1 = Ok data →
  (extract_texts corpus_name source_lang 0 data).1 ≠ [] →
  build_vector_index corpus_name source_lang s
  = (Ok tt, built_state corpus_name
              (extract_texts corpus_name source_lang 0 data).1
              (extract_texts corpus_name source_lang 0 data).2 s).
Proof.
  intros Hload Htexts. unfold build_vector_index.
  unfold mbind at 1. unfold M_bind at 1.
  pose proof (load_corpus_state corpus_name s) as Hs.
  destruct (load_corpus corpus_name s) as [o s1]. simpl in *. subst o s1.
  destruct (extract_texts corpus_name source_lang 0 data) as [texts md] eqn:E.
  simpl in Htexts.
  assert (data ≠ []) as Hdata by (intros ->; simpl in E; congruence).
  rewrite bool_decide_false by done. rewrite bool_decide_false by done.
  munfold. simpl. unfold built_state, built_index, with_fs, with_metadata,
    with_indexes, with_calls. simpl.
  rewrite !length_fmap. by rewrite <- !app_assoc.
Qed.

(** Otherwise the build leaves the state as it is, also when it raises. *)
Lemma build_vector_index_cases corpus_name source_lang s :
  (build_vector_index corpus_name source_lang s).2 = s
  ∨ ∃ data,
      (load_corpus corpus_name s).1 = Ok data
      ∧ (extract_texts corpus_name source_lang 0 data).1 ≠ []
      ∧ build_vector_index corpus_name source_lang s
        = (Ok tt, built_state corpus_name
                    (extract_texts corpus_name source_lang 0 data).1
                    (extract_texts corpus_name source_lang 0 data).2 s).
Proof.
  destruct (load_corpus corpus_name s) as [[data|e] s1] eqn:Hl.
  - destruct (decide ((extract_texts corpus_name source_lang 0 data).1 = []))
      as [Hnil|Hne].
    + left. unfold build_vector_index. unfold mbind at 1. unfold M_bind at 1.
      pose proof (load_corpus_state corpus_name s) as Hs.
      rewrite Hl in *. simpl in Hs. subst s1.
      case_bool_decide; [done|].
      destruct (extract_texts corpus_name source_lang 0 data) as [texts md].
      simpl in Hnil. subst texts. by rewrite bool_decide_true.
    + right. exists data. split; [done|]. split; [done|].
      apply build_vector_index_run; [by rewrite Hl|done].
  - left. unfold build_vector_index. unfold mbind at 1. unfold M_bind at 1.
    pose proof (load_corpus_state corpus_name s) as Hs.
    rewrite Hl in *. done.
Qed.

End BuildRun.

Section BuildTheorems.
Context `{Services}.

Lemma extract_texts_nonempty corpus_name source_lang idx data :
  Exists (λ e : Entry, is_Some (e !! source_lang)) data →
  (extract_texts corpus_name source_lang idx data).1 ≠ [].
Proof.
  intros Hex. revert idx. induction Hex as [e data [t Ht]|e data _ IH];
    intros idx; simpl.
  - destruct (extract_texts corpus_name source_lang (S idx) data).
    by rewrite Ht.
  - specialize (IH (S idx)).
    destruct (extract_texts corpus_name source_lang (S idx) data) as [texts md].
    by destruct (e !! source_lang).
Qed.

Lemma odict_keys_set {V} k (v : V) d :
  odict_keys (odict_set k v d)
  = if odict_mem k d then odict_keys d else odict_keys d ++ [k].
Proof.
  unfold odict_keys, odict_mem. induction d as [|[k' v'] d IH]; [done|].
  cbn [odict_set odict_get]. destruct (decide (k = k')) as [->|Hne].
  - by rewrite bool_decide_true by eauto.
  - rewrite !fmap_cons, IH. cbn [fst]. by destruct (bool_decide _).
Qed.

Lemma odict_set_set {V} k (v w : V) d :
  odict_set k w (odict_set k v d) = odict_set k w d.
Proof.
  induction d as [|[k' v'] d IH]; simpl.
  - by rewrite decide_True.
  - destruct (decide (k = k')) as [->|Hne]; simpl.
    + by rewrite decide_True.
    + rewrite decide_False by done. by rewrite IH.
Qed.

(** X1. A build that finds a text in the source language writes an index
    file and a metadata file from which a new manager on the same directory
    loads exactly the pair the build registered: [load_vector_index] returns
    [True] and the new registry holds that index and that metadata list,
    and nothing else. *)
Theorem build_restart_load s corpus_name source_lang data :
  (load_corpus corpus_name s).1 = Ok data →
  Exists (λ e : Entry, is_Some (e !! source_lang)) data →
  ∃ ix md s',
    odict_get corpus_name
      (indexes (build_vector_index corpus_name source_lang s).2) = Some ix
    ∧ metadata (build_vector_index corpus_name source_lang s).2 !! corpus_name
      = Some md
    ∧ load_vector_index corpus_name
        (restart (build_vector_index corpus_name source_lang s).2)
      = (Ok true, s')
    ∧ indexes s' = [(corpus_name, ix)]
    ∧ metadata s' = {[ corpus_name := md ]}.
Proof.
  intros Hload Hex.
  pose proof (extract_texts_nonempty corpus_name source_lang 0 data Hex) as Hne.
  rewrite (build_vector_index_run _ _ _ _ Hload Hne). cbn [snd].
  set (texts := (extract_texts corpus_name source_lang 0 data).1).
  set (md := (extract_texts corpus_name source_lang 0 data).2).
  eexists (built_index s texts), md, _.
  split; [apply odict_get_set_eq|]. split; [apply lookup_insert_eq|].
  split.
  { rewrite (load_vector_index_present corpus_name (built_index s texts) md).
    - reflexivity.
    - simpl. rewrite lookup_insert_ne by (symmetry; apply index_ne_metadata).
      apply lookup_insert_eq.
    - simpl. apply lookup_insert_eq. }
  split; reflexivity.
Qed.

(** X2. Building the same corpus a second time changes nothing but the log
    of calls: the registry and the files after the second build are those
    after the first. *)
Theorem rebuild_idempotent s corpus_name source_lang data :
  (load_corpus corpus_name s).1 = Ok data →
  Exists (λ e : Entry, is_Some (e !! source_lang)) data →
  let s1 := (build_vector_index corpus_name source_lang s).2 in
  let s2 := (build_vector_index corpus_name source_lang s1).2 in
  build_vector_index corpus_name source_lang s1 = (Ok tt, s2)
  ∧ indexes s2 = indexes s1 ∧ metadata s2 = metadata s1 ∧ fs s2 = fs s1.
Proof.
  intros Hload Hex.
  pose proof (extract_texts_nonempty corpus_name source_lang 0 data Hex) as Hne.
  rewrite (build_vector_index_run _ _ _ _ Hload Hne). cbn [snd]. cbv zeta.
  set (texts := (extract_texts corpus_name source_lang 0 data).1) in *.
  set (md := (extract_texts corpus_name source_lang 0 data).2) in *.
  assert ((load_corpus corpus_name (built_state corpus_name texts md s)).1
          = Ok data) as Hload1.
  { rewrite <- Hload. apply load_corpus_ext; [done|]. simpl.
    rewrite lookup_insert_ne by (symmetry; apply json_ne_metadata).
    by rewrite lookup_insert_ne by (symmetry; apply json_ne_index). }
  rewrite (build_vector_index_run _ _ _ _ Hload1 Hne). cbn [snd].
  fold texts md. split; [done|]. simpl.
  split; [apply odict_set_set|].
  split; [apply insert_insert_eq|].
  rewrite (insert_insert_ne _
             (os_path_join (corpus_dir s) (corpus_name +:+ "_index.faiss"))
             (os_path_join (corpus_dir s) (corpus_name +:+ "_metadata.pkl")))
    by apply index_ne_metadata.
  etrans; [apply insert_insert_eq|]. f_equal.
  etrans; [apply insert_insert_eq|]. done.
Qed.

(** X3. Whatever its outcome, [build_vector_index] touches one registry
    entry and two files: the entries of the other corpora and every file
    but the index and metadata file of the built corpus are as before, so
    every corpus file still loads the same entries. A corpus built again
    keeps its place in the registry's order; a new one comes last. *)
Theorem build_vector_index_frame s corpus_name source_lang :
  let s1 := (build_vector_index corpus_name source_lang s).2 in
  (∀ c, c ≠ corpus_name →
     odict_get c (indexes s1) = odict_get c (indexes s)
     ∧ metadata s1 !! c = metadata s !! c)
  ∧ (∀ p,
       p ≠ os_path_join (corpus_dir s) (corpus_name +:+ "_index.faiss") →
       p ≠ os_path_join (corpus_dir s) (corpus_name +:+ "_metadata.pkl") →
       fs s1 !! p = fs s !! p)
  ∧ (∀ c, (load_corpus c s1).1 = (load_corpus c s).1)
  ∧ odict_keys (indexes s1)
    = (if odict_mem corpus_name (indexes s1) && negb (odict_mem corpus_name (indexes s))
       then odict_keys (indexes s) ++ [corpus_name]
       else odict_keys (indexes s)).
Proof.
  cbv zeta.
  destruct (build_vector_index_cases corpus_name source_lang s)
    as [-> | (data & Hload & Hne & ->)].
  - split; [done|]. split; [done|]. split; [done|].
    by destruct (odict_mem corpus_name (indexes s)).
  - cbn [snd]. split; [|split; [|split]].
    + intros c Hc. simpl.
      by rewrite odict_get_set_ne, lookup_insert_ne.
    + intros p Hp1 Hp2. simpl. by rewrite !lookup_insert_ne.
    + intros c. apply load_corpus_ext; [done|]. simpl.
      rewrite lookup_insert_ne by (symmetry; apply json_ne_metadata).
      by rewrite lookup_insert_ne by (symmetry; apply json_ne_index).
    + simpl. rewrite odict_keys_set.
      rewrite (proj2 (odict_mem_true corpus_name (odict_set corpus_name _ _)))
        by (rewrite odict_get_set_eq; eauto).
      by destruct (odict_mem corpus_name (indexes s)).
Qed.

End BuildTheorems.

Section NameFacts.
Context `{Services}.

Lemma is_abs_app n suffix : n ≠ "" → is_abs (n +:+ suffix) = is_abs n.
Proof. destruct n as [|c n]; [done|]. intros _. by str_step. Qed.

Lemma is_abs_name_suffix n suffix :
  is_abs n = false → is_abs suffix = false → is_abs (n +:+ suffix) = false.
Proof.
  intros Hn Hs. destruct n as [|c n]; [by str_step|].
  by rewrite is_abs_app.
Qed.

(** Relative names give different paths under one directory. *)
Lemma os_path_join_inj d a b :
  is_abs a = false → is_abs b = false →
  os_path_join d a = os_path_join d b → a = b.
Proof.
  unfold os_path_join. intros -> ->.
  destruct (_ && _); intros Heq.
  - by apply str_app_inv_head, str_app_inv_head in Heq.
  - by apply str_app_inv_head in Heq.
Qed.

Lemma corpus_path_inj d n m suffix :
  is_abs suffix = false → is_abs n = false → is_abs m = false →
  os_path_join d (n +:+ suffix) = os_path_join d (m +:+ suffix) → n = m.
Proof.
  intros Hs Hn Hm Heq. apply os_path_join_inj in Heq;
    [|by apply is_abs_name_suffix..].
  by apply str_app_inv_tail in Heq.
Qed.

Lemma index_path_inj d n m :
  is_abs n = false → is_abs m = false →
  os_path_join d (n +:+ "_index.faiss") = os_path_join d (m +:+ "_index.faiss") →
  n = m.
Proof. intros Hn Hm Heq. by apply corpus_path_inj in Heq. Qed.

Lemma metadata_path_inj d n m :
  is_abs n = false → is_abs m = false →
  os_path_join d (n +:+ "_metadata.pkl") = os_path_join d (m +:+ "_metadata.pkl") →
  n = m.
Proof. intros Hn Hm Heq. by apply corpus_path_inj in Heq. Qed.

Lemma save_corpus_run corpus_name data s :
  save_corpus corpus_name data s
  = (Ok tt,
     with_fs <[os_path_join (corpus_dir s) (corpus_name +:+ ".json")
               := JsonFile (JObject [("name", JString corpus_name);
                                     ("data", entries_to_json data);
                                     ("created_at", JString (clock s));
                                     ("count", JInt (Z.of_nat (length data)))])]> s).
Proof. done. Qed.

Lemma load_corpus_saved corpus_name data s s' :
  corpus_dir s' = corpus_dir s →
  fs s' !! os_path_join (corpus_dir s) (corpus_name +:+ ".json")
  = fs (save_corpus corpus_name data s).2
      !! os_path_join (corpus_dir s) (corpus_name +:+ ".json") →
  (load_corpus corpus_name s').1 = Ok data.
Proof.
  intros Hd Hf. rewrite save_corpus_run in Hf. simpl in Hf.
  rewrite lookup_insert_eq in Hf.
  unfold load_corpus. munfold. simpl. rewrite Hd, Hf.
  rewrite bool_decide_true by eauto. simpl. rewrite Hf.
  change (json_get "data" _) with (Some (entries_to_json data)).
  cbv beta iota. by rewrite entries_json_roundtrip.
Qed.

(** [load_vector_index] reads the two files of its corpus and nothing
    else. *)
Lemma load_vector_index_ext name s s' :
  corpus_dir s' = corpus_dir s → indexes s' = indexes s →
  metadata s' = metadata s → calls s' = calls s → clock s' = clock s →
  vector_dim s' = vector_dim s →
  fs s' !! os_path_join (corpus_dir s) (name +:+ "_index.faiss")
  = fs s !! os_path_join (corpus_dir s) (name +:+ "_index.faiss") →
  fs s' !! os_path_join (corpus_dir s) (name +:+ "_metadata.pkl")
  = fs s !! os_path_join (corpus_dir s) (name +:+ "_metadata.pkl") →
  load_vector_index name s'
  = ((load_vector_index name s).1,
     with_fs (λ _, fs s') (load_vector_index name s).2).
Proof.
  intros Hd Hi Hm Hc Hk Hv Hfi Hfm.
  assert (s' = with_fs (λ _, fs s') s) as Hs'.
  { destruct s, s'; simpl in *; by subst. }
  unfold load_vector_index. munfold. simpl. rewrite Hd, Hfi, Hfm.
  destruct (bool_decide (is_Some (fs s !! _))); simpl; [|by rewrite <- Hs'].
  destruct (bool_decide (is_Some (fs s !! _))); simpl; [|by rewrite <- Hs'].
  rewrite Hfi.
  destruct (fs s !! os_path_join (corpus_dir s) (name +:+ "_index.faiss"))
    as [[| |]|]; simpl; try by rewrite <- Hs'.
  rewrite Hfm.
  destruct (fs s !! os_path_join (corpus_dir s) (name +:+ "_metadata.pkl"))
    as [[| |]|]; simpl; unfold with_fs, with_indexes, with_metadata; simpl;
    by rewrite ?Hi, ?Hm, ?Hc, ?Hk, ?Hv, ?Hd.
Qed.

End NameFacts.

Ltac path_ne :=
  first
    [ apply index_ne_metadata
    | apply not_eq_sym, index_ne_metadata
    | apply json_ne_index
    | apply json_ne_metadata
    | let Heq := fresh in
      intros Heq; apply index_path_inj in Heq; [congruence|done..]
    | let Heq := fresh in
      intros Heq; apply metadata_path_inj in Heq; [congruence|done..] ].


Section SaveTheorems.
Context `{Services}.

Lemma plain_name_is_abs n : plain_name n = true → is_abs n = false.
Proof.
  destruct n as [|c n]; [done|]. cbn [plain_name].
  intros [[Hc _]%andb_prop _]%andb_prop.
  apply negb_true_iff, bool_decide_eq_false in Hc.
  destruct c as [[] [] [] [] [] [] [] []]; try done.
Qed.

(** X4. Under a plain corpus name (no directory separator, no NUL
    character) [save_corpus] returns, leaves the registry and the log of
    calls alone and writes the one file of its corpus: every corpus of
    another plain name loads what it loaded before, and for every plain
    name [load_vector_index] does what it did before, no index file and no
    metadata file being touched. *)
Theorem save_corpus_frame s corpus_name data :
  plain_name corpus_name = true →
  let s' := (save_corpus corpus_name data s).2 in
  save_corpus corpus_name data s = (Ok tt, s')
  ∧ indexes s' = indexes s ∧ metadata s' = metadata s ∧ calls s' = calls s
  ∧ (∀ c, plain_name c = true → c ≠ corpus_name →
       (load_corpus c s').1 = (load_corpus c s).1)
  ∧ (∀ c, plain_name c = true →
       (load_vector_index c s').1 = (load_vector_index c s).1
       ∧ indexes (load_vector_index c s').2 = indexes (load_vector_index c s).2
       ∧ metadata (load_vector_index c s').2
         = metadata (load_vector_index c s).2).
Proof.
  intros Hname. cbv zeta. rewrite save_corpus_run. cbn [snd].
  split; [done|]. split; [done|]. split; [done|]. split; [done|]. split.
  - intros c Hc Hne. apply load_corpus_ext; [done|]. simpl.
    rewrite lookup_insert_ne; [done|].
    intros Heq. apply corpus_path_inj in Heq; [done|done|..];
      by apply plain_name_is_abs.
  - intros c _.
    rewrite (load_vector_index_ext c s
               (with_fs <[os_path_join (corpus_dir s) (corpus_name +:+ ".json")
                          := JsonFile (JObject [("name", JString corpus_name);
                                                ("data", entries_to_json data);
                                                ("created_at", JString (clock s));
                                                ("count", JInt (Z.of_nat (length data)))])]> s));
      try done; simpl.
    + by rewrite lookup_insert_ne by apply json_ne_index.
    + by rewrite lookup_insert_ne by apply json_ne_metadata.
Qed.


End SaveTheorems.

Section SampleFacts.
Context `{Services}.

Lemma corpus_data_keys : odict_keys corpus_data = odict_keys corpus_sources.
Proof. reflexivity. Qed.

Lemma sample_names_NoDup : NoDup (odict_keys corpus_sources).
Proof. apply (bool_decide_unpack _). vm_compute. exact I. Qed.

Lemma sample_names_relative :
  Forall (λ c, is_abs c = false) (odict_keys corpus_sources).
Proof. apply (bool_decide_unpack _). vm_compute. exact I. Qed.

Lemma sample_entries_english :
  Forall (λ item : string * list Entry,
            Forall (λ e : Entry, is_Some (e !! "en")) item.2) corpus_data.
Proof.
  apply (bool_decide_unpack _). vm_compute. exact I.
Qed.

Lemma sample_tables_nonempty :
  Forall (λ item : string * list Entry, item.2 ≠ []) corpus_data.
Proof. repeat constructor; discriminate. Qed.

Lemma odict_get_elem {V} c (v : V) d : odict_get c d = Some v → (c, v) ∈ d.
Proof.
  induction d as [|[k w] d IH]; simpl; [done|].
  destruct (decide (c = k)) as [->|Hne].
  - intros [= ->]. apply list_elem_of_here.
  - intros Hg. apply list_elem_of_further. auto.
Qed.

Lemma odict_get_elem_keys {V} c (v : V) d : odict_get c d = Some v → c ∈ odict_keys d.
Proof.
  intros Hg. apply odict_get_elem in Hg. unfold odict_keys.
  apply list_elem_of_fmap. by exists (c, v).
Qed.

Lemma for_each_cons {A} (x : A) l (body : A → M unit) s :
  for_each (x :: l) body s
  = match body x s with
    | (Ok _, s1) => for_each l body s1
    | (Raise e, s1) => (Raise e, s1)
    end.
Proof. done. Qed.

Lemma for_each_save_spec (l : odict (list Entry)) s :
  let s' := (for_each l (λ item, save_corpus item.1 item.2) s).2 in
  for_each l (λ item, save_corpus item.1 item.2) s = (Ok tt, s')
  ∧ corpus_dir s' = corpus_dir s ∧ vector_dim s' = vector_dim s
  ∧ indexes s' = indexes s ∧ metadata s' = metadata s
  ∧ clock s' = clock s ∧ calls s' = calls s
  ∧ (∀ p, (∀ c, c ∈ odict_keys l →
             p ≠ os_path_join (corpus_dir s) (c +:+ ".json")) →
       fs s' !! p = fs s !! p)
  ∧ (NoDup (odict_keys l) → Forall (λ c, is_abs c = false) (odict_keys l) →
     ∀ c data, (c, data) ∈ l → (load_corpus c s').1 = Ok data).
Proof.
  revert s. induction l as [|[c0 d0] l IH]; intros s; cbv zeta.
  - simpl. repeat (split; [done|]). intros _ _ c data Hin.
    by apply elem_of_nil in Hin.
  - rewrite for_each_cons. cbn [fst snd]. rewrite save_corpus_run.
    set (s1 := with_fs _ s).
    destruct (IH s1) as (Hrun & Hd & Hv & Hi & Hm & Hk & Hc & Hfs & Hload).
    split; [done|]. split; [by rewrite Hd|]. split; [by rewrite Hv|].
    split; [by rewrite Hi|]. split; [by rewrite Hm|].
    split; [by rewrite Hk|]. split; [by rewrite Hc|]. split.
    + intros p Hp. rewrite Hfs.
      * unfold s1. simpl. apply lookup_insert_ne. apply not_eq_sym, Hp.
        apply list_elem_of_here.
      * intros c Hc'. apply Hp. by apply list_elem_of_further.
    + intros Hnd Hrel c data Hin.
      apply NoDup_cons in Hnd as [Hnotin Hnd].
      apply Forall_cons in Hrel as [Hrel0 Hrel].
      apply elem_of_cons in Hin as [[= -> ->]|Hin].
      * apply (load_corpus_saved c0 d0 s); [done|].
        rewrite save_corpus_run. cbn [snd]. fold s1. apply Hfs.
        intros c Hc' Heq. unfold s1 in Heq. simpl in Heq.
        apply corpus_path_inj in Heq; [|done..|].
        -- by subst.
        -- by eapply Forall_forall in Hrel.
      * by apply Hload.
Qed.

Lemma create_sample_corpora_spec s :
  create_sample_corpora s = (Ok tt, (create_sample_corpora s).2)
  ∧ corpus_dir (create_sample_corpora s).2 = corpus_dir s
  ∧ vector_dim (create_sample_corpora s).2 = vector_dim s
  ∧ indexes (create_sample_corpora s).2 = indexes s
  ∧ metadata (create_sample_corpora s).2 = metadata s
  ∧ clock (create_sample_corpora s).2 = clock s
  ∧ calls (create_sample_corpora s).2 = calls s
  ∧ (∀ p, (∀ c, c ∈ odict_keys corpus_sources →
             p ≠ os_path_join (corpus_dir s) (c +:+ ".json")) →
       fs (create_sample_corpora s).2 !! p = fs s !! p)
  ∧ (∀ c data, odict_get c corpus_data = Some data →
       (load_corpus c (create_sample_corpora s).2).1 = Ok data).
Proof.
  unfold create_sample_corpora.
  destruct (for_each_save_spec corpus_data s)
    as (Hrun & Hd & Hv & Hi & Hm & Hk & Hc & Hfs & Hload).
  do 7 (split; [assumption|]). split.
  - intros p Hp. apply Hfs. intros c Hin. apply Hp. by rewrite <- corpus_data_keys.
  - intros c data Hg. apply Hload.
    + rewrite corpus_data_keys. apply sample_names_NoDup.
    + rewrite corpus_data_keys. apply sample_names_relative.
    + by apply odict_get_elem.
Qed.

End SampleFacts.

Section SampleTheorems.
Context `{Services}.

(** X6. From any state, [create_sample_corpora] returns and leaves on disk,
    for each of the twenty sample names, a corpus file that loads the very
    table the code lists for it; the registry and the log of calls are as
    before, and no file but the twenty corpus files changes. *)
Theorem create_sample_corpora_loads s :
  let s' := (create_sample_corpora s).2 in
  create_sample_corpora s = (Ok tt, s')
  ∧ indexes s' = indexes s ∧ metadata s' = metadata s ∧ calls s' = calls s
  ∧ (∀ c data, odict_get c corpus_data = Some data →
       (load_corpus c s').1 = Ok data)
  ∧ (∀ p, (∀ c, c ∈ odict_keys corpus_sources →
             p ≠ os_path_join (corpus_dir s) (c +:+ ".json")) →
       fs s' !! p = fs s !! p).
Proof.
  cbv zeta.
  destruct (create_sample_corpora_spec s)
    as (Hrun & _ & _ & Hi & Hm & _ & Hc & Hfs & Hload).
  split; [exact Hrun|]. split; [exact Hi|]. split; [exact Hm|].
  split; [exact Hc|]. split; [exact Hload|exact Hfs].
Qed.

End SampleTheorems.

Section ConsistencyFacts.
Context `{Services}.

Lemma extract_texts_length c src idx data :
  length (extract_texts c src idx data).1 = length (extract_texts c src idx data).2.
Proof.
  revert idx. induction data as [|e data IH]; intros idx; simpl; [done|].
  specialize (IH (S idx)).
  destruct (extract_texts c src (S idx) data) as [texts md].
  destruct (e !! src); simpl in *; by rewrite ?IH.
Qed.

Lemma stem_index_ne_metadata (a b : string) :
  a +:+ "_index.faiss" ≠ b +:+ "_metadata.pkl".
Proof.
  intros Heq. apply (f_equal last_char) in Heq.
  rewrite !last_char_app in Heq by done. simpl in Heq. discriminate.
Qed.

Lemma stem_index_ne_json (a : string) d n :
  a +:+ "_index.faiss" ≠ os_path_join d (n +:+ ".json").
Proof.
  intros Heq. apply (f_equal last_char) in Heq.
  rewrite os_path_join_last in Heq by (by apply str_app_ne_nil).
  rewrite !last_char_app in Heq by done. simpl in Heq. discriminate.
Qed.

Lemma stem_metadata_ne_json (a : string) d n :
  a +:+ "_metadata.pkl" ≠ os_path_join d (n +:+ ".json").
Proof.
  intros Heq. apply (f_equal last_char) in Heq.
  rewrite os_path_join_last in Heq by (by apply str_app_ne_nil).
  rewrite !last_char_app in Heq by done. simpl in Heq. discriminate.
Qed.

Lemma storage_ok_empty : storage_ok ∅.
Proof. intros stem fi fm Hi. by rewrite lookup_empty in Hi. Qed.

Lemma storage_ok_json files d n f :
  storage_ok files → storage_ok (<[os_path_join d (n +:+ ".json") := f]> files).
Proof.
  intros Hok stem fi fm.
  rewrite lookup_insert_ne by apply not_eq_sym, stem_index_ne_json.
  rewrite lookup_insert_ne by apply not_eq_sym, stem_metadata_ne_json.
  apply Hok.
Qed.

Lemma storage_ok_pair files stem0 ix md :
  storage_ok files → md ≠ [] → ntotal ix = length md →
  storage_ok (<[stem0 +:+ "_metadata.pkl" := PickleFile md]>
                (<[stem0 +:+ "_index.faiss" := FaissFile ix]> files)).
Proof.
  intros Hok Hne Hlen stem fi fm.
  rewrite (lookup_insert_ne _ (stem0 +:+ "_metadata.pkl") (stem +:+ "_index.faiss"))
    by apply not_eq_sym, stem_index_ne_metadata.
  destruct (decide (stem = stem0)) as [->|Hstem].
  - rewrite !lookup_insert_eq. intros [= <-] [= <-]. by exists ix, md.
  - rewrite lookup_insert_ne by (intros Heq; by apply str_app_inv_tail in Heq).
    rewrite lookup_insert_ne by (intros Heq; by apply str_app_inv_tail in Heq).
    rewrite lookup_insert_ne by apply stem_index_ne_metadata.
    apply Hok.
Qed.

Lemma aligned_registry_ok s : aligned s → registry_ok s.
Proof.
  intros Hal c ix Hc. destruct (Hal c ix Hc) as (md & ? & ? & ?). eauto.
Qed.

Lemma aligned_register s c ix md :
  aligned s → md ≠ [] → ntotal ix = length md →
  aligned (with_metadata <[c := md]> (with_indexes (odict_set c ix) s)).
Proof.
  intros Hal Hne Hlen c' ix'. simpl.
  destruct (decide (c = c')) as [<-|Hc].
  - rewrite odict_get_set_eq, lookup_insert_eq. intros [= <-]. by exists md.
  - rewrite odict_get_set_ne, lookup_insert_ne by done. apply Hal.
Qed.

Lemma build_vector_index_consistent corpus_name source_lang s :
  aligned s → storage_ok (fs s) →
  aligned (build_vector_index corpus_name source_lang s).2
  ∧ storage_ok (fs (build_vector_index corpus_name source_lang s).2).
Proof.
  intros Hal Hok.
  destruct (build_vector_index_cases corpus_name source_lang s)
    as [-> | (data & Hload & Hne & ->)]; [done|].
  cbn [snd].
  pose proof (extract_texts_length corpus_name source_lang 0 data) as Hlen.
  set (texts := (extract_texts corpus_name source_lang 0 data).1) in *.
  set (md := (extract_texts corpus_name source_lang 0 data).2) in *.
  assert (md ≠ []) as Hmd.
  { intros Hnil. rewrite Hnil in Hlen. by destruct texts. }
  assert (ntotal (built_index s texts) = length md) as Hnt.
  { unfold ntotal, built_index. simpl. by rewrite !length_fmap. }
  split.
  - exact (aligned_register
             (with_calls [Encode texts; IndexNew (vector_dim s);
                          IndexAdd (length texts)] s)
             corpus_name (built_index s texts) md Hal Hmd Hnt).
  - simpl. rewrite !(os_path_join_suffix (corpus_dir s) corpus_name) by done.
    by apply storage_ok_pair.
Qed.

(** On files in shape, [load_vector_index] finds nothing to load or
    registers an aligned pair. *)
Lemma load_vector_index_ok name s :
  storage_ok (fs s) →
  load_vector_index name s = (Ok false, s)
  ∨ ∃ ix md,
      fs s !! os_path_join (corpus_dir s) (name +:+ "_index.faiss")
      = Some (FaissFile ix)
      ∧ fs s !! os_path_join (corpus_dir s) (name +:+ "_metadata.pkl")
        = Some (PickleFile md)
      ∧ md ≠ [] ∧ ntotal ix = length md
      ∧ load_vector_index name s
        = (Ok true, with_metadata <[name := md]>
                      (with_indexes (odict_set name ix) s)).
Proof.
  intros Hok.
  destruct (fs s !! os_path_join (corpus_dir s) (name +:+ "_index.faiss"))
    as [fi|] eqn:Hi; [|left; apply load_vector_index_missing; auto].
  destruct (fs s !! os_path_join (corpus_dir s) (name +:+ "_metadata.pkl"))
    as [fm|] eqn:Hm; [|left; apply load_vector_index_missing; auto].
  right.
  pose proof Hi as Hi'. pose proof Hm as Hm'.
  rewrite os_path_join_suffix in Hi' by done.
  rewrite os_path_join_suffix in Hm' by done.
  destruct (Hok _ _ _ Hi' Hm') as (ix & md & -> & -> & Hne & Hlen).
  exists ix, md. repeat (split; [done|]).
  by apply load_vector_index_present.
Qed.

Lemma load_vector_index_consistent name s :
  aligned s → storage_ok (fs s) →
  aligned (load_vector_index name s).2
  ∧ storage_ok (fs (load_vector_index name s).2).
Proof.
  intros Hal Hok.
  destruct (load_vector_index_ok name s Hok)
    as [-> | (ix & md & _ & _ & Hne & Hlen & ->)]; [done|].
  split; [by apply aligned_register|done].
Qed.

Lemma ensure_loaded_consistent corpus_name s :
  aligned s → storage_ok (fs s) →
  aligned (ensure_loaded corpus_name s).2
  ∧ storage_ok (fs (ensure_loaded corpus_name s).2).
Proof.
  intros Hal Hok.
  destruct (ensure_loaded_cases corpus_name s)
    as [-> | (name & _ & _ & _ & ->)]; [done|].
  by apply load_vector_index_consistent.
Qed.

Lemma search_similar_texts_consistent query corpus_name k s :
  aligned s → storage_ok (fs s) →
  aligned (search_similar_texts query corpus_name k s).2
  ∧ storage_ok (fs (search_similar_texts query corpus_name k s).2).
Proof.
  intros Hal Hok. rewrite search_similar_texts_candidates. cbn [snd].
  destruct (candidates_state query corpus_name k s) as (evs & -> & _).
  by apply ensure_loaded_consistent.
Qed.

Lemma for_each_preserves {A} (P : State → Prop) (l : list A) (body : A → M unit) s :
  (∀ x s, P s → P (body x s).2) → P s → P (for_each l body s).2.
Proof.
  intros Hbody. revert s. induction l as [|x l IH]; intros s Hs; [done|].
  rewrite for_each_cons. specialize (Hbody x s Hs).
  destruct (body x s) as [[[]|e] s1]; simpl in *; auto.
Qed.

Lemma save_corpus_consistent corpus_name data s :
  aligned s → storage_ok (fs s) →
  aligned (save_corpus corpus_name data s).2
  ∧ storage_ok (fs (save_corpus corpus_name data s).2).
Proof.
  intros Hal Hok. rewrite save_corpus_run. cbn [snd]. split; [done|].
  simpl. by apply storage_ok_json.
Qed.

Lemma create_sample_corpora_consistent s :
  aligned s → storage_ok (fs s) →
  aligned (create_sample_corpora s).2
  ∧ storage_ok (fs (create_sample_corpora s).2).
Proof.
  intros Hal Hok. unfold create_sample_corpora.
  apply (for_each_preserves (λ s, aligned s ∧ storage_ok (fs s))); [|done].
  intros [c data] s' [? ?]. by apply save_corpus_consistent.
Qed.

Lemma load_or_build_consistent corpus_name s :
  aligned s → storage_ok (fs s) →
  aligned (load_or_build corpus_name s).2
  ∧ storage_ok (fs (load_or_build corpus_name s).2).
Proof.
  intros Hal Hok. unfold load_or_build, mbind, M_bind.
  destruct (load_vector_index_consistent corpus_name s Hal Hok) as [Hal1 Hok1].
  destruct (load_vector_index corpus_name s) as [[[]|e] s1]; simpl in *;
    [done| |done].
  by apply build_vector_index_consistent.
Qed.

Lemma bind_run {A B} (m : M A) (f : A → M B) s :
  (m ≫= f) s
  = match m s with
    | (Ok a, s1) => f a s1
    | (Raise e, s1) => (Raise e, s1)
    end.
Proof. reflexivity. Qed.

Lemma create_sample_corpora_run s :
  create_sample_corpora s = (Ok tt, (create_sample_corpora s).2).
Proof.
  pose proof (for_each_save_spec corpus_data s) as Hrun.
  cbv zeta in Hrun. destruct Hrun as [Hrun _].
  unfold create_sample_corpora. exact Hrun.
Qed.

Lemma initialize_all_corpora_unfold s :
  initialize_all_corpora s
  = for_each (odict_keys corpus_sources) load_or_build
      (create_sample_corpora s).2.
Proof.
  unfold initialize_all_corpora. rewrite bind_run.
  generalize (create_sample_corpora_run s).
  generalize (create_sample_corpora s). intros p ->. reflexivity.
Qed.

Lemma initialize_all_corpora_consistent s :
  aligned s → storage_ok (fs s) →
  aligned (initialize_all_corpora s).2
  ∧ storage_ok (fs (initialize_all_corpora s).2).
Proof.
  intros Hal Hok. rewrite initialize_all_corpora_unfold.
  destruct (create_sample_corpora_consistent s Hal Hok) as [Hal1 Hok1].
  apply (for_each_preserves (λ s, aligned s ∧ storage_ok (fs s))).
  - intros c s' [? ?]. by apply load_or_build_consistent.
  - split; assumption.
Qed.

Lemma collect_stats_state sources stats s : (collect_stats sources stats s).2 = s.
Proof.
  revert stats. induction sources as [|[c src] sources IH]; intros stats; [done|].
  cbn [collect_stats]. unfold mbind at 1. unfold M_bind at 1.
  pose proof (load_corpus_state c s) as Hs.
  destruct (load_corpus c s) as [[data|e] s1]; simpl in Hs; subst s1; [|done].
  unfold mbind, M_bind, gets. apply IH.
Qed.

Lemma run_call_consistent c s :
  aligned s → storage_ok (fs s) →
  aligned (run_call c s) ∧ storage_ok (fs (run_call c s)).
Proof.
  intros Hal Hok. destruct c; cbn [run_call].
  - by apply save_corpus_consistent.
  - by rewrite load_corpus_state.
  - by apply build_vector_index_consistent.
  - by apply load_vector_index_consistent.
  - by apply search_similar_texts_consistent.
  - rewrite get_context_examples_unfold. cbn [snd].
    by apply search_similar_texts_consistent.
  - by apply create_sample_corpora_consistent.
  - by apply initialize_all_corpora_consistent.
  - unfold get_corpus_stats. by rewrite collect_stats_state.
Qed.

Lemma run_calls_consistent cs s :
  aligned s → storage_ok (fs s) →
  aligned (run_calls cs s) ∧ storage_ok (fs (run_calls cs s)).
Proof.
  revert s. induction cs as [|c cs IH]; intros s Hal Hok; [done|].
  cbn [run_calls]. destruct (run_call_consistent c s Hal Hok). by apply IH.
Qed.

Lemma gather_results_total query corpus_name k s :
  registry_ok s → labels_ok s (query_matrix query) k →
  ∃ cands s', gather_results query corpus_name k s = (Ok cands, s').
Proof.
  intros Hreg Hlab. unfold gather_results. munfold. simpl.
  destruct (search_corpora_total
              (corpora_to_search corpus_name (with_calls [Encode [query]] s))
              (query_matrix query) k [] (with_calls [Encode [query]] s))
    as [cands Hc]; [done..|].
  unfold query_matrix in Hc. simpl in Hc.
  destruct (search_corpora _ _ _ _ _) as [o s']. simpl in Hc. subst o. eauto.
Qed.

Lemma candidates_total query corpus_name k s :
  aligned s → storage_ok (fs s) →
  (∀ xb, Forall (λ h : Q * Z, -1 ≤ h.2) (index_search xb (query_matrix query) k)) →
  ∃ cands s', candidates query corpus_name k s = (Ok cands, s').
Proof.
  intros Hal Hok Hlab.
  assert (∀ s, labels_ok s (query_matrix query) k) as Hlabs.
  { intros s' c ix _. apply Hlab. }
  unfold candidates. rewrite bind_run.
  destruct (ensure_loaded_cases corpus_name s)
    as [-> | (name & -> & Hname & Hnone & ->)].
  - cbn [negb]. apply gather_results_total; [by apply aligned_registry_ok|done].
  - destruct (load_vector_index_ok name s Hok)
      as [-> | (ix & md & _ & _ & Hne & Hlen & ->)]; cbn [negb].
    + by exists [], s.
    + apply gather_results_total; [|done].
      by apply aligned_registry_ok, aligned_register.
Qed.

(** In an aligned state on files in shape, with labels that are positions
    or [-1], every search returns. *)
Lemma search_similar_texts_total query corpus_name k s :
  aligned s → storage_ok (fs s) →
  (∀ xb, Forall (λ h : Q * Z, -1 ≤ h.2) (index_search xb (query_matrix query) k)) →
  ∃ rs, (search_similar_texts query corpus_name k s).1 = Ok rs.
Proof.
  intros Hal Hok Hlab. rewrite search_similar_texts_candidates. cbn [fst].
  destruct (candidates_total query corpus_name k s Hal Hok Hlab)
    as (cands & s' & ->). cbn [fst]. eauto.
Qed.

End ConsistencyFacts.

Section ConsistencyTheorems.
Context `{Services}.

(** X7. The class invariant. A new manager on files in the shape the
    builder leaves them in (an empty directory, for one) stays consistent
    under every sequence of calls of its public methods, whether they
    return or raise: each registered index has a metadata list of its own
    length that is not empty, and the files keep their shape. In such a
    state, when the index labels are positions or [-1], no search for a
    positive number of results and no request for a positive number of
    context examples raises, whatever the query and the corpus name. *)
Theorem calls_keep_registry_aligned dir dim files now cs :
  storage_ok files →
  let s := run_calls cs (CorpusManager_init dir dim files now) in
  aligned s ∧ storage_ok (fs s)
  ∧ ((∀ xb q k, Forall (λ h : Q * Z, -1 ≤ h.2) (index_search xb q k)) →
     (∀ query corpus_name k,
        0 < k →
        ∃ rs, (search_similar_texts query corpus_name k s).1 = Ok rs)
     ∧ (∀ query target_language max_examples,
          0 < max_examples →
          ∃ text, (get_context_examples query target_language max_examples s).1
                  = Ok text)).
Proof.
  intros Hfiles. cbv zeta.
  destruct (run_calls_consistent cs (CorpusManager_init dir dim files now))
    as [Hal Hok]; [by intros c ix|done|].
  split; [done|]. split; [done|]. intros Hlab. split.
  - intros query corpus_name k _. by apply search_similar_texts_total.
  - intros query target_language max_examples _.
    rewrite get_context_examples_unfold. cbn [fst].
    destruct (search_similar_texts_total query None (max_examples * 2) _ Hal Hok)
      as [rs ->]; [done|]. eauto.
Qed.

End ConsistencyTheorems.

Section ResultFacts.
Context `{Services}.

Lemma py_index_elem {A} (l : list A) i x : py_index l i = Ok x → x ∈ l.
Proof.
  unfold py_index. destruct (_ && _); [|done].
  destruct (l !! _) eqn:Hl; [|done]. intros [= <-].
  by eapply list_elem_of_lookup_2.
Qed.

Lemma join_hits_elem c md hits l :
  join_hits c md hits = Ok l →
  Forall (λ r, corpus_name r = c ∧ record r ∈ md
               ∧ ∃ idx, (similarity_score r, idx) ∈ hits) l.
Proof.
  revert l. induction hits as [|[score idx] hits IH]; intros l; simpl.
  - intros [= <-]. constructor.
  - assert (∀ l', join_hits c md hits = Ok l' →
              Forall (λ r, corpus_name r = c ∧ record r ∈ md
                           ∧ ∃ idx0, (similarity_score r, idx0)
                                     ∈ (score, idx) :: hits) l') as IH'.
    { intros l' Hl'. eapply Forall_impl; [by apply IH|].
      intros r (? & ? & idx0 & ?). repeat (split; [done|]).
      exists idx0. by apply list_elem_of_further. }
    destruct (idx <? Z.of_nat (length md)); [|by apply IH'].
    destruct (py_index md idx) as [r|e] eqn:Hr; [|done].
    destruct (join_hits c md hits) as [l'|e]; [|done].
    intros [= <-]. constructor; [|by apply IH'].
    simpl. split; [done|]. split; [by eapply py_index_elem|].
    exists idx. apply list_elem_of_here.
Qed.

Lemma corpus_candidates_elem s c q k g :
  corpus_candidates s c (corpus_hits s q k c) = Ok g →
  Forall (λ r, corpus_name r = c
               ∧ ∃ ix md idx,
                   odict_get c (indexes s) = Some ix
                   ∧ metadata s !! c = Some md
                   ∧ record r ∈ md
                   ∧ (similarity_score r, idx) ∈ index_search (xb ix) q k) g.
Proof.
  unfold corpus_candidates, corpus_hits.
  destruct (odict_get c (indexes s)) as [ix|]; [|by intros [= <-]].
  destruct (index_search (xb ix) q k) as [|h hits] eqn:Hh; [by intros [= <-]|].
  destruct (metadata s !! c) as [md|]; [|done].
  intros Hj. apply join_hits_elem in Hj.
  eapply Forall_impl; [done|]. intros r (? & ? & idx & ?).
  split; [done|]. exists ix, md, idx. by rewrite Hh.
Qed.

Lemma elem_of_concat {A} (x : A) (ls : list (list A)) :
  x ∈ concat ls → ∃ l, x ∈ l ∧ l ∈ ls.
Proof.
  induction ls as [|l ls IH]; simpl; [by intros ?%elem_of_nil|].
  intros [Hx|Hx]%elem_of_app.
  - exists l. split; [done|]. apply list_elem_of_here.
  - destruct (IH Hx) as (l' & ? & ?). exists l'. split; [done|].
    by apply list_elem_of_further.
Qed.

Lemma py_slice_to_subseteq {A} k (l : list A) : py_slice_to k l ⊆ l.
Proof.
  unfold py_slice_to. destruct (0 <=? k); apply sublist_subseteq, sublist_take.
Qed.

(** Every candidate of a search is a stored record under a score its
    corpus's index returned. *)
Lemma candidates_stored query name k s cands s' :
  candidates query name k s = (Ok cands, s') →
  Forall (λ r,
      corpus_name r ∈ corpora_to_search name s'
      ∧ ∃ ix md idx,
          odict_get (corpus_name r) (indexes s') = Some ix
          ∧ metadata s' !! corpus_name r = Some md
          ∧ record r ∈ md
          ∧ (similarity_score r, idx)
            ∈ index_search (xb ix) (query_matrix query) k) cands.
Proof.
  intros Hc.
  destruct (candidates_groups _ _ _ _ _ _ Hc) as (groups & -> & Hg).
  apply Forall_forall. intros r Hr.
  apply elem_of_concat in Hr as (g & Hrg & Hgin).
  apply list_elem_of_lookup in Hgin as [i Hi].
  destruct (Forall2_lookup_r _ _ _ _ _ Hg Hi) as (c & Hci & Hcg).
  apply corpus_candidates_elem in Hcg.
  apply (proj1 (Forall_forall _ _)) with (x := r) in Hcg; [|done].
  destruct Hcg as (-> & Hrec). split; [|done].
  by eapply list_elem_of_lookup_2.
Qed.

(** The outcome of a search under a name whose index is registered: the
    hits of that index joined with that corpus's metadata, sorted and cut. *)
Lemma named_search_outcome query name k s ix :
  name ≠ "" → odict_get name (indexes s) = Some ix →
  (search_similar_texts query (Some name) k s).1
  = match corpus_candidates s name
            (index_search (xb ix) (query_matrix query) k) with
    | Ok l => Ok (py_slice_to k (sort_desc l))
    | Raise e => Raise e
    end.
Proof.
  intros Hname Hix. rewrite search_similar_texts_candidates. cbn [fst].
  unfold candidates. rewrite bind_run.
  rewrite ensure_loaded_skip by (right; simpl; rewrite Hix; eauto).
  cbn [negb]. unfold gather_results. munfold. simpl.
  unfold corpora_to_search.
  rewrite (proj2 (truthy_Some name)) by done. simpl.
  munfold.
  change (indexes (with_calls [Encode [query]] s)) with (indexes s).
  rewrite Hix. rewrite collect_hits_candidates.
  change (corpus_candidates (with_calls _ (with_calls _ s)) name)
    with (corpus_candidates s name).
  unfold query_matrix. simpl.
  by destruct (corpus_candidates s name _).
Qed.


End ResultFacts.

Section ResultTheorems.
Context `{Services}.

(** X8. A search never makes up a result. Every result it returns carries
    the name of a corpus that was searched (the named one, when a name is
    given) and whose index is registered after the search; its record is
    one of the records registered for that corpus, and its score is one
    the index of that corpus returned for the query. *)
Theorem search_results_are_stored_records s query name k rs :
  (search_similar_texts query name k s).1 = Ok rs →
  let s' := (search_similar_texts query name k s).2 in
  Forall (λ r,
      corpus_name r ∈ corpora_to_search name s'
      ∧ ∃ ix md idx,
          odict_get (corpus_name r) (indexes s') = Some ix
          ∧ metadata s' !! corpus_name r = Some md
          ∧ record r ∈ md
          ∧ (similarity_score r, idx)
            ∈ index_search (xb ix) (query_matrix query) k) rs.
Proof.
  rewrite search_similar_texts_candidates. cbn [fst snd].
  destruct (candidates query name k s) as [[cands|e] s'] eqn:Hc; [|done].
  cbn [fst snd]. intros [= <-].
  pose proof (candidates_stored _ _ _ _ _ _ Hc) as Hst.
  apply Forall_forall. intros r Hr.
  apply py_slice_to_subseteq in Hr. rewrite sort_desc_perm in Hr.
  by apply (proj1 (Forall_forall _ _) Hst).
Qed.

(** X9. A search under a corpus name depends on that corpus's registry
    entry and on nothing else: two managers that hold the same index and
    the same metadata list under the name return the same results, or
    raise the same exception, whatever else they have registered and
    whatever is on disk. *)
Theorem named_search_depends_on_its_corpus s1 s2 query name k ix :
  name ≠ "" →
  odict_get name (indexes s1) = Some ix →
  odict_get name (indexes s2) = Some ix →
  metadata s1 !! name = metadata s2 !! name →
  (search_similar_texts query (Some name) k s1).1
  = (search_similar_texts query (Some name) k s2).1.
Proof.
  intros Hname H1 H2 Hmd.
  rewrite (named_search_outcome query name k s1 ix) by done.
  rewrite (named_search_outcome query name k s2 ix) by done.
  unfold corpus_candidates. by rewrite Hmd.
Qed.



End ResultTheorems.

Section InitFacts.
Context `{Services}.

Lemma load_or_build_load c ix md s :
  fs s !! os_path_join (corpus_dir s) (c +:+ "_index.faiss") = Some (FaissFile ix) →
  fs s !! os_path_join (corpus_dir s) (c +:+ "_metadata.pkl") = Some (PickleFile md) →
  load_or_build c s
  = (Ok tt, with_metadata <[c := md]> (with_indexes (odict_set c ix) s)).
Proof.
  intros Hi Hm. unfold load_or_build.
  rewrite bind_run, (load_vector_index_present c ix md) by done. reflexivity.
Qed.

Lemma load_or_build_build c data s :
  fs s !! os_path_join (corpus_dir s) (c +:+ "_index.faiss") = None
  ∨ fs s !! os_path_join (corpus_dir s) (c +:+ "_metadata.pkl") = None →
  (load_corpus c s).1 = Ok data →
  Exists (λ e : Entry, is_Some (e !! "en")) data →
  load_or_build c s
  = (Ok tt, built_state c (extract_texts c "en" 0 data).1
              (extract_texts c "en" 0 data).2 s).
Proof.
  intros Habs Hload Hex. unfold load_or_build.
  rewrite bind_run, load_vector_index_missing by done. cbn [negb].
  apply build_vector_index_run; [done|]. by apply extract_texts_nonempty.
Qed.

(** The registry entry and the two files of corpus [c] agree. *)
Lemma built_state_synced c texts md s :
  odict_get c (indexes (built_state c texts md s)) = Some (built_index s texts)
  ∧ metadata (built_state c texts md s) !! c = Some md
  ∧ fs (built_state c texts md s)
      !! os_path_join (corpus_dir s) (c +:+ "_index.faiss")
    = Some (FaissFile (built_index s texts))
  ∧ fs (built_state c texts md s)
      !! os_path_join (corpus_dir s) (c +:+ "_metadata.pkl")
    = Some (PickleFile md).
Proof.
  split; [apply odict_get_set_eq|]. split; [apply lookup_insert_eq|]. split.
  - simpl. rewrite lookup_insert_ne by (symmetry; apply index_ne_metadata).
    apply lookup_insert_eq.
  - simpl. apply lookup_insert_eq.
Qed.

(** One round of the loop of [initialize_all_corpora] on a corpus whose
    file holds an English text. *)
Lemma load_or_build_spec c data s :
  storage_ok (fs s) →
  (load_corpus c s).1 = Ok data →
  Exists (λ e : Entry, is_Some (e !! "en")) data →
  let s' := (load_or_build c s).2 in
  load_or_build c s = (Ok tt, s')
  ∧ corpus_dir s' = corpus_dir s ∧ vector_dim s' = vector_dim s
  ∧ storage_ok (fs s')
  ∧ (∃ ix md,
       odict_get c (indexes s') = Some ix ∧ metadata s' !! c = Some md
       ∧ fs s' !! os_path_join (corpus_dir s) (c +:+ "_index.faiss")
         = Some (FaissFile ix)
       ∧ fs s' !! os_path_join (corpus_dir s) (c +:+ "_metadata.pkl")
         = Some (PickleFile md)
       ∧ md ≠ [] ∧ ntotal ix = length md
       ∧ (fs s !! os_path_join (corpus_dir s) (c +:+ "_index.faiss") = None
          ∨ fs s !! os_path_join (corpus_dir s) (c +:+ "_metadata.pkl") = None →
          ix = built_index s (extract_texts c "en" 0 data).1
          ∧ md = (extract_texts c "en" 0 data).2))
  ∧ (∀ c', c' ≠ c →
       odict_get c' (indexes s') = odict_get c' (indexes s)
       ∧ metadata s' !! c' = metadata s !! c')
  ∧ (∀ p, p ≠ os_path_join (corpus_dir s) (c +:+ "_index.faiss") →
          p ≠ os_path_join (corpus_dir s) (c +:+ "_metadata.pkl") →
          fs s' !! p = fs s !! p)
  ∧ odict_keys (indexes s')
    = (if odict_mem c (indexes s) then odict_keys (indexes s)
       else odict_keys (indexes s) ++ [c]).
Proof.
  intros Hok Hload Hex. cbv zeta.
  destruct (load_vector_index_ok c s Hok)
    as [Hfalse | (ix & md & Hi & Hm & Hne & Hlen & _)].
  - assert (fs s !! os_path_join (corpus_dir s) (c +:+ "_index.faiss") = None
            ∨ fs s !! os_path_join (corpus_dir s) (c +:+ "_metadata.pkl") = None)
      as Habs.
    { destruct (fs s !! os_path_join (corpus_dir s) (c +:+ "_index.faiss"))
        as [fi|] eqn:Hi; [|by left].
      destruct (fs s !! os_path_join (corpus_dir s) (c +:+ "_metadata.pkl"))
        as [fm|] eqn:Hm; [|by right].
      pose proof Hi as Hi'. pose proof Hm as Hm'.
      rewrite os_path_join_suffix in Hi' by done.
      rewrite os_path_join_suffix in Hm' by done.
      destruct (Hok _ _ _ Hi' Hm') as (ix & md & -> & -> & _).
      by rewrite (load_vector_index_present c ix md) in Hfalse. }
    rewrite (load_or_build_build c data s Habs Hload Hex). cbn [snd].
    pose proof (extract_texts_length c "en" 0 data) as Hlen.
    pose proof (extract_texts_nonempty c "en" 0 data Hex) as Hne.
    set (texts := (extract_texts c "en" 0 data).1) in *.
    set (md := (extract_texts c "en" 0 data).2) in *.
    assert (md ≠ []) as Hmd.
    { intros Hnil. rewrite Hnil in Hlen. by destruct texts. }
    assert (ntotal (built_index s texts) = length md) as Hnt.
    { unfold ntotal, built_index. simpl. by rewrite !length_fmap. }
    destruct (built_state_synced c texts md s) as (S1 & S2 & S3 & S4).
    split; [done|]. split; [done|]. split; [done|]. split.
    { simpl. rewrite !(os_path_join_suffix (corpus_dir s) c) by done.
      by apply storage_ok_pair. }
    split; [by exists (built_index s texts), md|]. split.
    { intros c' Hc'. simpl. by rewrite odict_get_set_ne, lookup_insert_ne. }
    split.
    { intros p Hp1 Hp2. simpl. by rewrite !lookup_insert_ne. }
    simpl. apply odict_keys_set.
  - rewrite (load_or_build_load c ix md s Hi Hm). cbn [snd].
    split; [done|]. split; [done|]. split; [done|]. split; [done|]. split.
    { exists ix, md. split; [apply odict_get_set_eq|].
      split; [apply lookup_insert_eq|]. repeat (split; [done|]).
      intros [Habs|Habs]; congruence. }
    split.
    { intros c' Hc'. simpl. by rewrite odict_get_set_ne, lookup_insert_ne. }
    split; [done|]. simpl. apply odict_keys_set.
Qed.

(** The loop of [initialize_all_corpora] over names whose corpus files hold
    an English text. *)
Lemma for_each_load_or_build_spec (table : string → list Entry) l s :
  NoDup l → Forall (λ c, is_abs c = false) l →
  storage_ok (fs s) →
  (∀ c, c ∈ l → (load_corpus c s).1 = Ok (table c)
                ∧ Exists (λ e : Entry, is_Some (e !! "en")) (table c)) →
  let s' := (for_each l load_or_build s).2 in
  for_each l load_or_build s = (Ok tt, s')
  ∧ corpus_dir s' = corpus_dir s ∧ vector_dim s' = vector_dim s
  ∧ storage_ok (fs s')
  ∧ (∀ c, (load_corpus c s').1 = (load_corpus c s).1)
  ∧ (∀ c, c ∉ l → is_abs c = false →
       odict_get c (indexes s') = odict_get c (indexes s)
       ∧ metadata s' !! c = metadata s !! c
       ∧ fs s' !! os_path_join (corpus_dir s) (c +:+ "_index.faiss")
         = fs s !! os_path_join (corpus_dir s) (c +:+ "_index.faiss")
       ∧ fs s' !! os_path_join (corpus_dir s) (c +:+ "_metadata.pkl")
         = fs s !! os_path_join (corpus_dir s) (c +:+ "_metadata.pkl"))
  ∧ (∀ c, c ∈ l →
       ∃ ix md,
         odict_get c (indexes s') = Some ix ∧ metadata s' !! c = Some md
         ∧ fs s' !! os_path_join (corpus_dir s) (c +:+ "_index.faiss")
           = Some (FaissFile ix)
         ∧ fs s' !! os_path_join (corpus_dir s) (c +:+ "_metadata.pkl")
           = Some (PickleFile md)
         ∧ md ≠ [] ∧ ntotal ix = length md
         ∧ (fs s !! os_path_join (corpus_dir s) (c +:+ "_index.faiss") = None
            ∨ fs s !! os_path_join (corpus_dir s) (c +:+ "_metadata.pkl") = None →
            ix = built_index s (extract_texts c "en" 0 (table c)).1
            ∧ md = (extract_texts c "en" 0 (table c)).2))
  ∧ ((∀ c, c ∈ l → odict_get c (indexes s) = None) →
     odict_keys (indexes s') = odict_keys (indexes s) ++ l).
Proof.
  revert s. induction l as [|c0 l IH]; intros s Hnd Hrel Hok Htab; cbv zeta.
  - cbn [for_each]. unfold mret, M_ret. cbn [snd].
    repeat (split; [done|]). split.
    + intros c Hc. by apply elem_of_nil in Hc.
    + intros _. by rewrite app_nil_r.
  - apply NoDup_cons in Hnd as [Hnotin Hnd].
    apply Forall_cons in Hrel as [Hrel0 Hrel].
    destruct (Htab c0) as [Hload0 Hex0]; [apply list_elem_of_here|].
    destruct (load_or_build_spec c0 (table c0) s Hok Hload0 Hex0)
      as (Hrun & Hd & Hv & Hok1 & Hsync & Hreg & Hfs & Hkeys).
    rewrite for_each_cons, Hrun.
    set (s1 := (load_or_build c0 s).2) in *.
    assert (∀ c, (load_corpus c s1).1 = (load_corpus c s).1) as Hlc.
    { intros c. apply load_corpus_ext; [done|]. apply Hfs; path_ne. }
    destruct (IH s1 Hnd Hrel Hok1)
      as (Hrun' & Hd' & Hv' & Hok' & Hlc' & Hframe & Hall & Hkeys').
    { intros c Hc. rewrite Hlc. apply Htab. by apply list_elem_of_further. }
    set (s' := (for_each l load_or_build s1).2) in *.
    rewrite Hd in *.
    split; [done|]. split; [congruence|]. split; [congruence|].
    split; [done|]. split; [intros c; by rewrite Hlc', Hlc|]. split; [|split].
    + intros c Hc Habs.
      apply not_elem_of_cons in Hc as [Hc0 Hc].
      destruct (Hframe c Hc Habs) as (F1 & F2 & F3 & F4).
      destruct (Hreg c Hc0) as [R1 R2].
      rewrite F1, F2, F3, F4, R1, R2. repeat (split; [done|]).
      split; apply Hfs; path_ne.
    + intros c [->|Hc]%elem_of_cons.
      * destruct Hsync as (ix & md & S1 & S2 & S3 & S4 & S5 & S6 & S7).
        destruct (Hframe c0 Hnotin Hrel0) as (F1 & F2 & F3 & F4).
        exists ix, md. rewrite F1, F2, F3, F4. done.
      * destruct (Hall c Hc) as (ix & md & S1 & S2 & S3 & S4 & S5 & S6 & S7).
        exists ix, md. repeat (split; [done|]).
        intros Habs.
        assert (c ≠ c0) as Hne by (intros ->; done).
        assert (is_abs c = false) as Hc' by (by eapply Forall_forall in Hrel).
        assert (built_index s1 = built_index s) as Hbi.
        { unfold built_index. by rewrite Hv. }
        rewrite <- Hbi. apply S7.
        rewrite !Hfs; [done|path_ne..].
    + intros Hnone. rewrite Hkeys'.
      * rewrite Hkeys.
        rewrite (proj2 (odict_mem_false c0 (indexes s)))
          by apply Hnone, list_elem_of_here.
        by rewrite <- app_assoc.
      * intros c Hc. destruct (Hreg c) as [-> _]; [by intros ->|].
        apply Hnone. by apply list_elem_of_further.
Qed.

End InitFacts.

Section InitTheorems.
Context `{Services}.

Lemma extract_texts_all c src idx data :
  Forall (λ e : Entry, is_Some (e !! src)) data →
  Forall2 (λ (e : Entry) t, e !! src = Some t) data (extract_texts c src idx data).1
  ∧ (extract_texts c src idx data).2
    = imap (λ i e, {| corpus := c; index := idx + i; translations := e |}) data.
Proof.
  intros Hall. revert idx.
  induction Hall as [|e data [t Ht] _ IH]; intros idx; simpl; [done|].
  destruct (IH (S idx)) as [IH1 IH2].
  destruct (extract_texts c src (S idx) data) as [texts md]. simpl in *.
  rewrite Ht. simpl. split; [by constructor|].
  rewrite Nat.add_0_r, IH2. f_equal. apply imap_ext. intros i e' _. simpl.
  f_equal. lia.
Qed.

Lemma built_index_rows (src : string) (data : list Entry) texts :
  Forall2 (λ (e : Entry) t, e !! src = Some t) data texts →
  Forall2 (λ (e : Entry) v,
             ∃ t, e !! src = Some t ∧ v = astype_float32 (normalize_L2 (embed t)))
    data (astype_float32 <$> (normalize_L2 <$> (embed <$> texts))).
Proof.
  induction 1 as [|e t data texts Het _ IH]; [constructor|].
  rewrite !fmap_cons. constructor; [by exists t|done].
Qed.

Lemma create_sample_corpora_storage_ok s :
  storage_ok (fs s) → storage_ok (fs (create_sample_corpora s).2).
Proof.
  intros Hok. unfold create_sample_corpora.
  apply (for_each_preserves (λ s, storage_ok (fs s))); [|done].
  intros [c data] s' Hs'. rewrite save_corpus_run. simpl.
  by apply storage_ok_json.
Qed.

(** The table the code lists for a sample name. *)
Lemma sample_table c :
  c ∈ odict_keys corpus_sources →
  ∃ data, odict_get c corpus_data = Some data
          ∧ Forall (λ e : Entry, is_Some (e !! "en")) data
          ∧ data ≠ [].
Proof.
  rewrite <- corpus_data_keys. intros Hc.
  destruct (odict_get_keys c corpus_data Hc) as [data Hd].
  exists data. split; [done|].
  apply odict_get_elem in Hd.
  pose proof sample_entries_english as He.
  pose proof sample_tables_nonempty as Hn.
  generalize dependent corpus_data. intros l _ Hd He Hn.
  split.
  - by apply (proj1 (Forall_forall _ _) He (c, data)).
  - by apply (proj1 (Forall_forall _ _) Hn (c, data)).
Qed.

(** [initialize_all_corpora] from a state whose files are in shape. *)
Lemma initialize_all_corpora_spec s :
  storage_ok (fs s) →
  let s' := (initialize_all_corpora s).2 in
  initialize_all_corpora s = (Ok tt, s')
  ∧ corpus_dir s' = corpus_dir s ∧ vector_dim s' = vector_dim s
  ∧ storage_ok (fs s')
  ∧ (∀ c data, odict_get c corpus_data = Some data →
       ∃ ix md,
         odict_get c (indexes s') = Some ix ∧ metadata s' !! c = Some md
         ∧ md ≠ [] ∧ ntotal ix = length md
         ∧ fs s' !! os_path_join (corpus_dir s) (c +:+ "_index.faiss")
           = Some (FaissFile ix)
         ∧ fs s' !! os_path_join (corpus_dir s) (c +:+ "_metadata.pkl")
           = Some (PickleFile md)
         ∧ (load_corpus c s').1 = Ok data
         ∧ (fs s !! os_path_join (corpus_dir s) (c +:+ "_index.faiss") = None
            ∨ fs s !! os_path_join (corpus_dir s) (c +:+ "_metadata.pkl") = None →
            ix = built_index s (extract_texts c "en" 0 data).1
            ∧ md = (extract_texts c "en" 0 data).2))
  ∧ (∀ c, c ∉ odict_keys corpus_sources → is_abs c = false →
       odict_get c (indexes s') = odict_get c (indexes s)
       ∧ metadata s' !! c = metadata s !! c)
  ∧ (indexes s = [] → odict_keys (indexes s') = odict_keys corpus_sources).
Proof.
  intros Hok. cbv zeta. rewrite initialize_all_corpora_unfold.
  pose proof (create_sample_corpora_storage_ok s Hok) as Hok1.
  destruct (create_sample_corpora_spec s)
    as (_ & Hd & Hv & Hi & Hm & _ & _ & Hfs & Hload).
  remember ((create_sample_corpora s).2) as s1 eqn:Es1. clear Es1.
  set (table := λ c, default [] (odict_get c corpus_data)).
  assert (∀ c, c ∈ odict_keys corpus_sources →
            (load_corpus c s1).1 = Ok (table c)
            ∧ Exists (λ e : Entry, is_Some (e !! "en")) (table c)) as Htab.
  { intros c Hc. destruct (sample_table c Hc) as (data & Hg & Hen & Hne).
    unfold table. rewrite Hg.
    change (default [] (Some data)) with data. split.
    - exact (Hload c data Hg).
    - destruct Hen; [done|]. by apply Exists_cons_hd. }
  destruct (for_each_load_or_build_spec table (odict_keys corpus_sources) s1
              sample_names_NoDup sample_names_relative Hok1 Htab)
    as (Hrun & Hd' & Hv' & Hok' & Hlc & Hframe & Hall & Hkeys).
  remember ((for_each (odict_keys corpus_sources) load_or_build s1).2) as s'
    eqn:Es'. clear Es'.
  split; [done|]. split; [congruence|]. split; [congruence|].
  split; [done|]. split; [|split].
  - intros c data Hg. pose proof (odict_get_elem_keys _ _ _ Hg) as Hc.
    rewrite corpus_data_keys in Hc.
    destruct (Hall c Hc) as (ix & md & S1 & S2 & S3 & S4 & S5 & S6 & S7).
    rewrite Hd in S3, S4, S7.
    exists ix, md. repeat (split; [done|]). split.
    { rewrite Hlc. exact (Hload c data Hg). }
    intros Habs. destruct S7 as [-> ->].
    { rewrite !Hfs; [done|intros c' _; apply not_eq_sym; path_ne..]. }
    unfold table. rewrite Hg.
    change (default [] (Some data)) with data.
    split; [|done]. unfold built_index. by rewrite Hv.
  - intros c Hc Habs. destruct (Hframe c Hc Habs) as (-> & -> & _).
    by rewrite Hi, Hm.
  - intros Hnil. rewrite Hkeys; [by rewrite Hi, Hnil|].
    intros c _. by rewrite Hi, Hnil.
Qed.

(** X11. From any state whose files are in shape, [initialize_all_corpora]
    returns, and afterwards each of the twenty sample corpora is loadable
    from its corpus file, registered with an index and a metadata list of
    equal length, and persisted: the index file and the metadata file hold
    the registered pair. A corpus that lacked one of the two files before
    the call is indexed anew from its sample table: one record and one row
    per entry, in table order, the row being the embedding of the entry's
    English text. On a new manager the registry lists the corpora in the
    order of [corpus_sources]. *)
Theorem initialize_all_corpora_registers s :
  storage_ok (fs s) →
  let s' := (initialize_all_corpora s).2 in
  initialize_all_corpora s = (Ok tt, s')
  ∧ (∀ c data, odict_get c corpus_data = Some data →
       ∃ ix md,
         odict_get c (indexes s') = Some ix ∧ metadata s' !! c = Some md
         ∧ md ≠ [] ∧ ntotal ix = length md
         ∧ fs s' !! os_path_join (corpus_dir s) (c +:+ "_index.faiss")
           = Some (FaissFile ix)
         ∧ fs s' !! os_path_join (corpus_dir s) (c +:+ "_metadata.pkl")
           = Some (PickleFile md)
         ∧ (load_corpus c s').1 = Ok data
         ∧ (fs s !! os_path_join (corpus_dir s) (c +:+ "_index.faiss") = None
            ∨ fs s !! os_path_join (corpus_dir s) (c +:+ "_metadata.pkl") = None →
            md = imap (λ i e, {| corpus := c; index := i; translations := e |})
                   data
            ∧ dim ix = vector_dim s
            ∧ Forall2 (λ (e : Entry) v,
                         ∃ t, e !! "en" = Some t
                              ∧ v = astype_float32 (normalize_L2 (embed t)))
                data (xb ix)))
  ∧ (indexes s = [] → odict_keys (indexes s') = odict_keys corpus_sources).
Proof.
  intros Hok. cbv zeta.
  destruct (initialize_all_corpora_spec s Hok)
    as (Hrun & _ & _ & _ & Hall & _ & Hkeys).
  split; [exact Hrun|]. split; [|exact Hkeys].
  intros c data Hg.
  destruct (Hall c data Hg) as (ix & md & S1 & S2 & S3 & S4 & S5 & S6 & S7 & S8).
  exists ix, md. do 7 (split; [assumption|]).
  intros Habs. destruct (S8 Habs) as [-> ->].
  destruct (sample_table c) as (data' & Hg' & Hen & _).
  { rewrite <- corpus_data_keys. by eapply odict_get_elem_keys. }
  assert (data' = data) as -> by congruence.
  destruct (extract_texts_all c "en" 0 data Hen) as [Htexts Hmd].
  split; [exact Hmd|]. split; [reflexivity|].
  by apply built_index_rows.
Qed.

(** The loop of [initialize_all_corpora] when every corpus has both files
    on disk: each round loads. *)
Lemma for_each_load_spec l s :
  (∀ c, c ∈ l →
     ∃ ix md,
       fs s !! os_path_join (corpus_dir s) (c +:+ "_index.faiss")
       = Some (FaissFile ix)
       ∧ fs s !! os_path_join (corpus_dir s) (c +:+ "_metadata.pkl")
         = Some (PickleFile md)) →
  let s' := (for_each l load_or_build s).2 in
  for_each l load_or_build s = (Ok tt, s')
  ∧ fs s' = fs s ∧ calls s' = calls s ∧ corpus_dir s' = corpus_dir s
  ∧ (∀ c, c ∉ l →
       odict_get c (indexes s') = odict_get c (indexes s)
       ∧ metadata s' !! c = metadata s !! c)
  ∧ (∀ c, c ∈ l →
       ∃ ix md,
         fs s !! os_path_join (corpus_dir s) (c +:+ "_index.faiss")
         = Some (FaissFile ix)
         ∧ fs s !! os_path_join (corpus_dir s) (c +:+ "_metadata.pkl")
           = Some (PickleFile md)
         ∧ odict_get c (indexes s') = Some ix ∧ metadata s' !! c = Some md)
  ∧ (NoDup l → (∀ c, c ∈ l → odict_get c (indexes s) = None) →
     odict_keys (indexes s') = odict_keys (indexes s) ++ l).
Proof.
  revert s. induction l as [|c0 l IH]; intros s Hfiles; cbv zeta.
  - cbn [for_each]. unfold mret, M_ret. cbn [snd].
    repeat (split; [done|]). split.
    + intros c Hc. by apply elem_of_nil in Hc.
    + intros _ _. by rewrite app_nil_r.
  - destruct (Hfiles c0) as (ix0 & md0 & Hi0 & Hm0); [apply list_elem_of_here|].
    rewrite for_each_cons, (load_or_build_load c0 ix0 md0 s Hi0 Hm0).
    set (s1 := with_metadata <[c0 := md0]> (with_indexes (odict_set c0 ix0) s)).
    destruct (IH s1) as (Hrun & Hfs & Hcalls & Hd & Hframe & Hall & Hkeys).
    { intros c Hc. apply Hfiles. by apply list_elem_of_further. }
    remember ((for_each l load_or_build s1).2) as s' eqn:Es'. clear Es'.
    split; [done|]. split; [done|]. split; [done|]. split; [done|].
    split; [|split].
    + intros c [Hc0 Hc]%not_elem_of_cons.
      destruct (Hframe c Hc) as [-> ->]. unfold s1. simpl.
      by rewrite odict_get_set_ne, lookup_insert_ne.
    + intros c Hc. destruct (decide (c ∈ l)) as [Hin|Hnotin].
      * apply (Hall c Hin).
      * apply elem_of_cons in Hc as [->|Hc]; [|done].
        exists ix0, md0. destruct (Hframe c0 Hnotin) as [-> ->].
        unfold s1. simpl. by rewrite odict_get_set_eq, lookup_insert_eq.
    + intros [Hnotin Hnd]%NoDup_cons Hnone. rewrite Hkeys; [|done|].
      * unfold s1. simpl. rewrite odict_keys_set.
        rewrite (proj2 (odict_mem_false c0 (indexes s)))
          by apply Hnone, list_elem_of_here.
        by rewrite <- app_assoc.
      * intros c Hc. unfold s1. simpl.
        rewrite odict_get_set_ne by (by intros ->).
        apply Hnone. by apply list_elem_of_further.
Qed.

(** X12. When every sample corpus has its index file and its metadata file
    on disk, [initialize_all_corpora] only loads: it returns, embeds no
    text, builds no index, adds no row and runs no search (the log of these
    calls is what it was; the indexes come from [faiss.read_index], which
    the log does not record), changes no file but the twenty corpus files
    it writes again, and registers for each sample corpus the very pair its
    two files hold. On a new manager the registry lists the corpora in the
    order of [corpus_sources]. *)
Theorem initialize_all_corpora_reload s :
  (∀ c, c ∈ odict_keys corpus_sources →
     ∃ ix md,
       fs s !! os_path_join (corpus_dir s) (c +:+ "_index.faiss")
       = Some (FaissFile ix)
       ∧ fs s !! os_path_join (corpus_dir s) (c +:+ "_metadata.pkl")
         = Some (PickleFile md)) →
  let s' := (initialize_all_corpora s).2 in
  initialize_all_corpora s = (Ok tt, s')
  ∧ calls s' = calls s
  ∧ (∀ p, (∀ c, c ∈ odict_keys corpus_sources →
             p ≠ os_path_join (corpus_dir s) (c +:+ ".json")) →
       fs s' !! p = fs s !! p)
  ∧ (∀ c, c ∈ odict_keys corpus_sources →
       ∃ ix md,
         fs s !! os_path_join (corpus_dir s) (c +:+ "_index.faiss")
         = Some (FaissFile ix)
         ∧ fs s !! os_path_join (corpus_dir s) (c +:+ "_metadata.pkl")
           = Some (PickleFile md)
         ∧ odict_get c (indexes s') = Some ix ∧ metadata s' !! c = Some md)
  ∧ (indexes s = [] → odict_keys (indexes s') = odict_keys corpus_sources).
Proof.
  intros Hfiles. cbv zeta. rewrite initialize_all_corpora_unfold.
  destruct (create_sample_corpora_spec s)
    as (_ & Hd & _ & Hi & _ & _ & Hcs & Hfs & _).
  remember ((create_sample_corpora s).2) as s1 eqn:Es1. clear Es1.
  assert (∀ c, fs s1 !! os_path_join (corpus_dir s) (c +:+ "_index.faiss")
               = fs s !! os_path_join (corpus_dir s) (c +:+ "_index.faiss")
               ∧ fs s1 !! os_path_join (corpus_dir s) (c +:+ "_metadata.pkl")
                 = fs s !! os_path_join (corpus_dir s) (c +:+ "_metadata.pkl"))
    as Hsame.
  { intros c. split; apply Hfs; intros c' _; apply not_eq_sym; path_ne. }
  destruct (for_each_load_spec (odict_keys corpus_sources) s1)
    as (Hrun & Hfs' & Hcalls & _ & _ & Hall & Hkeys).
  { intros c Hc. destruct (Hfiles c Hc) as (ix & md & ? & ?).
    exists ix, md. rewrite Hd. destruct (Hsame c) as [-> ->]. done. }
  remember ((for_each (odict_keys corpus_sources) load_or_build s1).2) as s'
    eqn:Es'. clear Es'.
  split; [done|]. split; [congruence|]. split; [|split].
  - intros p Hp. rewrite Hfs'. by apply Hfs.
  - intros c Hc. destruct (Hall c Hc) as (ix & md & F1 & F2 & R1 & R2).
    rewrite Hd in F1, F2. destruct (Hsame c) as [E1 E2].
    rewrite E1 in F1. rewrite E2 in F2. by exists ix, md.
  - intros Hnil. rewrite Hkeys; [by rewrite Hi, Hnil|apply sample_names_NoDup|].
    intros c _. by rewrite Hi, Hnil.
Qed.

End InitTheorems.

Section StatsFacts.
Context `{Services}.

(** The item line 706 stores for a corpus. *)
Lemma collect_stats_cons c source sources stats s :
  collect_stats ((c, source) :: sources) stats s
  = match (load_corpus c s).1 with
    | Ok data =>
        collect_stats sources
          (odict_set c
             {| stats_name := source_name source;
                stats_description := source_description source;
                stats_domain := source_domain source;
                stats_entries := length data;
                stats_indexed := odict_mem c (indexes s) |} stats) s
    | Raise e => (Raise e, s)
    end.
Proof.
  cbn [collect_stats]. rewrite bind_run.
  pose proof (load_corpus_state c s) as Hs.
  destruct (load_corpus c s) as [[data|e] s1]; simpl in Hs; subst s1; done.
Qed.

Lemma collect_stats_spec sources stats s out :
  (collect_stats sources stats s).1 = Ok out →
  (∀ c, c ∈ odict_keys sources → ∃ data, (load_corpus c s).1 = Ok data)
  ∧ (∀ c, c ∉ odict_keys sources → odict_get c out = odict_get c stats)
  ∧ (NoDup (odict_keys sources) →
     (∀ c, c ∈ odict_keys sources → odict_get c stats = None) →
     odict_keys out = odict_keys stats ++ odict_keys sources
     ∧ ∀ c source, odict_get c sources = Some source →
         ∃ data, (load_corpus c s).1 = Ok data
           ∧ odict_get c out
             = Some {| stats_name := source_name source;
                       stats_description := source_description source;
                       stats_domain := source_domain source;
                       stats_entries := length data;
                       stats_indexed := odict_mem c (indexes s) |}).
Proof.
  revert stats. induction sources as [|[c0 src0] sources IH]; intros stats.
  - cbn [collect_stats]. intros [= <-]. split; [|split].
    + intros c Hc. by apply elem_of_nil in Hc.
    + done.
    + intros _ _. split; [by rewrite app_nil_r|]. intros c source Hg. done.
  - rewrite collect_stats_cons.
    destruct (load_corpus c0 s).1 as [data0|e] eqn:Hl0; [|done].
    intros Hout. destruct (IH _ Hout) as (Hloads & Hframe & Hkeys).
    split; [|split].
    + intros c [->|Hc]%elem_of_cons; [by exists data0|by apply Hloads].
    + intros c [Hc0 Hc]%not_elem_of_cons. rewrite Hframe by done.
      by rewrite odict_get_set_ne.
    + intros [Hnotin Hnd]%NoDup_cons Hnone.
      destruct Hkeys as [Hk Hitems]; [done| |].
      { intros c Hc. rewrite odict_get_set_ne by (by intros ->).
        apply Hnone. by apply list_elem_of_further. }
      split.
      * rewrite Hk, odict_keys_set.
        rewrite (proj2 (odict_mem_false c0 stats))
          by apply Hnone, list_elem_of_here.
        by rewrite <- app_assoc.
      * intros c source. cbn [odict_get].
        destruct (decide (c = c0)) as [->|Hne].
        -- intros [= <-]. exists data0. split; [done|].
           rewrite Hframe by done. apply odict_get_set_eq.
        -- apply Hitems.
Qed.

Lemma collect_stats_total sources stats s :
  (∀ c, c ∈ odict_keys sources → ∃ data, (load_corpus c s).1 = Ok data) →
  ∃ out, (collect_stats sources stats s).1 = Ok out.
Proof.
  revert stats. induction sources as [|[c0 src0] sources IH]; intros stats Hl.
  - by exists stats.
  - rewrite collect_stats_cons.
    destruct (Hl c0) as [data0 ->]; [apply list_elem_of_here|].
    apply IH. intros c Hc. apply Hl. by apply list_elem_of_further.
Qed.

(** On a corpus file in the shape [save_corpus] writes, or on none,
    [load_corpus] returns. *)
Lemma load_corpus_typed c s :
  corpus_file_typed s c → ∃ data, (load_corpus c s).1 = Ok data.
Proof.
  unfold corpus_file_typed. intros Ht.
  destruct (fs s !! os_path_join (corpus_dir s) (c +:+ ".json"))
    as [f|] eqn:Hf; [|rewrite load_corpus_absent by done; by eexists].
  destruct f as [[| | |corpus_info]| |]; try done.
  unfold load_corpus. munfold. simpl. rewrite Hf.
  rewrite bool_decide_true by eauto. simpl. rewrite Hf.
  destruct (json_get "data" corpus_info) as [v|]; [|by eexists].
  destruct Ht as [data ->]. by eexists.
Qed.

Lemma load_corpus_returns_typed c s data :
  (load_corpus c s).1 = Ok data → corpus_file_typed s c.
Proof.
  unfold corpus_file_typed.
  destruct (fs s !! os_path_join (corpus_dir s) (c +:+ ".json"))
    as [f|] eqn:Hf; [|done].
  unfold load_corpus. munfold. simpl. rewrite Hf.
  rewrite bool_decide_true by eauto. simpl. rewrite Hf.
  destruct f as [[| | |corpus_info]| |]; try done.
  destruct (json_get "data" corpus_info) as [v|]; [|done].
  destruct (entries_of_json v); [eauto|done].
Qed.

End StatsFacts.

Section StatsTheorems.
Context `{Services}.

(** X13. When the corpus file of every source is absent or holds a list
    of entries under 'data' (or no 'data' at all), [get_corpus_stats]
    returns and only reads: the state after it is the state before it. The
    result has one item per source, in the order of [corpus_sources], whose
    entry count is the length of the loaded entry list and whose [indexed]
    flag tells whether an index is registered under the name, whatever is
    on disk. *)
Theorem get_corpus_stats_reads s :
  (∀ c, c ∈ odict_keys corpus_sources → corpus_file_typed s c) →
  (get_corpus_stats s).2 = s
  ∧ ∃ stats, (get_corpus_stats s).1 = Ok stats
      ∧ odict_keys stats = odict_keys corpus_sources
      ∧ ∀ c source, odict_get c corpus_sources = Some source →
          ∃ data, (load_corpus c s).1 = Ok data
            ∧ odict_get c stats
              = Some {| stats_name := source_name source;
                        stats_description := source_description source;
                        stats_domain := source_domain source;
                        stats_entries := length data;
                        stats_indexed := odict_mem c (indexes s) |}.
Proof.
  intros Htyped. unfold get_corpus_stats.
  split; [apply collect_stats_state|].
  destruct (collect_stats_total corpus_sources [] s) as [stats Hs].
  { intros c Hc. by apply load_corpus_typed, Htyped. }
  exists stats. split; [exact Hs|].
  destruct (collect_stats_spec _ _ _ _ Hs) as (_ & _ & Hk).
  destruct Hk as [Hk Hitems]; [apply sample_names_NoDup|done|]. done.
Qed.

End StatsTheorems.

Section LanguageFacts.
Context `{Services}.

(** Every sample entry has the same five languages. *)
Lemma sample_entries_languages :
  Forall (λ item : string * list Entry,
            Forall (λ e : Entry,
                      dom e = ({[ "en"; "es"; "fr"; "de"; "ur" ]} : gset string))
              item.2) corpus_data.
Proof. apply (bool_decide_unpack _). vm_compute. exact I. Qed.

Lemma sample_entry_language c data (e : Entry) lang :
  odict_get c corpus_data = Some data → e ∈ data →
  lang ∉ ["en"; "es"; "fr"; "de"; "ur"] → e !! lang = None.
Proof.
  intros Hg He Hlang. apply odict_get_elem in Hg.
  pose proof sample_entries_languages as Hall.
  generalize dependent corpus_data. intros l Hg Hall.
  apply (proj1 (Forall_forall _ _) Hall (c, data)) in Hg. simpl in Hg.
  apply (proj1 (Forall_forall _ _) Hg e) in He.
  apply not_elem_of_dom. rewrite He. intros Hin. apply Hlang.
  rewrite !elem_of_union, !elem_of_singleton in Hin.
  rewrite !elem_of_cons. tauto.
Qed.

End LanguageFacts.


Section LanguageTheorems.
Context `{Services}.

(** X14. The sample corpora carry five languages, though every corpus
    source lists thirteen. After [initialize_all_corpora] on a new manager
    whose directory holds no index of a sample corpus, a request for context
    at least one context example in any language other than en, es, fr, de
    and ur returns the empty string, whatever the query: no registered
    record has a text in that language. *)
Theorem context_examples_only_sample_languages s query target_language max_examples :
  storage_ok (fs s) → indexes s = [] →
  (∀ c, c ∈ odict_keys corpus_sources →
     fs s !! os_path_join (corpus_dir s) (c +:+ "_index.faiss") = None
     ∨ fs s !! os_path_join (corpus_dir s) (c +:+ "_metadata.pkl") = None) →
  (∀ xb, Forall (λ h : Q * Z, -1 ≤ h.2)
           (index_search xb (query_matrix query) (max_examples * 2))) →
  target_language ∉ ["en"; "es"; "fr"; "de"; "ur"] →
  0 < max_examples →
  (get_context_examples query target_language max_examples
     (initialize_all_corpora s).2).1 = Ok "".
Proof.
  intros Hok Hnil Hfresh Hlab Hlang _.
  destruct (initialize_all_corpora_spec s Hok)
    as (_ & _ & _ & Hok' & Hall & _ & Hkeys).
  specialize (Hkeys Hnil).
  assert (aligned (initialize_all_corpora s).2) as Hal.
  { apply initialize_all_corpora_consistent; [|done].
    intros c ix. by rewrite Hnil. }
  remember ((initialize_all_corpora s).2) as s' eqn:Es'. clear Es'.
  rewrite get_context_examples_unfold. cbn [fst].
  destruct (search_similar_texts_total query None (max_examples * 2) s' Hal Hok' Hlab)
    as [rs Hrs].
  rewrite Hrs. f_equal.
  rewrite collect_examples_take, omap_example_none; [by rewrite take_nil|].
  pose proof (search_similar_texts_frame query None (max_examples * 2) s')
    as (_ & _ & _ & Hsame).
  destruct Hsame as [Hix Hmd]; [by left|].
  rewrite search_similar_texts_candidates in Hrs, Hix, Hmd.
  destruct (candidates query None (max_examples * 2) s') as [[cands|e] s'']
    eqn:Hc; [|done].
  cbn [fst snd] in Hrs, Hix, Hmd. injection Hrs as <-.
  pose proof (candidates_stored _ _ _ _ _ _ Hc) as Hst.
  apply Forall_forall. intros r Hr.
  apply py_slice_to_subseteq in Hr. rewrite sort_desc_perm in Hr.
  apply (proj1 (Forall_forall _ _) Hst) in Hr
    as (Hin & ix & md & idx & _ & Hmdr & Hrec & _).
  unfold corpora_to_search in Hin. cbn [truthy] in Hin.
  rewrite Hix, Hkeys in Hin. rewrite Hmd in Hmdr.
  destruct (sample_table _ Hin) as (data & Hg & _ & _).
  destruct (Hall _ data Hg) as (ix' & md' & _ & Hmd' & _ & _ & _ & _ & _ & Hbuilt).
  destruct (Hbuilt (Hfresh _ Hin)) as [_ ->].
  assert (md = (extract_texts (corpus_name r) "en" 0 data).2) as -> by congruence.
  destruct (extract_texts (corpus_name r) "en" 0 data) as [texts md0] eqn:Hex.
  apply extract_texts_positions in Hex.
  apply (proj1 (Forall_forall _ _) Hex) in Hrec as [_ Hlook].
  apply (sample_entry_language (corpus_name r) data); [done| |done].
  by eapply list_elem_of_lookup_2.
Qed.

End LanguageTheorems.

Section AccuracyFacts.
Context `{Services}.

Lemma load_test_corpora_cons c rest loaded corpora s :
  load_test_corpora (c :: rest) loaded corpora s
  = match (load_corpus c s).1 with
    | Ok data =>
        if bool_decide (data ≠ []) then
          match load_vector_index c s with
          | (Ok true, s2) =>
              load_test_corpora rest (loaded ++ [c]) (odict_set c data corpora) s2
          | (Ok false, s2) =>
              load_test_corpora rest loaded (odict_set c data corpora) s2
          | (Raise _, s2) =>
              load_test_corpora rest loaded (odict_set c data corpora) s2
          end
        else load_test_corpora rest loaded corpora s
    | Raise _ => load_test_corpora rest loaded corpora s
    end.
Proof.
  cbn [load_test_corpora].
  pose proof (load_corpus_state c s) as Hs.
  destruct (load_corpus c s) as [[data|e] s1]; simpl in Hs; subst s1; done.
Qed.

Lemma loadable_ext s s' c :
  corpus_dir s' = corpus_dir s → fs s' = fs s → loadable s' c = loadable s c.
Proof.
  intros Hd Hf. unfold loadable.
  rewrite (load_corpus_ext c s s') by (done || by rewrite Hf).
  by rewrite Hd, Hf.
Qed.

Lemma loadable_true s c :
  loadable s c = true →
  (∃ data, (load_corpus c s).1 = Ok data ∧ data ≠ [])
  ∧ is_Some (fs s !! os_path_join (corpus_dir s) (c +:+ "_index.faiss"))
  ∧ is_Some (fs s !! os_path_join (corpus_dir s) (c +:+ "_metadata.pkl")).
Proof.
  unfold loadable. destruct (load_corpus c s).1 as [[|e data]|]; [done| |done].
  intros [Hi Hm]%andb_prop. apply bool_decide_eq_true in Hi, Hm.
  split; [|done]. by exists (e :: data).
Qed.

Lemma load_test_corpora_spec test_corpora loaded corpora s :
  storage_ok (fs s) →
  let r := load_test_corpora test_corpora loaded corpora s in
  r.1.1 = loaded ++ filter (λ c, loadable s c = true) test_corpora
  ∧ fs r.2 = fs s ∧ calls r.2 = calls s ∧ corpus_dir r.2 = corpus_dir s
  ∧ (aligned s → aligned r.2)
  ∧ (∀ c, c ∉ filter (λ c, loadable s c = true) test_corpora →
       odict_get c (indexes r.2) = odict_get c (indexes s)
       ∧ metadata r.2 !! c = metadata s !! c)
  ∧ (∀ c, c ∈ filter (λ c, loadable s c = true) test_corpora →
       ∃ ix md,
         odict_get c (indexes r.2) = Some ix ∧ metadata r.2 !! c = Some md
         ∧ fs s !! os_path_join (corpus_dir s) (c +:+ "_index.faiss")
           = Some (FaissFile ix)
         ∧ fs s !! os_path_join (corpus_dir s) (c +:+ "_metadata.pkl")
           = Some (PickleFile md)
         ∧ md ≠ [] ∧ ntotal ix = length md)
  ∧ (∀ c data, (load_corpus c s).1 = Ok data → data ≠ [] →
       c ∈ test_corpora ∨ odict_get c corpora = Some data →
       odict_get c r.1.2 = Some data).
Proof.
  revert loaded corpora s.
  induction test_corpora as [|c0 rest IH]; intros loaded corpora s Hok; cbv zeta.
  - cbn [load_test_corpora fst snd]. rewrite filter_nil, app_nil_r.
    repeat (split; [done|]). split.
    + intros c Hc. by apply elem_of_nil in Hc.
    + intros c data _ _ [Hc|Hc]; [by apply elem_of_nil in Hc|done].
  - rewrite load_test_corpora_cons.
    assert (loadable s c0 = false →
            ∀ corpora',
              (∀ c data, (load_corpus c s).1 = Ok data → data ≠ [] →
                 c ∈ c0 :: rest ∨ odict_get c corpora = Some data →
                 c ∈ rest ∨ odict_get c corpora' = Some data) →
              let r := load_test_corpora rest loaded corpora' s in
              r.1.1 = loaded ++ filter (λ c, loadable s c = true) (c0 :: rest)
              ∧ fs r.2 = fs s ∧ calls r.2 = calls s ∧ corpus_dir r.2 = corpus_dir s
              ∧ (aligned s → aligned r.2)
              ∧ (∀ c, c ∉ filter (λ c, loadable s c = true) (c0 :: rest) →
                   odict_get c (indexes r.2) = odict_get c (indexes s)
                   ∧ metadata r.2 !! c = metadata s !! c)
              ∧ (∀ c, c ∈ filter (λ c, loadable s c = true) (c0 :: rest) →
                   ∃ ix md,
                     odict_get c (indexes r.2) = Some ix
                     ∧ metadata r.2 !! c = Some md
                     ∧ fs s !! os_path_join (corpus_dir s) (c +:+ "_index.faiss")
                       = Some (FaissFile ix)
                     ∧ fs s !! os_path_join (corpus_dir s) (c +:+ "_metadata.pkl")
                       = Some (PickleFile md)
                     ∧ md ≠ [] ∧ ntotal ix = length md)
              ∧ (∀ c data, (load_corpus c s).1 = Ok data → data ≠ [] →
                   c ∈ c0 :: rest ∨ odict_get c corpora = Some data →
                   odict_get c r.1.2 = Some data)) as Hskip.
    { intros Hno corpora' Hcorp. cbv zeta.
      rewrite filter_cons_False by (by rewrite Hno).
      destruct (IH loaded corpora' s Hok)
        as (I1 & I2 & I3 & I4 & I5 & I6 & I7 & I8).
      repeat (split; [done|]). intros c data Hl Hd Hc. apply I8; auto. }
    assert (∀ data0, (load_corpus c0 s).1 = Ok data0 → data0 ≠ [] →
              ∀ c data, (load_corpus c s).1 = Ok data → data ≠ [] →
                c ∈ c0 :: rest ∨ odict_get c corpora = Some data →
                c ∈ rest ∨ odict_get c (odict_set c0 data0 corpora) = Some data)
      as Hset.
    { intros data0 Hl0 Hd0 c data Hl Hd [[->|Hc]%elem_of_cons|Hc].
      - right. rewrite odict_get_set_eq. congruence.
      - by left.
      - right. destruct (decide (c = c0)) as [->|Hne].
        + rewrite odict_get_set_eq. congruence.
        + by rewrite odict_get_set_ne. }
    destruct (load_corpus c0 s).1 as [data|e] eqn:Hl.
    2: { apply Hskip; [unfold loadable; by rewrite Hl|].
         intros c data Hlc Hd [[->|Hc]%elem_of_cons|Hc]; [congruence|auto..]. }
    case_bool_decide as Hdata.
    2: { apply Hskip; [unfold loadable; rewrite Hl; by destruct data|].
         intros c data' Hlc Hd [[->|Hc]%elem_of_cons|Hc]; [|auto..].
         destruct Hdata. congruence. }
    destruct (load_vector_index_ok c0 s Hok)
      as [Hfalse | (ix & md & Hi & Hm & Hne & Hlen & Hload)].
    + rewrite Hfalse. apply Hskip; [|by apply Hset].
      destruct (loadable s c0) eqn:Hyes; [|done].
      apply loadable_true in Hyes as (_ & [fi Hi] & [fm Hm]).
      pose proof Hi as Hi'. pose proof Hm as Hm'.
      rewrite os_path_join_suffix in Hi' by done.
      rewrite os_path_join_suffix in Hm' by done.
      destruct (Hok _ _ _ Hi' Hm') as (ix & md & -> & -> & _).
      by rewrite (load_vector_index_present c0 ix md) in Hfalse.
    + rewrite Hload.
      set (s2 := with_metadata <[c0 := md]> (with_indexes (odict_set c0 ix) s)).
      assert (loadable s c0 = true) as Hyes.
      { unfold loadable. rewrite Hl, Hi, Hm. destruct data; [done|].
        by rewrite !bool_decide_true by eauto. }
      assert (∀ c, loadable s2 c = loadable s c) as Hsame
        by (intros c; by apply loadable_ext).
      assert (filter (λ c, loadable s2 c = true) rest
              = filter (λ c, loadable s c = true) rest) as Hfilter.
      { apply list_filter_iff. intros c. by rewrite Hsame. }
      rewrite filter_cons_True by done.
      destruct (IH (loaded ++ [c0]) (odict_set c0 data corpora) s2 Hok)
        as (I1 & I2 & I3 & I4 & I5 & I6 & I7 & I8).
      rewrite Hfilter in I1, I6, I7.
      remember (load_test_corpora rest (loaded ++ [c0])
                  (odict_set c0 data corpora) s2) as r eqn:Er. clear Er.
      split; [by rewrite I1, <- app_assoc|].
      split; [done|]. split; [done|]. split; [done|]. split.
      { intros Hal. apply I5. by apply aligned_register. }
      split; [|split].
      * intros c [Hc0 Hc]%not_elem_of_cons. destruct (I6 c Hc) as [-> ->].
        unfold s2. simpl. by rewrite odict_get_set_ne, lookup_insert_ne.
      * intros c Hc.
        destruct (decide (c ∈ filter (λ c, loadable s c = true) rest))
          as [Hin|Hnotin].
        -- apply (I7 c Hin).
        -- apply elem_of_cons in Hc as [->|Hc]; [|done].
           destruct (I6 c0 Hnotin) as [-> ->].
           exists ix, md. unfold s2. simpl.
           by rewrite odict_get_set_eq, lookup_insert_eq.
      * intros c data' Hlc Hd Hc. apply I8; [|done|by apply (Hset data)].
        by rewrite (load_corpus_ext c s s2).
Qed.

Lemma named_search_with_calls query c k evs s :
  c ≠ "" → is_Some (odict_get c (indexes s)) →
  (search_similar_texts query (Some c) k (with_calls evs s)).1
  = (search_similar_texts query (Some c) k s).1.
Proof.
  intros Hc [ix Hix].
  rewrite (named_search_outcome query c k (with_calls evs s) ix) by done.
  by rewrite (named_search_outcome query c k s ix) by done.
Qed.

Lemma named_search_state query c k s :
  is_Some (odict_get c (indexes s)) →
  ∃ evs, (search_similar_texts query (Some c) k s).2 = with_calls evs s.
Proof.
  intros Hreg. rewrite search_similar_texts_candidates. cbn [snd].
  destruct (candidates_state query (Some c) k s) as (evs & -> & _).
  exists evs. by rewrite ensure_loaded_skip by (by right).
Qed.

Lemma classify_cons query c rest best s :
  classify query (c :: rest) best s
  = classify query rest
      (update_best c (search_similar_texts query (Some c) 1 s).1 best)
      (search_similar_texts query (Some c) 1 s).2.
Proof.
  cbn [classify]. by destruct (search_similar_texts query (Some c) 1 s).
Qed.

(** On registered corpora the loop only adds to the log of calls, and each
    search returns what it returns in the state before the loop. *)
Lemma classify_run query loaded best evs s :
  (∀ c, c ∈ loaded → c ≠ "" ∧ is_Some (odict_get c (indexes s))) →
  ∃ evs',
    classify query loaded best (with_calls evs s)
    = (foldl (λ b c, update_best c (search_similar_texts query (Some c) 1 s).1 b)
         best loaded,
       with_calls evs' s).
Proof.
  revert best evs. induction loaded as [|c rest IH]; intros best evs Hreg.
  - by exists evs.
  - destruct (Hreg c) as [Hc Hix]; [apply list_elem_of_here|].
    rewrite classify_cons, named_search_with_calls by done.
    destruct (named_search_state query c 1 (with_calls evs s) Hix) as [evs1 ->].
    rewrite with_calls_app.
    destruct (IH (update_best c (search_similar_texts query (Some c) 1 s).1 best)
                (evs ++ evs1)) as [evs' ->].
    { intros c' Hc'. apply Hreg. by apply list_elem_of_further. }
    by exists evs'.
Qed.

Lemma update_best_top s query c best :
  update_best c (search_similar_texts query (Some c) 1 s).1 best
  = match top_result s query c with
    | Some res =>
        if score_lt (best_score best) (similarity_score res)
        then {| best_score := similarity_score res; best_corpus := Some c;
                best_result := Some res |}
        else best
    | None => best
    end.
Proof.
  unfold update_best, top_result.
  by destruct (search_similar_texts query (Some c) 1 s).1 as [[|res rs]|e].
Qed.

Lemma best_of_step s query seen c best :
  best_of s query seen best →
  best_of s query (seen ++ [c])
    (update_best c (search_similar_texts query (Some c) 1 s).1 best).
Proof.
  intros Hb. rewrite update_best_top.
  destruct (top_result s query c) as [res|] eqn:Htop.
  - destruct (score_lt (best_score best) (similarity_score res)) eqn:Hlt.
    + apply score_lt_true in Hlt. unfold best_of in *. cbn [best_corpus].
      exists res, seen, []. split; [done|]. split; [done|].
      split; [done|]. split; [done|].
      destruct (best_corpus best) as [c0|].
      * destruct Hb as (res0 & l1 & l2 & -> & Ht0 & _ & Hs0 & Hpos & Hl1 & Hl2).
        rewrite Hs0 in Hlt. split; [by eapply Qlt_trans|]. split.
        -- intros c' res' [Hc'|[->|Hc']%elem_of_cons]%elem_of_app Ht'.
           ++ eapply Qlt_trans; [by eapply Hl1|done].
           ++ assert (res' = res0) as -> by congruence. done.
           ++ eapply Qle_lt_trans; [by eapply Hl2|done].
        -- intros c' res' Hc'. by apply elem_of_nil in Hc'.
      * destruct Hb as (_ & Hs0 & Hall). rewrite Hs0 in Hlt.
        split; [done|]. split.
        -- intros c' res' Hc' Ht'. eapply Qle_lt_trans; [by eapply Hall|done].
        -- intros c' res' Hc'. by apply elem_of_nil in Hc'.
    + apply score_lt_false in Hlt. unfold best_of in *.
      destruct (best_corpus best) as [c0|].
      * destruct Hb as (res0 & l1 & l2 & -> & Ht0 & Hr0 & Hs0 & Hpos & Hl1 & Hl2).
        exists res0, l1, (l2 ++ [c]). rewrite <- app_assoc. 
        repeat (split; [done|]).
        intros c' res' [Hc'|Hc']%elem_of_app Ht'; [by eapply Hl2|].
        apply list_elem_of_singleton in Hc' as ->.
        assert (res' = res) as -> by congruence. by rewrite <- Hs0.
      * destruct Hb as (Hr0 & Hs0 & Hall). repeat (split; [done|]).
        intros c' res' [Hc'|Hc']%elem_of_app Ht'; [by eapply Hall|].
        apply list_elem_of_singleton in Hc' as ->.
        assert (res' = res) as -> by congruence. by rewrite <- Hs0.
  - unfold best_of in *. destruct (best_corpus best) as [c0|].
    + destruct Hb as (res0 & l1 & l2 & -> & Ht0 & Hr0 & Hs0 & Hpos & Hl1 & Hl2).
      exists res0, l1, (l2 ++ [c]). rewrite <- app_assoc.
      repeat (split; [done|]).
      intros c' res' [Hc'|Hc']%elem_of_app Ht'; [by eapply Hl2|].
      apply list_elem_of_singleton in Hc' as ->. congruence.
    + destruct Hb as (Hr0 & Hs0 & Hall). repeat (split; [done|]).
      intros c' res' [Hc'|Hc']%elem_of_app Ht'; [by eapply Hall|].
      apply list_elem_of_singleton in Hc' as ->. congruence.
Qed.

Lemma best_of_foldl s query rest seen best :
  best_of s query seen best →
  best_of s query (seen ++ rest)
    (foldl (λ b c, update_best c (search_similar_texts query (Some c) 1 s).1 b)
       best rest).
Proof.
  revert seen best. induction rest as [|c rest IH]; intros seen best Hb.
  - by rewrite app_nil_r.
  - cbn [foldl]. rewrite (cons_middle c seen rest), app_assoc.
    apply IH. by apply best_of_step.
Qed.

End AccuracyFacts.


Section AccuracyTheorems.
Context `{Services}.

Lemma test_corpora_sources :
  Forall (λ c, c ∈ odict_keys corpus_sources) test_corpora.
Proof. apply (bool_decide_unpack _). vm_compute. exact I. Qed.

(** X15. The loading loop of test_accuracy_final.py on files in shape,
    where the corpus file of each corpus to load is absent or holds a list
    of entries under 'data' (or no 'data' at all). It appends to
    [loaded_corpora], in the order of the list it is given, exactly the
    corpora whose corpus file loads a list that is not empty and whose
    index file and metadata file both exist. It writes no file, embeds no
    text, builds no index, adds no row and runs no search (the log of these
    calls is what it was; the indexes come from [faiss.read_index], which
    the log does not record); every corpus it reports as loaded is
    registered with the pair its two files hold, of equal length, and has
    its entry list in [cm.corpora]; an aligned registry stays aligned. *)
Theorem load_test_corpora_loads s corpora_to_load :
  storage_ok (fs s) →
  (∀ c, c ∈ corpora_to_load → corpus_file_typed s c) →
  let r := load_test_corpora corpora_to_load [] [] s in
  r.1.1 = filter (λ c, loadable s c = true) corpora_to_load
  ∧ fs r.2 = fs s ∧ calls r.2 = calls s
  ∧ (aligned s → aligned r.2)
  ∧ (∀ c, c ∈ r.1.1 →
       ∃ ix md data,
         odict_get c (indexes r.2) = Some ix ∧ metadata r.2 !! c = Some md
         ∧ fs s !! os_path_join (corpus_dir s) (c +:+ "_index.faiss")
           = Some (FaissFile ix)
         ∧ fs s !! os_path_join (corpus_dir s) (c +:+ "_metadata.pkl")
           = Some (PickleFile md)
         ∧ md ≠ [] ∧ ntotal ix = length md
         ∧ (load_corpus c s).1 = Ok data ∧ data ≠ []
         ∧ odict_get c r.1.2 = Some data).
Proof.
  intros Hok _. cbv zeta.
  destruct (load_test_corpora_spec corpora_to_load [] [] s Hok)
    as (I1 & I2 & I3 & _ & I5 & _ & I7 & I8).
  remember (load_test_corpora corpora_to_load [] [] s) as r eqn:Er. clear Er.
  rewrite app_nil_l in I1.
  split; [done|]. split; [done|]. split; [done|]. split; [done|].
  intros c Hc. rewrite I1 in Hc.
  destruct (I7 c Hc) as (ix & md & ? & ? & ? & ? & ? & ?).
  pose proof Hc as Hc'. apply list_elem_of_filter in Hc' as [Hload Hin].
  apply loadable_true in Hload as ((data & Hl & Hd) & _ & _).
  exists ix, md, data. repeat (split; [done|]). apply I8; auto.
Qed.

(** X16. The classification loop of test_accuracy_final.py over corpora
    that are registered under names that are not empty. It changes nothing
    but the log of calls, and it ends with the first corpus of the list
    whose best result has the greatest score: every corpus before it has a
    strictly lower best score, every corpus after it none that is higher.
    A best score of -1 or less never wins; when no corpus has a result
    above -1 the loop ends without a best corpus. *)
Theorem classify_picks_first_best s query loaded_corpora :
  (∀ c, c ∈ loaded_corpora → c ≠ "" ∧ is_Some (odict_get c (indexes s))) →
  let r := classify query loaded_corpora no_best s in
  indexes r.2 = indexes s ∧ metadata r.2 = metadata s ∧ fs r.2 = fs s
  ∧ match best_corpus r.1 with
    | None =>
        best_result r.1 = None
        ∧ ∀ c res, c ∈ loaded_corpora → top_result s query c = Some res →
            (similarity_score res <= -1)%Q
    | Some c =>
        ∃ res l1 l2,
          loaded_corpora = l1 ++ c :: l2
          ∧ top_result s query c = Some res
          ∧ best_result r.1 = Some res
          ∧ best_score r.1 = similarity_score res
          ∧ (-1 < similarity_score res)%Q
          ∧ (∀ c' res', c' ∈ l1 → top_result s query c' = Some res' →
               (similarity_score res' < similarity_score res)%Q)
          ∧ (∀ c' res', c' ∈ l2 → top_result s query c' = Some res' →
               (similarity_score res' <= similarity_score res)%Q)
    end.
Proof.
  intros Hreg. cbv zeta.
  destruct (classify_run query loaded_corpora no_best [] s Hreg) as [evs Hrun].
  rewrite with_calls_nil in Hrun. rewrite Hrun. cbn [fst snd].
  split; [done|]. split; [done|]. split; [done|].
  assert (best_of s query [] no_best) as Hb0.
  { unfold best_of. cbn [best_corpus no_best]. repeat (split; [done|]).
    intros c' res Hc'. by apply elem_of_nil in Hc'. }
  apply (best_of_foldl s query loaded_corpora) in Hb0.
  rewrite app_nil_l in Hb0. unfold best_of in Hb0.
  remember (foldl (λ b c, update_best c (search_similar_texts query (Some c) 1 s).1 b)
              no_best loaded_corpora) as best eqn:Eb. clear Eb.
  destruct (best_corpus best) as [c|]; [done|].
  destruct Hb0 as (Hr & _ & Hall). done.
Qed.

End AccuracyTheorems.

Section ScriptTheorems.
Context `{Services}.

Lemma sample_corpora_load_after_initialize s now l :
  Forall (λ c, c ∈ odict_keys corpus_sources) l →
  storage_ok (fs s) →
  (load_test_corpora l [] []
     (CorpusManager_init (corpus_dir (initialize_all_corpora s).2)
        (vector_dim (initialize_all_corpora s).2)
        (fs (initialize_all_corpora s).2) now)).1.1
  = l.
Proof.
  intros Hl Hok.
  destruct (initialize_all_corpora_spec s Hok)
    as (_ & Hd & _ & Hok' & Hall & _ & _).
  remember ((initialize_all_corpora s).2) as s1 eqn:Es1. clear Es1.
  remember (CorpusManager_init (corpus_dir s1) (vector_dim s1) (fs s1) now)
    as s2 eqn:Es2.
  assert (corpus_dir s2 = corpus_dir s1 ∧ fs s2 = fs s1) as [Hd2 Hf2]
    by (by subst s2).
  clear Es2. rewrite <- Hf2 in Hok'.
  destruct (load_test_corpora_spec l [] [] s2 Hok') as (I1 & _).
  rewrite I1, app_nil_l.
  assert (∀ c, c ∈ l → loadable s2 c = true) as Hyes.
  { intros c Hc.
    assert (c ∈ odict_keys corpus_sources) as Hsrc
      by (by apply (proj1 (Forall_forall _ _) Hl)).
    destruct (sample_table c Hsrc) as (data & Hg & _ & Hne).
    destruct (Hall c data Hg) as (ix & md & _ & _ & _ & _ & Hi & Hm & Hlc & _).
    unfold loadable.
    rewrite (load_corpus_ext c s1 s2) by (done || by rewrite Hf2).
    rewrite Hlc. destruct data; [done|].
    rewrite Hd2, Hf2, Hd, Hi, Hm. by rewrite !bool_decide_true by eauto. }
  clear -Hyes. induction l as [|c l IH]; [done|].
  rewrite filter_cons_True by apply Hyes, list_elem_of_here.
  f_equal. apply IH. intros c' Hc'. by apply Hyes, list_elem_of_further.
Qed.

(** X17. After [initialize_all_corpora], a new manager on the same
    directory loads all four corpora of the test script: the loading loop
    ends with [loaded_corpora] equal to the list of line 21. *)
Theorem test_corpora_load_after_initialize s now :
  storage_ok (fs s) →
  let s1 := (initialize_all_corpora s).2 in
  (load_test_corpora test_corpora [] []
     (CorpusManager_init (corpus_dir s1) (vector_dim s1) (fs s1) now)).1.1
  = test_corpora.
Proof.
  intros Hok.
  exact (sample_corpora_load_after_initialize s now test_corpora
           test_corpora_sources Hok).
Qed.

End ScriptTheorems.

Section ReportTheorems.
Context `{Services}.

(** X18. After [initialize_all_corpora] on files in shape,
    [get_corpus_stats] returns one item per corpus source, in the order of
    [corpus_sources]; each item carries the name, description and domain of
    its source, reports the corpus as indexed, and counts as many entries
    as the sample table of the corpus lists. *)
Theorem get_corpus_stats_after_initialize s :
  storage_ok (fs s) →
  ∃ stats,
    (get_corpus_stats (initialize_all_corpora s).2).1 = Ok stats
    ∧ odict_keys stats = odict_keys corpus_sources
    ∧ ∀ c source data,
        odict_get c corpus_sources = Some source →
        odict_get c corpus_data = Some data →
        odict_get c stats
        = Some {| stats_name := source_name source;
                  stats_description := source_description source;
                  stats_domain := source_domain source;
                  stats_entries := length data;
                  stats_indexed := true |}.
Proof.
  intros Hok.
  destruct (initialize_all_corpora_spec s Hok) as (_ & _ & _ & _ & Hall & _).
  remember ((initialize_all_corpora s).2) as s' eqn:Es'. clear Es'.
  unfold get_corpus_stats.
  destruct (collect_stats_total corpus_sources [] s') as [stats Hstats].
  { intros c Hc. destruct (sample_table c Hc) as (data & Hg & _).
    destruct (Hall c data Hg) as (ix & md & _ & _ & _ & _ & _ & _ & Hl & _).
    by exists data. }
  exists stats. split; [done|].
  destruct (collect_stats_spec _ _ _ _ Hstats) as (_ & _ & Hk).
  destruct Hk as [Hk Hitems]; [apply sample_names_NoDup|done|].
  split; [done|]. intros c source data Hsrc Hg.
  destruct (Hitems c source Hsrc) as (data' & Hl' & ->).
  destruct (Hall c data Hg) as (ix & md & Hix & _ & _ & _ & _ & _ & Hl & _).
  assert (data' = data) as -> by congruence.
  by rewrite (proj2 (odict_mem_true c (indexes s'))) by eauto.
Qed.

End ReportTheorems.

(** ** The further properties on the small installation *)

Lemma insert_hit_Forall (P : Q * Z → Prop) h l :
  P h → Forall P l → Forall P (insert_hit h l).
Proof.
  intros Hh Hl. induction Hl as [|x l Hx Hl IH]; simpl.
  - by constructor.
  - destruct (score_lt h.1 x.1); by repeat constructor.
Qed.

(** The labels of the reference index are positions or [-1]. *)
Lemma flat_ip_search_labels xb q k :
  Forall (λ h : Q * Z, -1 ≤ h.2) (flat_ip_search xb q k).
Proof.
  unfold flat_ip_search. apply Forall_take, Forall_app. split.
  - generalize (default [] (head q)). intros q0.
    assert (∀ n, Forall (λ h : Q * Z, -1 ≤ h.2)
                   (foldr insert_hit []
                      (imap (λ i v, (inject_Z (dot q0 v), Z.of_nat (n + i))) xb)))
      as Hn.
    { induction xb as [|v xb IH]; intros n; simpl; [constructor|].
      apply insert_hit_Forall; [simpl; lia|].
      rewrite (imap_ext _ (λ i v, (inject_Z (dot q0 v), Z.of_nat (S n + i)))).
      - apply IH.
      - intros i x _. simpl. do 2 f_equal. lia. }
    apply (Hn 0%nat).
  - apply Forall_replicate. simpl. lia.
Qed.

Lemma build_restart_load_witness :
  (load_corpus (H:=toy) "medical" s_saved).1 = Ok medical_data
  ∧ Exists (λ e : Entry, is_Some (e !! "en")) medical_data
  ∧ ∃ ix md s',
      odict_get "medical" (indexes s_built) = Some ix
      ∧ metadata s_built !! "medical" = Some md
      ∧ load_vector_index (H:=toy) "medical" (restart s_built) = (Ok true, s')
      ∧ indexes s' = [("medical", ix)]
      ∧ metadata s' = {[ "medical" := md ]}.
Proof.
  assert ((load_corpus (H:=toy) "medical" s_saved).1 = Ok medical_data) as Hl
    by (vm_compute; reflexivity).
  assert (Exists (λ e : Entry, is_Some (e !! "en")) medical_data) as He.
  { apply Exists_cons_hd. exists "Blood pressure". vm_compute. reflexivity. }
  split; [exact Hl|]. split; [exact He|].
  exact (build_restart_load (H:=toy) s_saved "medical" "en" medical_data Hl He).
Defined.

Lemma rebuild_idempotent_witness :
  (load_corpus (H:=toy) "medical" s_saved).1 = Ok medical_data
  ∧ Exists (λ e : Entry, is_Some (e !! "en")) medical_data
  ∧ build_vector_index (H:=toy) "medical" "en" s_built
    = (Ok tt, (build_vector_index (H:=toy) "medical" "en" s_built).2)
  ∧ indexes (build_vector_index (H:=toy) "medical" "en" s_built).2 = indexes s_built
  ∧ metadata (build_vector_index (H:=toy) "medical" "en" s_built).2
    = metadata s_built
  ∧ fs (build_vector_index (H:=toy) "medical" "en" s_built).2 = fs s_built.
Proof.
  assert ((load_corpus (H:=toy) "medical" s_saved).1 = Ok medical_data) as Hl
    by (vm_compute; reflexivity).
  assert (Exists (λ e : Entry, is_Some (e !! "en")) medical_data) as He.
  { apply Exists_cons_hd. exists "Blood pressure". vm_compute. reflexivity. }
  split; [exact Hl|]. split; [exact He|].
  exact (rebuild_idempotent (H:=toy) s_saved "medical" "en" medical_data Hl He).
Defined.


(** X4 on the small installation: saving the legal corpus leaves the
    medical corpus as it is. *)
Lemma save_corpus_frame_witness :
  plain_name "legal" = true
  ∧ plain_name "medical" = true
  ∧ save_corpus (H:=toy) "legal" legal_data s_built
    = (Ok tt, (save_corpus (H:=toy) "legal" legal_data s_built).2)
  ∧ indexes (save_corpus (H:=toy) "legal" legal_data s_built).2 = indexes s_built
  ∧ (load_corpus (H:=toy) "medical"
       (save_corpus (H:=toy) "legal" legal_data s_built).2).1
    = (load_corpus (H:=toy) "medical" s_built).1
  ∧ (load_vector_index (H:=toy) "medical"
       (save_corpus (H:=toy) "legal" legal_data s_built).2).1
    = (load_vector_index (H:=toy) "medical" s_built).1.
Proof.
  assert (plain_name "legal" = true) as Hl by reflexivity.
  assert (plain_name "medical" = true) as Hm by reflexivity.
  destruct (save_corpus_frame (H:=toy) s_built "legal" legal_data Hl)
    as (Hrun & Hix & _ & _ & Hload & Hindex).
  destruct (Hindex "medical" Hm) as (Hout & _).
  split; [exact Hl|]. split; [exact Hm|]. split; [exact Hrun|].
  split; [exact Hix|]. split; [|exact Hout].
  apply Hload; [exact Hm|discriminate].
Defined.

Lemma calls_keep_registry_aligned_witness :
  storage_ok (∅ : gmap string (@file toy))
  ∧ (∀ xb q k, Forall (λ h : Q * Z, -1 ≤ h.2) (@index_search toy xb q k))
  ∧ aligned (run_calls client_calls s_init)
  ∧ storage_ok (fs (run_calls client_calls s_init))
  ∧ (∃ rs, (search_similar_texts (H:=toy) "Blood pressure" None 5
              (run_calls client_calls s_init)).1 = Ok rs)
  ∧ (∃ text, (get_context_examples (H:=toy) "Blood pressure" "es" 3
                (run_calls client_calls s_init)).1 = Ok text).
Proof.
  assert (storage_ok (∅ : gmap string (@file toy))) as Hfiles
    by apply storage_ok_empty.
  assert (∀ xb q k, Forall (λ h : Q * Z, -1 ≤ h.2) (@index_search toy xb q k))
    as Hlab by exact flat_ip_search_labels.
  destruct (calls_keep_registry_aligned (H:=toy) "./corpus_data" 3 ∅
              "2024-01-01T00:00:00" client_calls Hfiles)
    as (Hal & Hok & Hret).
  destruct (Hret Hlab) as [Hsearch Hcontext].
  split; [exact Hfiles|]. split; [exact Hlab|]. split; [exact Hal|].
  split; [exact Hok|]. split; [apply Hsearch|apply Hcontext]; lia.
Defined.

Lemma search_results_are_stored_records_witness :
  (search_similar_texts (H:=toy) "Heart rate" None 3 s_two).1
  = Ok [ annotate "medical" 1 (medical_record 1);
         annotate "legal" 1 (legal_record 0);
         annotate "medical" 0 (medical_record 0) ]
  ∧ Forall (λ r,
        corpus_name r
        ∈ corpora_to_search None
            (search_similar_texts (H:=toy) "Heart rate" None 3 s_two).2
        ∧ ∃ ix md idx,
            odict_get (corpus_name r)
              (indexes (search_similar_texts (H:=toy) "Heart rate" None 3 s_two).2)
            = Some ix
            ∧ metadata (search_similar_texts (H:=toy) "Heart rate" None 3 s_two).2
                !! corpus_name r = Some md
            ∧ record r ∈ md
            ∧ (similarity_score r, idx)
              ∈ @index_search toy (xb ix) (@query_matrix toy "Heart rate") 3)
      [ annotate "medical" 1 (medical_record 1);
        annotate "legal" 1 (legal_record 0);
        annotate "medical" 0 (medical_record 0) ].
Proof.
  assert ((search_similar_texts (H:=toy) "Heart rate" None 3 s_two).1
          = Ok [ annotate "medical" 1 (medical_record 1);
                 annotate "legal" 1 (legal_record 0);
                 annotate "medical" 0 (medical_record 0) ]) as Hrs
    by (vm_compute; reflexivity).
  split; [exact Hrs|].
  exact (search_results_are_stored_records (H:=toy) s_two "Heart rate" None 3 _ Hrs).
Defined.

Lemma named_search_depends_on_its_corpus_witness :
  "medical" ≠ ""
  ∧ odict_get "medical" (indexes s_built) = Some medical_index
  ∧ odict_get "medical" (indexes s_two) = Some medical_index
  ∧ metadata s_built !! "medical" = metadata s_two !! "medical"
  ∧ (search_similar_texts (H:=toy) "Heart rate" (Some "medical") 3 s_built).1
    = (search_similar_texts (H:=toy) "Heart rate" (Some "medical") 3 s_two).1.
Proof.
  assert ("medical" ≠ "") as Hn by discriminate.
  assert (odict_get "medical" (indexes s_built) = Some medical_index) as H1
    by (vm_compute; reflexivity).
  assert (odict_get "medical" (indexes s_two) = Some medical_index) as H2
    by (vm_compute; reflexivity).
  assert (metadata s_built !! "medical" = metadata s_two !! "medical") as Hm
    by (vm_compute; reflexivity).
  split; [exact Hn|]. split; [exact H1|]. split; [exact H2|]. split; [exact Hm|].
  exact (named_search_depends_on_its_corpus (H:=toy) s_built s_two "Heart rate"
           "medical" 3 medical_index Hn H1 H2 Hm).
Defined.


Lemma s_init_storage_ok : storage_ok (fs s_init).
Proof. exact (storage_ok_empty (H:=toy)). Qed.

Lemma s_init_fresh c :
  fs s_init !! os_path_join (corpus_dir s_init) (c +:+ "_index.faiss") = None
  ∨ fs s_init !! os_path_join (corpus_dir s_init) (c +:+ "_metadata.pkl") = None.
Proof. left. apply lookup_empty. Qed.

Lemma initialize_all_corpora_registers_witness :
  storage_ok (fs s_init)
  ∧ initialize_all_corpora (H:=toy) s_init = (Ok tt, s_ready)
  ∧ odict_keys (indexes s_ready) = odict_keys corpus_sources
  ∧ ∃ ix md,
      odict_get "medical_terminology" (indexes s_ready) = Some ix
      ∧ metadata s_ready !! "medical_terminology" = Some md
      ∧ ntotal ix = length md
      ∧ (load_corpus (H:=toy) "medical_terminology" s_ready).1
        = Ok Sample.medical_data
      ∧ md = imap (λ i e, {| corpus := "medical_terminology"; index := i;
                            translations := e |}) Sample.medical_data.
Proof.
  pose proof s_init_storage_ok as Hok.
  destruct (initialize_all_corpora_registers (H:=toy) s_init Hok)
    as (Hrun & Hall & Hkeys).
  assert (odict_get "medical_terminology" corpus_data = Some Sample.medical_data)
    as Hg by reflexivity.
  destruct (Hall "medical_terminology" Sample.medical_data Hg)
    as (ix & md & H1 & H2 & _ & H4 & _ & _ & H7 & H8).
  destruct (H8 (s_init_fresh "medical_terminology")) as (Hmd & _).
  split; [exact Hok|]. split; [exact Hrun|]. split; [exact (Hkeys eq_refl)|].
  exists ix, md.
  exact (conj H1 (conj H2 (conj H4 (conj H7 Hmd)))).
Defined.

Lemma s_ready_files c :
  c ∈ odict_keys corpus_sources →
  ∃ ix md,
    fs s_reopened !! os_path_join (corpus_dir s_reopened) (c +:+ "_index.faiss")
    = Some (FaissFile ix)
    ∧ fs s_reopened !! os_path_join (corpus_dir s_reopened) (c +:+ "_metadata.pkl")
      = Some (PickleFile md).
Proof.
  intros Hc.
  destruct (initialize_all_corpora_spec (H:=toy) s_init s_init_storage_ok)
    as (_ & Hd & _ & _ & Hall & _).
  destruct (sample_table c Hc) as (data & Hg & _).
  destruct (Hall c data Hg) as (ix & md & _ & _ & _ & _ & Hi & Hm & _).
  exists ix, md.
  change (corpus_dir s_reopened) with (corpus_dir s_ready).
  change (fs s_reopened) with (fs s_ready).
  unfold s_ready. rewrite Hd. by split.
Qed.

Lemma s_ready_typed c :
  c ∈ odict_keys corpus_sources → corpus_file_typed s_ready c.
Proof.
  intros Hc.
  destruct (initialize_all_corpora_spec (H:=toy) s_init s_init_storage_ok)
    as (_ & _ & _ & _ & Hall & _).
  destruct (sample_table c Hc) as (data & Hg & _).
  destruct (Hall c data Hg) as (ix & md & _ & _ & _ & _ & _ & _ & Hl & _).
  exact (load_corpus_returns_typed (H:=toy) c s_ready data Hl).
Qed.

(** X13 after [initialize_all_corpora] on an empty directory. *)
Lemma get_corpus_stats_reads_witness :
  (∀ c, c ∈ odict_keys corpus_sources → corpus_file_typed s_ready c)
  ∧ (get_corpus_stats (H:=toy) s_ready).2 = s_ready
  ∧ ∃ stats, (get_corpus_stats (H:=toy) s_ready).1 = Ok stats
      ∧ odict_keys stats = odict_keys corpus_sources.
Proof.
  destruct (get_corpus_stats_reads (H:=toy) s_ready s_ready_typed)
    as (Hstate & stats & Hs & Hk & _).
  split; [exact s_ready_typed|]. split; [exact Hstate|].
  exists stats. split; [exact Hs|exact Hk].
Defined.

Lemma initialize_all_corpora_reload_witness :
  (∀ c, c ∈ odict_keys corpus_sources →
     ∃ ix md,
       fs s_reopened !! os_path_join (corpus_dir s_reopened) (c +:+ "_index.faiss")
       = Some (FaissFile ix)
       ∧ fs s_reopened
           !! os_path_join (corpus_dir s_reopened) (c +:+ "_metadata.pkl")
         = Some (PickleFile md))
  ∧ initialize_all_corpora (H:=toy) s_reopened
    = (Ok tt, (initialize_all_corpora (H:=toy) s_reopened).2)
  ∧ calls (initialize_all_corpora (H:=toy) s_reopened).2 = calls s_reopened
  ∧ odict_keys (indexes (initialize_all_corpora (H:=toy) s_reopened).2)
    = odict_keys corpus_sources.
Proof.
  destruct (initialize_all_corpora_reload (H:=toy) s_reopened s_ready_files)
    as (Hrun & Hcalls & _ & _ & Hkeys).
  split; [exact s_ready_files|]. split; [exact Hrun|]. split; [exact Hcalls|].
  exact (Hkeys eq_refl).
Defined.

Lemma context_examples_only_sample_languages_witness :
  storage_ok (fs s_init)
  ∧ indexes s_init = []
  ∧ (∀ c, c ∈ odict_keys corpus_sources →
       fs s_init !! os_path_join (corpus_dir s_init) (c +:+ "_index.faiss") = None
       ∨ fs s_init !! os_path_join (corpus_dir s_init) (c +:+ "_metadata.pkl")
         = None)
  ∧ (∀ xb, Forall (λ h : Q * Z, -1 ≤ h.2)
             (@index_search toy xb (@query_matrix toy "Good morning") (3 * 2)))
  ∧ ("it" ∉ ["en"; "es"; "fr"; "de"; "ur"])
  ∧ 0 < 3
  ∧ (get_context_examples (H:=toy) "Good morning" "it" 3 s_ready).1 = Ok "".
Proof.
  pose proof s_init_storage_ok as Hok.
  assert (indexes s_init = []) as Hnil by reflexivity.
  assert (∀ c, c ∈ odict_keys corpus_sources →
            fs s_init !! os_path_join (corpus_dir s_init) (c +:+ "_index.faiss")
            = None
            ∨ fs s_init !! os_path_join (corpus_dir s_init) (c +:+ "_metadata.pkl")
              = None) as Hfresh by (intros c _; apply s_init_fresh).
  assert (∀ xb, Forall (λ h : Q * Z, -1 ≤ h.2)
                  (@index_search toy xb (@query_matrix toy "Good morning") (3 * 2)))
    as Hlab by (intros xb; apply flat_ip_search_labels).
  assert ("it" ∉ ["en"; "es"; "fr"; "de"; "ur"]) as Hlang.
  { rewrite !not_elem_of_cons. repeat split; try discriminate.
    apply not_elem_of_nil. }
  split; [exact Hok|]. split; [exact Hnil|]. split; [exact Hfresh|].
  assert (0 < 3) as Hpos by lia.
  split; [exact Hlab|]. split; [exact Hlang|]. split; [exact Hpos|].
  exact (context_examples_only_sample_languages (H:=toy) s_init "Good morning"
           "it" 3 Hok Hnil Hfresh Hlab Hlang Hpos).
Defined.

Lemma s_restart_storage_ok : storage_ok (fs s_restart).
Proof.
  destruct (save_corpus_consistent (H:=toy) "medical" medical_data s_init)
    as [Ha Hs]; [by intros c ix|apply s_init_storage_ok|].
  destruct (build_vector_index_consistent (H:=toy) "medical" "en" s_saved Ha Hs)
    as [_ Hs'].
  exact Hs'.
Qed.

Lemma s_restart_typed c :
  c ∈ ["medical"; "legal"] → corpus_file_typed s_restart c.
Proof.
  assert (Forall (corpus_file_typed s_restart) ["medical"; "legal"]) as Hall.
  { apply Forall_cons_2.
    - apply (load_corpus_returns_typed (H:=toy) _ _ medical_data).
      vm_compute. reflexivity.
    - apply Forall_cons_2; [|apply Forall_nil_2].
      apply (load_corpus_returns_typed (H:=toy) _ _ []).
      vm_compute. reflexivity. }
  exact (proj1 (Forall_forall _ _) Hall c).
Qed.

Lemma load_test_corpora_loads_witness :
  storage_ok (fs s_restart)
  ∧ (∀ c, c ∈ ["medical"; "legal"] → corpus_file_typed s_restart c)
  ∧ (load_test_corpora (H:=toy) ["medical"; "legal"] [] [] s_restart).1.1
    = ["medical"]
  ∧ calls (load_test_corpora (H:=toy) ["medical"; "legal"] [] [] s_restart).2
    = calls s_restart
  ∧ ∃ ix md data,
      odict_get "medical"
        (indexes (load_test_corpora (H:=toy) ["medical"; "legal"] [] [] s_restart).2)
      = Some ix
      ∧ metadata (load_test_corpora (H:=toy) ["medical"; "legal"] [] [] s_restart).2
          !! "medical" = Some md
      ∧ ntotal ix = length md
      ∧ (load_corpus (H:=toy) "medical" s_restart).1 = Ok data
      ∧ odict_get "medical"
          (load_test_corpora (H:=toy) ["medical"; "legal"] [] [] s_restart).1.2
        = Some data.
Proof.
  pose proof s_restart_storage_ok as Hok.
  destruct (load_test_corpora_loads (H:=toy) s_restart ["medical"; "legal"] Hok
              s_restart_typed)
    as (Hloaded & _ & Hcalls & _ & Hall).
  assert (filter (λ c, loadable (H:=toy) s_restart c = true) ["medical"; "legal"]
          = ["medical"]) as Hfilter by (vm_compute; reflexivity).
  rewrite Hfilter in Hloaded.
  destruct (Hall "medical") as (ix & md & data & H1 & H2 & _ & _ & _ & H6 & H7 & _ & H9).
  { rewrite Hloaded. apply list_elem_of_here. }
  split; [exact Hok|]. split; [exact s_restart_typed|].
  split; [exact Hloaded|]. split; [exact Hcalls|].
  exists ix, md, data.
  exact (conj H1 (conj H2 (conj H6 (conj H7 H9)))).
Defined.

Lemma classify_picks_first_best_witness :
  (∀ c, c ∈ ["medical"; "legal"] →
     c ≠ "" ∧ is_Some (odict_get c (indexes s_two)))
  ∧ top_result (H:=toy) s_two "Heart rate" "medical"
    = Some (annotate "medical" 1 (medical_record 1))
  ∧ top_result (H:=toy) s_two "Heart rate" "legal"
    = Some (annotate "legal" 1 (legal_record 0))
  ∧ best_corpus (classify (H:=toy) "Heart rate" ["medical"; "legal"] no_best s_two).1
    = Some "medical"
  ∧ ∃ res l1 l2,
      ["medical"; "legal"] = l1 ++ "medical" :: l2
      ∧ top_result (H:=toy) s_two "Heart rate" "medical" = Some res
      ∧ best_result
          (classify (H:=toy) "Heart rate" ["medical"; "legal"] no_best s_two).1
        = Some res
      ∧ (-1 < similarity_score res)%Q
      ∧ (∀ c' res', c' ∈ l2 →
           top_result (H:=toy) s_two "Heart rate" c' = Some res' →
           (similarity_score res' <= similarity_score res)%Q).
Proof.
  assert (∀ c, c ∈ ["medical"; "legal"] →
            c ≠ "" ∧ is_Some (odict_get c (indexes s_two))) as Hreg.
  { intros c Hc. rewrite !elem_of_cons in Hc.
    destruct Hc as [->|[->|Hc]]; [| |by apply elem_of_nil in Hc].
    - split; [discriminate|]. exists medical_index. vm_compute. reflexivity.
    - split; [discriminate|]. exists legal_index. vm_compute. reflexivity. }
  destruct (classify_picks_first_best (H:=toy) s_two "Heart rate"
              ["medical"; "legal"] Hreg) as (_ & _ & _ & Hbest).
  assert (best_corpus
            (classify (H:=toy) "Heart rate" ["medical"; "legal"] no_best s_two).1
          = Some "medical") as Hc by (vm_compute; reflexivity).
  rewrite Hc in Hbest.
  destruct Hbest as (res & l1 & l2 & E1 & E2 & E3 & _ & E5 & _ & E7).
  split; [exact Hreg|]. split; [vm_compute; reflexivity|].
  split; [vm_compute; reflexivity|]. split; [exact Hc|].
  exists res, l1, l2.
  exact (conj E1 (conj E2 (conj E3 (conj E5 E7)))).
Defined.

Lemma test_corpora_load_after_initialize_witness :
  storage_ok (fs s_init)
  ∧ (load_test_corpora (H:=toy) test_corpora [] [] s_reopened).1.1 = test_corpora.
Proof.
  pose proof s_init_storage_ok as Hok.
  split; [exact Hok|].
  exact (test_corpora_load_after_initialize (H:=toy) s_init
           "2024-01-02T00:00:00" Hok).
Defined.

Lemma get_corpus_stats_after_initialize_witness :
  storage_ok (fs s_init)
  ∧ ∃ stats,
      (get_corpus_stats (H:=toy) s_ready).1 = Ok stats
      ∧ odict_keys stats = odict_keys corpus_sources
      ∧ ∀ c source data,
          odict_get c corpus_sources = Some source →
          odict_get c corpus_data = Some data →
          odict_get c stats
          = Some {| stats_name := source_name source;
                    stats_description := source_description source;
                    stats_domain := source_domain source;
                    stats_entries := length data;
                    stats_indexed := true |}.
Proof.
  pose proof s_init_storage_ok as Hok.
  split; [exact Hok|].
  exact (get_corpus_stats_after_initialize (H:=toy) s_init Hok).
Defined.

